(** * Last-frame bot (src/main.py): a shallow embedding and its properties

    The program is a chat bot that downloads a video, asks ffmpeg for its
    last frame and replies with the picture.  The embedding follows
    [src/main.py] function by function:

    - Python [str] values are Rocq strings of bytes (the UTF-8 encoding of
      the text); [lower]/[upper] map the ASCII letters.  Python lowers
      non-ASCII letters too, but no such letter lowers to a string made of
      the ASCII letters of the names compared here ("png", "jpg", "jpeg",
      "webp", "orig", "1024", "1024sq"), so every membership test below
      agrees with Python's.
    - the three module-level dictionaries are [gmap]s, the scratch
      directory is a [gset] of the paths that exist;
    - the outside world (Bot API, download, ffmpeg, unlink, uuid4) is an
      oracle [Env]: the n-th call of each kind gets the n-th answer, so
      every behaviour of the collaborators is some [Env];
    - [async] functions are functions of a state-and-exception monad; a
      handler's local variables live in a [Locals] record next to the
      [World], as the [finally] block reads what the [try] block assigned.

    Assumed of the platform: [tempfile.gettempdir()] returns a usable
    directory (so [mkdir(parents=True, exist_ok=True)] succeeds), the
    ffmpeg executable can be started, [Path.exists] does not raise, and an
    inbound event carries its sender and chat. *)

From stdpp Require Import gmap strings list fin_maps.
From Stdlib Require Import ZArith Lia Strings.Ascii Numbers.DecimalString.

#[local] Set Warnings "-clear-no-such-hyp".

(** ** Strings as Python uses them *)

Definition lower_ascii (c : ascii) : ascii :=
  let n := nat_of_ascii c in
  if Nat.leb 65 n && Nat.leb n 90 then ascii_of_nat (n + 32) else c.

Definition upper_ascii (c : ascii) : ascii :=
  let n := nat_of_ascii c in
  if Nat.leb 97 n && Nat.leb n 122 then ascii_of_nat (n - 32) else c.

Fixpoint map_string (f : ascii -> ascii) (s : string) : string :=
  match s with
  | EmptyString => EmptyString
  | String c s' => String (f c) (map_string f s')
  end.

(** [str.lower()] and [str.upper()] *)
Definition lower : string -> string := map_string lower_ascii.
Definition upper : string -> string := map_string upper_ascii.

(** [str(n)] for a Python [int] *)
Definition str_int (n : Z) : string := NilZero.string_of_int (Z.to_int n).

(** [sep.join(l)] *)
Fixpoint join (sep : string) (l : list string) : string :=
  match l with
  | [] => ""
  | [x] => x
  | x :: l' => x +:+ sep +:+ join sep l'
  end.

(** [x in s] for a substring test, and [s.startswith(p)] *)
Fixpoint startswith (p s : string) : bool :=
  match p, s with
  | EmptyString, _ => true
  | String a p', String b s' => if decide (a = b) then startswith p' s' else false
  | String _ _, EmptyString => false
  end.

Fixpoint contains (needle s : string) : bool :=
  startswith needle s ||
  match s with
  | EmptyString => false
  | String _ s' => contains needle s'
  end.

(** ** Exceptions *)

(** [subprocess.TimeoutExpired(cmd, timeout)] *)
Record TimeoutExpired := { te_cmd : list string; te_timeout : Z }.

(** The exceptions that travel through the program.  [RuntimeError] keeps
    its [__cause__] (set by [raise ... from e]); [TelegramError] stands
    for whatever the Bot API client raises. *)
Inductive exn :=
| TimeoutExpiredError (e : TimeoutExpired)
| RuntimeError (msg : string) (cause : option TimeoutExpired)
| ValueError (msg : string)
| OSError (msg : string)
| TelegramError (msg : string).

Definition is_OSError (e : exn) : bool :=
  match e with OSError _ => true | _ => false end.

Definition is_TimeoutExpired (e : exn) : bool :=
  match e with TimeoutExpiredError _ => true | _ => false end.

Definition is_Exception (e : exn) : bool := true.

(** [repr(s)] of a [str], as CPython chooses the quote and escapes.  The
    bytes of non-ASCII text are kept, which is what CPython does for
    printable characters; a non-ASCII character that is not printable
    (U+00A0 for one) is escaped by CPython and kept here, so for a path
    with such a character the text of the command inside the timeout
    message differs in that escape. *)
Definition dquote : ascii := ascii_of_nat 34.

Definition hex_digit (n : nat) : ascii :=
  match String.get n "0123456789abcdef" with Some c => c | None => "0"%char end.

Definition repr_char (quote : ascii) (c : ascii) : string :=
  let n := nat_of_ascii c in
  if decide (c = quote) then String "\" (String c "")
  else if decide (c = "\"%char) then "\\"
  else if decide (n = 10) then "\n"
  else if decide (n = 13) then "\r"
  else if decide (n = 9) then "\t"
  else if Nat.ltb n 32 || Nat.eqb n 127
       then "\x" +:+ String (hex_digit (n / 16)) (String (hex_digit (n mod 16)) "")
  else String c "".

Fixpoint concat_map_string (f : ascii -> string) (s : string) : string :=
  match s with
  | EmptyString => ""
  | String c s' => f c +:+ concat_map_string f s'
  end.

Definition repr_str (s : string) : string :=
  let quote : ascii :=
    if contains "'" s && negb (contains (String dquote "") s)
    then dquote else "'"%char in
  String quote (concat_map_string (repr_char quote) s) +:+ String quote "".

(** [repr] of a list of [str] *)
Definition repr_list (l : list string) : string :=
  "[" +:+ join ", " (map repr_str l) +:+ "]".

(** [str(e)]: the message; for [TimeoutExpired], subprocess's format
    "Command '%s' timed out after %s seconds". *)
Definition str_TimeoutExpired (e : TimeoutExpired) : string :=
  "Command '" +:+ repr_list (te_cmd e) +:+ "' timed out after "
  +:+ str_int (te_timeout e) +:+ " seconds".

Definition str_exn (e : exn) : string :=
  match e with
  | TimeoutExpiredError e => str_TimeoutExpired e
  | RuntimeError msg _ | ValueError msg | OSError msg | TelegramError msg => msg
  end.

(** The [e] of [raise ... from e], kept as [__cause__] *)
Definition as_cause (e : exn) : option TimeoutExpired :=
  match e with TimeoutExpiredError t => Some t | _ => None end.

(** ** Bytes and their decoding

    [bytes.decode(errors=...)] with the default encoding UTF-8.  The
    decoder reads a byte at a time; [pending] holds the bytes of a
    sequence that is well formed so far.  A byte that cannot start or
    continue a sequence ends an undecodable range: the error handler
    decides what stands for that range, nothing ([Ignore]) or U+FFFD
    ([Replace]). *)

Inductive error_handler := Ignore | Replace.

Definition on_error (h : error_handler) : list nat :=
  match h with
  | Ignore => []
  | Replace => [239; 191; 189]   (* U+FFFD in UTF-8 *)
  end.

Record utf8_state := {
  pending : list nat;   (* bytes read of the current sequence *)
  need : nat;           (* continuation bytes still to come *)
  lo : nat;             (* the next byte must be in lo..hi *)
  hi : nat;
}.

Definition utf8_idle : utf8_state := {| pending := []; need := 0; lo := 0; hi := 0 |}.

Definition between (a b c : nat) : bool := Nat.leb a b && Nat.leb b c.

(** A byte met outside a sequence: what is emitted and the next state. *)
Definition utf8_start (h : error_handler) (b : nat) : list nat * utf8_state :=
  let lead n l u := ([], {| pending := [b]; need := n; lo := l; hi := u |}) in
  if Nat.ltb b 128 then ([b], utf8_idle)
  else if between 194 b 223 then lead 1 128 191
  else if Nat.eqb b 224 then lead 2 160 191
  else if between 225 b 236 || between 238 b 239 then lead 2 128 191
  else if Nat.eqb b 237 then lead 2 128 159
  else if Nat.eqb b 240 then lead 3 144 191
  else if between 241 b 243 then lead 3 128 191
  else if Nat.eqb b 244 then lead 3 128 143
  else (on_error h, utf8_idle).

Fixpoint utf8_loop (h : error_handler) (st : utf8_state) (bs : list nat) : list nat :=
  match bs with
  | [] => match pending st with [] => [] | _ => on_error h end
  | b :: bs' =>
      match need st with
      | O =>
          let '(out, st') := utf8_start h b in out ++ utf8_loop h st' bs'
      | S n =>
          if between (lo st) b (hi st) then
            match n with
            | O => pending st ++ [b] ++ utf8_loop h utf8_idle bs'
            | S _ => utf8_loop h {| pending := pending st ++ [b]; need := n;
                                    lo := 128; hi := 191 |} bs'
            end
          else
            let '(out, st') := utf8_start h b in
            on_error h ++ out ++ utf8_loop h st' bs'
      end
  end.

Definition string_of_bytes (bs : list nat) : string :=
  String.string_of_list_ascii (map ascii_of_nat bs).

(** [bs.decode(errors=h)]; a byte of [bytes] is its value, 0..255 *)
Definition decode (h : error_handler) (bs : list nat) : string :=
  string_of_bytes (utf8_loop h utf8_idle bs).

(** ** [uuid.uuid4().hex]: 32 hexadecimal digits of a 128-bit integer *)

Fixpoint hex_digits (n : nat) (u : Z) : string :=
  match n with
  | O => ""
  | S n' => hex_digits n' (u / 16) +:+ String (hex_digit (Z.to_nat (u mod 16))) ""
  end.

Definition uuid_hex (u : Z) : string := hex_digits 32 (u mod 2 ^ 128).

(** [Path(d) / name], for a directory written without a trailing slash *)
Definition path_join (d name : string) : string := d +:+ "/" +:+ name.

Definition nl : string := String (ascii_of_nat 10) "".

(** ** The outside world *)

(** What [bot.download] did: the file is at its destination, or the client
    raised, after writing a part of the file or nothing. *)
Inductive download_outcome :=
| Downloaded
| DownloadFailed (msg : string) (partial_file : bool).

(** What [subprocess.run] saw of ffmpeg: the timeout expired, or the
    process exited with a code and its stderr bytes; either way ffmpeg
    may have written its output file. *)
Inductive run_outcome :=
| TimedOut (wrote_output : bool)
| Exited (returncode : Z) (stderr : list nat) (wrote_output : bool).

Record Env := {
  ADMIN_CHAT_ID : option string;          (* os.getenv("ADMIN_CHAT_ID") *)
  gettempdir : string;                    (* tempfile.gettempdir() *)
  env_uuid4 : nat -> Z;                   (* the n-th uuid4(), as an integer *)
  env_api : nat -> option string;         (* the n-th Bot API call: Some msg = it raises *)
  env_download : nat -> download_outcome; (* the n-th bot.download *)
  env_run : nat -> run_outcome;           (* the n-th subprocess.run *)
  env_unlink : nat -> option string;      (* the n-th unlink: Some msg = OSError *)
}.

(** One button of the inline keyboard: its text and callback data. *)
Definition keyboard := list (string * string).

(** What the program did to the outside world, in order. *)
Inductive event :=
| EvChatAction (chat : Z) (action : string)
| EvSendMessage (chat : Z) (text : string)
| EvSendPhoto (chat : Z) (photo : string) (caption : string) (kb : keyboard)
| EvAnswerCallback (text : string) (show_alert : bool)
| EvAdminSend (method : string) (chat_id : string) (file_id : string)
| EvPrint (line : string)
| EvDownload (file_id : string) (dest : string)
| EvRun (cmd : list string) (timeout : Z)
| EvUnlink (p : string).

#[global] Instance event_eq_dec : EqDecision event.
Proof. solve_decision. Defined.

Record World := {
  user_format_prefs : gmap Z string;
  user_size_prefs : gmap Z string;
  user_last_file_id : gmap Z string;
  fs : gset string;            (* the paths that exist *)
  n_uuid : nat;                (* how many answers of each oracle are used *)
  n_api : nat;
  n_download : nat;
  n_run : nat;
  n_unlink : nat;
  trace : list event;          (* newest first *)
}.

Definition set_format_prefs (f : gmap Z string -> gmap Z string) (w : World) : World :=
  {| user_format_prefs := f (user_format_prefs w); user_size_prefs := user_size_prefs w;
     user_last_file_id := user_last_file_id w; fs := fs w; n_uuid := n_uuid w;
     n_api := n_api w; n_download := n_download w; n_run := n_run w;
     n_unlink := n_unlink w; trace := trace w |}.

Definition set_size_prefs (f : gmap Z string -> gmap Z string) (w : World) : World :=
  {| user_format_prefs := user_format_prefs w; user_size_prefs := f (user_size_prefs w);
     user_last_file_id := user_last_file_id w; fs := fs w; n_uuid := n_uuid w;
     n_api := n_api w; n_download := n_download w; n_run := n_run w;
     n_unlink := n_unlink w; trace := trace w |}.

Definition set_last_file_id (f : gmap Z string -> gmap Z string) (w : World) : World :=
  {| user_format_prefs := user_format_prefs w; user_size_prefs := user_size_prefs w;
     user_last_file_id := f (user_last_file_id w); fs := fs w; n_uuid := n_uuid w;
     n_api := n_api w; n_download := n_download w; n_run := n_run w;
     n_unlink := n_unlink w; trace := trace w |}.

Definition set_fs (f : gset string -> gset string) (w : World) : World :=
  {| user_format_prefs := user_format_prefs w; user_size_prefs := user_size_prefs w;
     user_last_file_id := user_last_file_id w; fs := f (fs w); n_uuid := n_uuid w;
     n_api := n_api w; n_download := n_download w; n_run := n_run w;
     n_unlink := n_unlink w; trace := trace w |}.

Definition log (e : event) (w : World) : World :=
  {| user_format_prefs := user_format_prefs w; user_size_prefs := user_size_prefs w;
     user_last_file_id := user_last_file_id w; fs := fs w; n_uuid := n_uuid w;
     n_api := n_api w; n_download := n_download w; n_run := n_run w;
     n_unlink := n_unlink w; trace := e :: trace w |}.

Definition tick_uuid (w : World) : World :=
  {| user_format_prefs := user_format_prefs w; user_size_prefs := user_size_prefs w;
     user_last_file_id := user_last_file_id w; fs := fs w; n_uuid := S (n_uuid w);
     n_api := n_api w; n_download := n_download w; n_run := n_run w;
     n_unlink := n_unlink w; trace := trace w |}.

Definition tick_api (w : World) : World :=
  {| user_format_prefs := user_format_prefs w; user_size_prefs := user_size_prefs w;
     user_last_file_id := user_last_file_id w; fs := fs w; n_uuid := n_uuid w;
     n_api := S (n_api w); n_download := n_download w; n_run := n_run w;
     n_unlink := n_unlink w; trace := trace w |}.

Definition tick_download (w : World) : World :=
  {| user_format_prefs := user_format_prefs w; user_size_prefs := user_size_prefs w;
     user_last_file_id := user_last_file_id w; fs := fs w; n_uuid := n_uuid w;
     n_api := n_api w; n_download := S (n_download w); n_run := n_run w;
     n_unlink := n_unlink w; trace := trace w |}.

Definition tick_run (w : World) : World :=
  {| user_format_prefs := user_format_prefs w; user_size_prefs := user_size_prefs w;
     user_last_file_id := user_last_file_id w; fs := fs w; n_uuid := n_uuid w;
     n_api := n_api w; n_download := n_download w; n_run := S (n_run w);
     n_unlink := n_unlink w; trace := trace w |}.

Definition tick_unlink (w : World) : World :=
  {| user_format_prefs := user_format_prefs w; user_size_prefs := user_size_prefs w;
     user_last_file_id := user_last_file_id w; fs := fs w; n_uuid := n_uuid w;
     n_api := n_api w; n_download := n_download w; n_run := n_run w;
     n_unlink := S (n_unlink w); trace := trace w |}.

(** The state of the process when it starts: empty dictionaries. *)
Definition initial_world (files : gset string) : World :=
  {| user_format_prefs := ∅; user_size_prefs := ∅; user_last_file_id := ∅;
     fs := files; n_uuid := 0; n_api := 0; n_download := 0; n_run := 0;
     n_unlink := 0; trace := [] |}.

(** ** The monad of the program: state and exceptions *)

Inductive result (A : Type) :=
| Ok (a : A)
| Raise (e : exn).
Arguments Ok {A} a.
Arguments Raise {A} e.

Definition M (S A : Type) : Type := S -> result A * S.

Definition ret {S A} (a : A) : M S A := fun s => (Ok a, s).

Definition bind {S A B} (m : M S A) (k : A -> M S B) : M S B :=
  fun s => match m s with
           | (Ok a, s') => k a s'
           | (Raise e, s') => (Raise e, s')
           end.

Definition raise {S A} (e : exn) : M S A := fun s => (Raise e, s).
Definition gets {S A} (f : S -> A) : M S A := fun s => (Ok (f s), s).
Definition modify {S} (f : S -> S) : M S unit := fun s => (Ok tt, f s).

(** [try: body / except C as e: handler e], where [catches] is the class test *)
Definition try_except {S A} (body : M S A) (catches : exn -> bool)
    (handler : exn -> M S A) : M S A :=
  fun s => match body s with
           | (Ok a, s') => (Ok a, s')
           | (Raise e, s') => if catches e then handler e s' else (Raise e, s')
           end.

(** [try: body / finally: fin]: [fin] runs on every path; what it raises
    replaces the outcome of [body]. *)
Definition try_finally {S A} (body : M S A) (fin : M S unit) : M S A :=
  fun s => match body s with
           | (r, s') => match fin s' with
                        | (Ok _, s'') => (r, s'')
                        | (Raise e, s'') => (Raise e, s'')
                        end
           end.

Declare Scope prog_scope.
Delimit Scope prog_scope with prog.
Notation "x <- m ;; k" := (bind m (fun x => k))
  (at level 100, m at next level, right associativity) : prog_scope.
Notation "m ;;; k" := (bind m (fun _ => k))
  (at level 100, right associativity) : prog_scope.
Open Scope prog_scope.

(** ** The filter graphs handed to ffmpeg

    [extract_last_frame] passes ffmpeg a filter graph as text.  To say what
    the text asks for, the fragment of ffmpeg's filter language that the
    program uses is given a syntax, a printer (the program's literals are
    the printed form, [scale_filter_is] and [scale_crop_filter_is] below)
    and the meaning ffmpeg's documentation gives it: [gt(x,y)] is 1 when
    x > y and 0 otherwise, [if(c,t,e)] is [t] when [c] is not 0 and [e]
    otherwise; a [scale] size of 0 is the input's, a size of -n keeps the
    aspect ratio from the other size, is made divisible by n and is at
    least n (ffmpeg makes no side of 0 pixels: a 2 x 4000 picture leaves
    the first graph below as 2 x 1024), two negative sizes are the
    input's; [force_original_aspect_ratio=increase]
    enlarges the sizes to keep the input's aspect ratio; [crop=w:h] takes
    the centered w x h rectangle and fails when the picture is smaller. *)

Inductive fexpr :=
| FNum (n : Z)
| FIw
| FIh
| FGt (a b : fexpr)
| FIf (c t e : fexpr).

Inductive aspect_mode := Disable | Decrease | Increase.

Inductive vfilter :=
| Scale (w h : fexpr) (force_original_aspect_ratio : aspect_mode)
| Crop (w h : fexpr).

Fixpoint print_fexpr (e : fexpr) : string :=
  match e with
  | FNum n => str_int n
  | FIw => "iw"
  | FIh => "ih"
  | FGt a b => "gt(" +:+ print_fexpr a +:+ "," +:+ print_fexpr b +:+ ")"
  | FIf c t e =>
      "if(" +:+ print_fexpr c +:+ "," +:+ print_fexpr t +:+ "," +:+ print_fexpr e +:+ ")"
  end.

(** An argument that contains a comma is quoted. *)
Definition print_arg (e : fexpr) : string :=
  match e with
  | FNum _ | FIw | FIh => print_fexpr e
  | _ => "'" +:+ print_fexpr e +:+ "'"
  end.

Definition print_vfilter (f : vfilter) : string :=
  match f with
  | Scale w h mode =>
      "scale=" +:+ print_arg w +:+ ":" +:+ print_arg h +:+
      match mode with
      | Disable => ""
      | Decrease => ":force_original_aspect_ratio=decrease"
      | Increase => ":force_original_aspect_ratio=increase"
      end
  | Crop w h => "crop=" +:+ print_arg w +:+ ":" +:+ print_arg h
  end.

Definition print_filters (chain : list vfilter) : string :=
  join "," (map print_vfilter chain).

Fixpoint eval_fexpr (iw ih : Z) (e : fexpr) : Z :=
  match e with
  | FNum n => n
  | FIw => iw
  | FIh => ih
  | FGt a b => if (eval_fexpr iw ih b <? eval_fexpr iw ih a)%Z then 1%Z else 0%Z
  | FIf c t e =>
      if (eval_fexpr iw ih c =? 0)%Z then eval_fexpr iw ih e else eval_fexpr iw ih t
  end.

(** ffmpeg's [av_rescale(a, b, c)]: a * b / c rounded to the nearest *)
Definition av_rescale (a b c : Z) : Z := ((a * b + c / 2) / c)%Z.

(** The output size of [scale=w:h] on an [iw] x [ih] picture, from the
    values of its two expressions. *)
Definition scale_size (iw ih : Z) (w h : Z) (mode : aspect_mode) : Z * Z :=
  let w := if (w =? 0)%Z then iw else w in
  let h := if (h =? 0)%Z then ih else h in
  let factor_w := if (w <? -1)%Z then (- w)%Z else 1%Z in
  let factor_h := if (h <? -1)%Z then (- h)%Z else 1%Z in
  let '(w, h) := if (w <? 0)%Z && (h <? 0)%Z then (iw, ih) else (w, h) in
  let w := if (w <? 0)%Z
           then (Z.max 1 (av_rescale h iw (ih * factor_w)) * factor_w)%Z else w in
  let h := if (h <? 0)%Z
           then (Z.max 1 (av_rescale w ih (iw * factor_h)) * factor_h)%Z else h in
  match mode with
  | Disable => (w, h)
  | Decrease => (Z.min (av_rescale h iw ih) w, Z.min (av_rescale w ih iw) h)
  | Increase => (Z.max (av_rescale h iw ih) w, Z.max (av_rescale w ih iw) h)
  end.

(** The rectangle [crop=w:h] takes: its left, top, width and height. *)
Definition crop_rect (iw ih w h : Z) : Z * Z * Z * Z :=
  (((iw - w) / 2)%Z, ((ih - h) / 2)%Z, w, h).

Definition apply_vfilter (size : Z * Z) (f : vfilter) : option (Z * Z) :=
  let '(iw, ih) := size in
  match f with
  | Scale w h mode => Some (scale_size iw ih (eval_fexpr iw ih w) (eval_fexpr iw ih h) mode)
  | Crop w h =>
      let cw := eval_fexpr iw ih w in
      let ch := eval_fexpr iw ih h in
      if (0 <? cw)%Z && (0 <? ch)%Z && (cw <=? iw)%Z && (ch <=? ih)%Z
      then Some (cw, ch) else None
  end.

(** The size of the picture that leaves a chain of filters. *)
Fixpoint apply_filters (size : Z * Z) (chain : list vfilter) : option (Z * Z) :=
  match chain with
  | [] => Some size
  | f :: chain' =>
      match apply_vfilter size f with
      | Some size' => apply_filters size' chain'
      | None => None
      end
  end.

(** The two graphs of the program, as syntax. *)
Definition scale_1024 : list vfilter :=
  [Scale (FIf (FGt FIw FIh) (FNum 1024) (FNum (-2)))
         (FIf (FGt FIh FIw) (FNum 1024) (FNum (-2))) Disable].

Definition scale_crop_1024sq : list vfilter :=
  [Scale (FNum 1024) (FNum 1024) Increase; Crop (FNum 1024) (FNum 1024)].

(** ** The program *)

(** An inbound message: who sent it, where, and the file id of each
    attached media object ([None]: the attribute is absent). *)
Record Message := {
  from_user_id : Z;
  chat_id : Z;
  video : option string;
  video_note : option string;
  animation : option string;
}.

(** A button press: who pressed, and the chat of the message it is under. *)
Record CallbackQuery := {
  cb_from_user_id : Z;
  cb_chat_id : Z;
  cb_data : string;
}.

(** The local variables that a handler's [finally] block reads. *)
Record Locals := {
  tmp_video_path : option string;
  frame_path : option string;
}.

Definition liftW {A} (m : M World A) : M (World * Locals) A :=
  fun s => match m (fst s) with (r, w') => (r, (w', snd s)) end.

Definition assign_tmp_video_path (p : string) : M (World * Locals) unit :=
  modify (fun s => (fst s, {| tmp_video_path := Some p; frame_path := frame_path (snd s) |})).

Definition assign_frame_path (p : string) : M (World * Locals) unit :=
  modify (fun s => (fst s, {| tmp_video_path := tmp_video_path (snd s); frame_path := Some p |})).

(** Runs a handler body with both locals set to [None]. *)
Definition with_locals {A} (m : M (World * Locals) A) : M World A :=
  fun w => match m (w, {| tmp_video_path := None; frame_path := None |}) with
           | (r, s) => (r, fst s)
           end.

(** *** Preference store (lines 46-86) *)

Definition get_user_format (w : World) (user_id : Z) : string :=
  default "png" (user_format_prefs w !! user_id).

Definition set_user_format (user_id : Z) (fmt : string) : M World unit :=
  let fmt := lower fmt in
  let fmt := if decide (fmt = "jpeg") then "jpg" else fmt in
  let fmt := if bool_decide (fmt ∉ ["png"; "jpg"; "webp"]) then "png" else fmt in
  modify (set_format_prefs <[user_id := fmt]>).

Definition get_user_size (w : World) (user_id : Z) : string :=
  default "orig" (user_size_prefs w !! user_id).

Definition set_user_size (user_id : Z) (size : string) : M World unit :=
  let size := lower size in
  let size := if bool_decide (size ∉ ["orig"; "1024"; "1024sq"]) then "orig" else size in
  modify (set_size_prefs <[user_id := size]>).

Definition describe_size (size_mode : string) : string :=
  let size_mode := lower size_mode in
  if decide (size_mode = "1024") then "большая сторона 1024 px"
  else if decide (size_mode = "1024sq") then "квадрат 1024×1024 (кроп по центру)"
  else "оригинальное разрешение".

Definition size_labels (sz : string) : string :=
  if decide (sz = "orig") then "Оригинал"
  else if decide (sz = "1024") then "1024 px"
  else "Квадрат 1024×1024".

(** The buttons in the order they are added (lines 89-128). *)
Definition build_settings_keyboard (w : World) (user_id : Z) : keyboard :=
  let current_fmt := get_user_format w user_id in
  let current_size := get_user_size w user_id in
  map (fun fmt =>
         (upper fmt +:+ (if decide (fmt = current_fmt) then " ✅" else ""),
          "fmt:" +:+ fmt)) ["png"; "jpg"; "webp"]
  ++ map (fun sz =>
            (size_labels sz +:+ (if decide (sz = current_size) then " ✅" else ""),
             "size:" +:+ sz)) ["orig"; "1024"; "1024sq"]
  ++ [("🔁 Перегенерировать", "regen")].

(** *** Frame extraction: the pure parts (lines 150-180) *)

(** Lines 150-154: the extension of the output file. *)
Definition frame_format (output_format : string) : string :=
  let output_format := lower output_format in
  let output_format :=
    if bool_decide (output_format ∉ ["png"; "jpg"; "jpeg"; "webp"]) then "png"
    else output_format in
  if decide (output_format = "jpeg") then "jpg" else output_format.

Definition scale_filter : string :=
  "scale='if(gt(iw,ih),1024,-2)':'if(gt(ih,iw),1024,-2)'".

Definition scale_crop_filter : string :=
  "scale=1024:1024:force_original_aspect_ratio=increase," +:+ "crop=1024:1024".

(** Lines 166-175: the [-vf] arguments for a size mode. *)
Definition vf_args (size_mode : string) : list string :=
  let size_mode := lower size_mode in
  if decide (size_mode = "1024") then ["-vf"; scale_filter]
  else if decide (size_mode = "1024sq") then ["-vf"; scale_crop_filter]
  else [].

(** Lines 159-180: the command line. *)
Definition ffmpeg_cmd (input_path size_mode output_path : string) : list string :=
  ["ffmpeg"; "-y"; "-sseof"; "-0.1"; "-i"; input_path]
  ++ vf_args size_mode
  ++ ["-vframes"; "1"; output_path].

(** Line 157: the name of the output file. *)
Definition frame_name (hex output_format : string) : string :=
  "last_frame_" +:+ hex +:+ "." +:+ output_format.

Section Program.

Context (env : Env).

(** *** What the program asks of the outside world *)

(** [uuid.uuid4().hex] *)
Definition uuid4_hex : M World string :=
  fun w => (Ok (uuid_hex (env_uuid4 env (n_uuid w))), tick_uuid w).

(** A call of the Bot API (send, answer, chat action). *)
Definition api_call (e : event) : M World unit :=
  fun w =>
    let w' := tick_api (log e w) in
    match env_api env (n_api w) with
    | None => (Ok tt, w')
    | Some msg => (Raise (TelegramError msg), w')
    end.

(** [bot.download(file, destination=dest)] *)
Definition bot_download (file_id dest : string) : M World unit :=
  fun w =>
    let w' := tick_download (log (EvDownload file_id dest) w) in
    match env_download env (n_download w) with
    | Downloaded => (Ok tt, set_fs (union {[dest]}) w')
    | DownloadFailed msg partial_file =>
        (Raise (TelegramError msg), if partial_file then set_fs (union {[dest]}) w' else w')
    end.

(** [subprocess.run(cmd, stdout=PIPE, stderr=PIPE, timeout=timeout)]: the
    return code and stderr of the process, or [TimeoutExpired].  ffmpeg
    writes to the last argument of its command line. *)
Definition subprocess_run (cmd : list string) (timeout : Z) : M World (Z * list nat) :=
  fun w =>
    let w' := tick_run (log (EvRun cmd timeout) w) in
    let after (wrote : bool) := if wrote then set_fs (union {[List.last cmd ""]}) w' else w' in
    match env_run env (n_run w) with
    | TimedOut wrote =>
        (Raise (TimeoutExpiredError {| te_cmd := cmd; te_timeout := timeout |}), after wrote)
    | Exited returncode stderr wrote => (Ok (returncode, stderr), after wrote)
    end.

(** [p.exists()] *)
Definition path_exists (p : string) : M World bool :=
  gets (fun w => bool_decide (p ∈ fs w)).

(** [p.unlink()] of an existing file *)
Definition unlink (p : string) : M World unit :=
  fun w =>
    let w' := tick_unlink (log (EvUnlink p) w) in
    match env_unlink env (n_unlink w) with
    | None => (Ok tt, set_fs (fun s => s ∖ {[p]}) w')
    | Some msg => (Raise (OSError msg), w')
    end.

(** *** extract_last_frame (lines 134-197) *)

Definition extract_last_frame (input_path : string)
    (output_format size_mode : option string) (timeout_sec : option Z) : M World string :=
  let output_format := default "png" output_format in
  let size_mode := default "orig" size_mode in
  let timeout_sec := default 60%Z timeout_sec in
  let output_format := frame_format output_format in
  let tmp_dir := gettempdir env in
  hex <- uuid4_hex;;
  let output_path := path_join tmp_dir (frame_name hex output_format) in
  let cmd := ffmpeg_cmd input_path size_mode output_path in
  result <- try_except (subprocess_run cmd timeout_sec) is_TimeoutExpired
              (fun e => raise (RuntimeError ("ffmpeg timeout: " +:+ str_exn e) (as_cause e)));;
  let '(returncode, stderr) := result in
  present <- path_exists output_path;;
  if negb (returncode =? 0)%Z || negb present then
    raise (RuntimeError
             ("Ошибка ffmpeg (код " +:+ str_int returncode +:+ "): "
              +:+ decode Ignore stderr) None)
  else ret output_path.

(** *** Media transfer (lines 200-238) *)

(** The media object the message carries, in the order the code tests. *)
Definition message_media (message : Message) : option string :=
  match video message, video_note message, animation message with
  | Some v, _, _ => Some v
  | None, Some n, _ => Some n
  | None, None, a => a
  end.

Definition download_video_to_temp (message : Message) : M World string :=
  let tmp_dir := gettempdir env in
  let file_suffix := ".mp4" in
  hex <- uuid4_hex;;
  let tmp_path := path_join tmp_dir ("input_" +:+ hex +:+ file_suffix) in
  file_obj <- match message_media message with
              | Some f => ret f
              | None => raise (ValueError "В сообщении нет поддерживаемого видео")
              end;;
  bot_download file_obj tmp_path;;;
  ret tmp_path.

Definition download_file_id_to_temp (file_id : string) : M World string :=
  let tmp_dir := gettempdir env in
  hex <- uuid4_hex;;
  let tmp_path := path_join tmp_dir ("input_" +:+ hex +:+ ".mp4") in
  bot_download file_id tmp_path;;;
  ret tmp_path.

(** *** send_video_to_admin (lines 241-265) *)

Definition send_video_to_admin (message : Message) : M World unit :=
  match ADMIN_CHAT_ID env with
  | None => ret tt
  | Some admin =>
      if decide (admin = "") then ret tt
      else
        try_except
          match video message, video_note message, animation message with
          | Some v, _, _ => api_call (EvAdminSend "send_video" admin v)
          | None, Some n, _ => api_call (EvAdminSend "send_video_note" admin n)
          | None, None, Some a => api_call (EvAdminSend "send_animation" admin a)
          | None, None, None => ret tt
          end
          is_Exception
          (fun e => modify (log (EvPrint ("Не удалось отправить видео владельцу: "
                                          +:+ str_exn e))))
  end.

(** *** The cleanup of both handlers (lines 343-348 and 434-439) *)

Definition cleanup_path (p : option string) : M (World * Locals) unit :=
  match p with
  | Some p =>
      present <- liftW (path_exists p);;
      if present then try_except (liftW (unlink p)) is_OSError (fun _ => ret tt)
      else ret tt
  | None => ret tt
  end.

Definition cleanup : M (World * Locals) unit :=
  l <- gets snd;;
  cleanup_path (tmp_video_path l);;;
  cleanup_path (frame_path l).

(** *** handle_video (lines 300-348) *)

Definition handle_video (message : Message) : M World unit :=
  api_call (EvChatAction (chat_id message) "upload_photo");;;
  let user_id := from_user_id message in
  preferred_format <- gets (fun w => get_user_format w user_id);;
  size_mode <- gets (fun w => get_user_size w user_id);;
  match video message, video_note message, animation message with
  | Some v, _, _ => modify (set_last_file_id <[user_id := v]>)
  | None, Some n, _ => modify (set_last_file_id <[user_id := n]>)
  | None, None, Some a => modify (set_last_file_id <[user_id := a]>)
  | None, None, None => ret tt
  end;;;
  send_video_to_admin message;;;
  with_locals
    (try_finally
       (try_except
          (p <- liftW (download_video_to_temp message);;
           assign_tmp_video_path p;;;
           f <- liftW (extract_last_frame p (Some preferred_format) (Some size_mode) None);;
           assign_frame_path f;;;
           let photo := f in
           let caption :=
             "Последний кадр из твоего видео." +:+ nl +:+ nl
             +:+ "Формат: " +:+ upper preferred_format +:+ nl
             +:+ "Размер: " +:+ describe_size size_mode in
           kb <- liftW (gets (fun w => build_settings_keyboard w user_id));;
           liftW (api_call (EvSendPhoto (chat_id message) photo caption kb)))
          is_Exception
          (fun e =>
             liftW (api_call (EvSendMessage (chat_id message)
                      ("Не получилось обработать видео 😔" +:+ nl
                       +:+ "Ошибка: " +:+ str_exn e)))))
       cleanup).

(** *** cb_regenerate (lines 386-439) *)

Definition cb_regenerate (callback : CallbackQuery) : M World unit :=
  let user_id := cb_from_user_id callback in
  file_id <- gets (fun w => user_last_file_id w !! user_id);;
  match file_id with
  | None =>
      api_call (EvAnswerCallback "Нет сохранённого видео — пришли сначала ролик 🎥" true)
  | Some file_id =>
      if decide (file_id = "") then
        api_call (EvAnswerCallback "Нет сохранённого видео — пришли сначала ролик 🎥" true)
      else
        preferred_format <- gets (fun w => get_user_format w user_id);;
        size_mode <- gets (fun w => get_user_size w user_id);;
        with_locals
          (try_finally
             (try_except
                (liftW (api_call (EvChatAction (cb_chat_id callback) "upload_photo"));;;
                 p <- liftW (download_file_id_to_temp file_id);;
                 assign_tmp_video_path p;;;
                 f <- liftW (extract_last_frame p (Some preferred_format)
                               (Some size_mode) None);;
                 assign_frame_path f;;;
                 let photo := f in
                 let caption :=
                   "Перегенерированный последний кадр." +:+ nl +:+ nl
                   +:+ "Формат: " +:+ upper preferred_format +:+ nl
                   +:+ "Размер: " +:+ describe_size size_mode in
                 kb <- liftW (gets (fun w => build_settings_keyboard w user_id));;
                 liftW (api_call (EvSendPhoto (cb_chat_id callback) photo caption kb));;;
                 liftW (api_call (EvAnswerCallback
                                    "Готово! Перегенерировал с текущими настройками ✅" false)))
                is_Exception
                (fun e =>
                   liftW (api_call (EvAnswerCallback "Не получилось перегенерировать 😔" true));;;
                   liftW (api_call (EvSendMessage (cb_chat_id callback)
                                      ("Ошибка при перегенерации: " +:+ str_exn e)))))
             cleanup)
  end.

End Program.

(** ** Names for what a call draws and runs *)

(** The output path that a call started in world [w] draws. *)
Definition output_path_at (env : Env) (w : World) (output_format : option string) : string :=
  path_join (gettempdir env)
    (frame_name (uuid_hex (env_uuid4 env (n_uuid w)))
       (frame_format (default "png" output_format))).

(** The command line of such a call. *)
Definition cmd_at (env : Env) (w : World) (input_path : string)
    (output_format size_mode : option string) : list string :=
  ffmpeg_cmd input_path (default "orig" size_mode) (output_path_at env w output_format).

(** The world after ffmpeg ran: the call is logged and, when ffmpeg wrote
    its output, the output file exists. *)
Definition after_run (env : Env) (w : World) (input_path : string)
    (output_format size_mode : option string) (timeout_sec : option Z)
    (wrote : bool) : World :=
  let w' := tick_run (log (EvRun (cmd_at env w input_path output_format size_mode)
                              (default 60%Z timeout_sec)) (tick_uuid w)) in
  if wrote then set_fs (union {[output_path_at env w output_format]}) w' else w'.

(** The path that a download started in world [w] draws. *)
Definition video_path_at (env : Env) (w : World) : string :=
  path_join (gettempdir env)
    ("input_" +:+ uuid_hex (env_uuid4 env (n_uuid w)) +:+ ".mp4").

(** The world after [bot.download] was called: the call is logged and,
    when the client wrote the file or a part of it, the file exists. *)
Definition after_download (env : Env) (w : World) (file_id : string) (wrote : bool) : World :=
  let w' := tick_download (log (EvDownload file_id (video_path_at env w)) (tick_uuid w)) in
  if wrote then set_fs (union {[video_path_at env w]}) w' else w'.

(** ** Views of a world, and the shape the two handlers share *)

(** The steps of the pipeline among the events: transfer, extraction,
    the photo reply (by the file it sends) and deletion. *)
Definition pipeline_event (e : event) : option event :=
  match e with
  | EvDownload _ _ | EvRun _ _ | EvUnlink _ => Some e
  | EvSendPhoto _ photo _ _ => Some (EvSendPhoto 0 photo "" [])
  | _ => None
  end.

Definition pipeline (w : World) : list event := omap pipeline_event (trace w).

(** The three dictionaries are the same in both worlds. *)
Definition store_eq (w w' : World) : Prop :=
  user_format_prefs w' = user_format_prefs w ∧
  user_size_prefs w' = user_size_prefs w ∧
  user_last_file_id w' = user_last_file_id w.

(** Two worlds that differ at most in their chat messages: the same
    files, the same pipeline steps so far, the same draws ahead. *)
Definition same_view (w w' : World) : Prop :=
  fs w' = fs w ∧ pipeline w' = pipeline w ∧
  n_uuid w' = n_uuid w ∧ n_download w' = n_download w ∧
  n_run w' = n_run w ∧ n_unlink w' = n_unlink w.

(** Every stored reference is a file id as Telegram gives them: not the
    empty string. *)
Definition references_nonempty (w : World) : Prop :=
  ∀ user_id file_id, user_last_file_id w !! user_id = Some file_id → file_id ≠ "".

(** The paths that were handed to unlink, newest first. *)
Definition unlinked (w : World) : list string :=
  omap (λ e, match e with EvUnlink p => Some p | _ => None end) (trace w).

Definition not_OSError {A} (r : result A) : Prop :=
  match r with Raise (OSError _) => False | _ => True end.

(** A computation that only talks to the chat: it leaves the locals, the
    dictionaries and the files alone, adds the steps [added] to the
    pipeline, and does not raise [OSError]. *)
Definition quiet {A} (added : list event) (m : M (World * Locals) A) : Prop :=
  ∀ s, (m s).2.2 = s.2 ∧ store_eq s.1 (m s).2.1 ∧
       fs (m s).2.1 = fs s.1 ∧ pipeline (m s).2.1 = added ++ pipeline s.1 ∧
       n_uuid (m s).2.1 = n_uuid s.1 ∧ n_download (m s).2.1 = n_download s.1 ∧
       n_run (m s).2.1 = n_run s.1 ∧ n_unlink (m s).2.1 = n_unlink s.1 ∧
       not_OSError (m s).1.

(** Download, extract, reply: the [try] block of both handlers. *)
Definition work (env : Env) (download : M World string)
    (preferred_format size_mode : string)
    (reply : string → M (World * Locals) unit) : M (World * Locals) unit :=
  p <- liftW download;;
  assign_tmp_video_path p;;;
  f <- liftW (extract_last_frame env p (Some preferred_format) (Some size_mode) None);;
  assign_frame_path f;;;
  reply f.

(** [try: body / except Exception as e: on_error e / finally: cleanup] *)
Definition guarded (env : Env) (body : M (World * Locals) unit)
    (on_error : exn → M (World * Locals) unit) : M World unit :=
  with_locals (try_finally (try_except body is_Exception on_error) (cleanup env)).

Definition hv_reply (env : Env) (message : Message) (preferred_format size_mode : string)
    (f : string) : M (World * Locals) unit :=
  kb <- liftW (gets (fun w => build_settings_keyboard w (from_user_id message)));;
  liftW (api_call env (EvSendPhoto (chat_id message) f
           ("Последний кадр из твоего видео." +:+ nl +:+ nl
            +:+ "Формат: " +:+ upper preferred_format +:+ nl
            +:+ "Размер: " +:+ describe_size size_mode) kb)).

Definition hv_on_error (env : Env) (message : Message) (e : exn) : M (World * Locals) unit :=
  liftW (api_call env (EvSendMessage (chat_id message)
           ("Не получилось обработать видео 😔" +:+ nl +:+ "Ошибка: " +:+ str_exn e))).

Definition cb_reply (env : Env) (callback : CallbackQuery)
    (preferred_format size_mode : string) (f : string) : M (World * Locals) unit :=
  kb <- liftW (gets (fun w => build_settings_keyboard w (cb_from_user_id callback)));;
  liftW (api_call env (EvSendPhoto (cb_chat_id callback) f
           ("Перегенерированный последний кадр." +:+ nl +:+ nl
            +:+ "Формат: " +:+ upper preferred_format +:+ nl
            +:+ "Размер: " +:+ describe_size size_mode) kb));;;
  liftW (api_call env (EvAnswerCallback
                         "Готово! Перегенерировал с текущими настройками ✅" false)).

Definition cb_on_error (env : Env) (callback : CallbackQuery) (e : exn)
    : M (World * Locals) unit :=
  liftW (api_call env (EvAnswerCallback "Не получилось перегенерировать 😔" true));;;
  liftW (api_call env (EvSendMessage (cb_chat_id callback)
                         ("Ошибка при перегенерации: " +:+ str_exn e))).

(** The paths a handler holds in its locals. *)
Definition held (l : Locals) : gset string :=
  from_option singleton ∅ (tmp_video_path l) ∪ from_option singleton ∅ (frame_path l).

(** The collaborators on their good behaviour: every unlink succeeds, and
    a download or an ffmpeg run that fails leaves no file behind. *)
Definition unlink_succeeds (env : Env) : Prop := ∀ n, env_unlink env n = None.

Definition failures_leave_no_file (env : Env) : Prop :=
  (∀ n msg, env_download env n ≠ DownloadFailed msg true) ∧
  (∀ n, env_run env n ≠ TimedOut true) ∧
  (∀ n returncode stderr, env_run env n = Exited returncode stderr true → returncode = 0%Z).

(** The world after one round of the cleanup loop. *)
Definition after_cleanup_path (env : Env) (p : option string) (w : World) : World :=
  match p with
  | Some p =>
      if bool_decide (p ∈ fs w) then
        let w' := tick_unlink (log (EvUnlink p) w) in
        match env_unlink env (n_unlink w) with
        | None => set_fs (fun s => s ∖ {[p]}) w'
        | Some _ => w'
        end
      else w
  | None => w
  end.

(** What the handlers rely on in a transfer or an extraction: it leaves
    the dictionaries alone, does not raise [OSError], creates at most the
    file it returns, and creates no file when it raises, if the
    collaborators leave none behind. *)
Definition creates_its_result (env : Env) (m : M World string) : Prop :=
  ∀ w, store_eq w (m w).2 ∧ not_OSError (m w).1 ∧
       match (m w).1 with
       | Ok p => fs (m w).2 ⊆ {[p]} ∪ fs w
       | Raise _ => failures_leave_no_file env → fs (m w).2 ⊆ fs w
       end.

(** ** Sample collaborators and inputs *)

(** Everything works: ffmpeg exits with 0 and writes its output. *)
Definition env_ok : Env :=
  {| ADMIN_CHAT_ID := None; gettempdir := "/tmp";
     env_uuid4 := fun n => Z.of_nat (n + 10);
     env_api := fun _ => None;
     env_download := fun _ => Downloaded;
     env_run := fun _ => Exited 0 [] true;
     env_unlink := fun _ => None |}.

Definition with_run (env : Env) (run : run_outcome) : Env :=
  {| ADMIN_CHAT_ID := ADMIN_CHAT_ID env; gettempdir := gettempdir env;
     env_uuid4 := env_uuid4 env; env_api := env_api env;
     env_download := env_download env; env_run := fun _ => run;
     env_unlink := env_unlink env |}.

(** As [env_ok], but no file can be deleted. *)
Definition env_unlink_fails : Env :=
  {| ADMIN_CHAT_ID := None; gettempdir := "/tmp";
     env_uuid4 := fun n => Z.of_nat (n + 10);
     env_api := fun _ => None;
     env_download := fun _ => Downloaded;
     env_run := fun _ => Exited 0 [] true;
     env_unlink := fun _ => Some "Permission denied" |}.

(** As [env_ok], but the download fails. *)
Definition env_download_fails : Env :=
  {| ADMIN_CHAT_ID := None; gettempdir := "/tmp";
     env_uuid4 := fun n => Z.of_nat (n + 10);
     env_api := fun _ => None;
     env_download := fun _ => DownloadFailed "Bad Request: file is too big" false;
     env_run := fun _ => Exited 0 [] true;
     env_unlink := fun _ => None |}.

(** ffmpeg exits with 1 and one byte on stderr that is not UTF-8. *)
Definition env_stderr_not_utf8 : Env := with_run env_ok (Exited 1 [255] false).

(** ffmpeg exits with 1 after it wrote its output file. *)
Definition env_exit_1_after_writing : Env := with_run env_ok (Exited 1 [] true).

(** ffmpeg does not finish in time. *)
Definition env_timeout : Env := with_run env_ok (TimedOut false).

(** ffmpeg is stopped at the timeout after it wrote its output file. *)
Definition env_timeout_after_writing : Env := with_run env_ok (TimedOut true).

(** As [env_ok], but the download breaks off after a part of the file is
    written. *)
Definition env_download_partial : Env :=
  {| ADMIN_CHAT_ID := None; gettempdir := "/tmp";
     env_uuid4 := fun n => Z.of_nat (n + 10);
     env_api := fun _ => None;
     env_download := fun _ => DownloadFailed "Request timeout error" true;
     env_run := fun _ => Exited 0 [] true;
     env_unlink := fun _ => None |}.

Definition message_with_video (user_id : Z) (file_id : string) : Message :=
  {| from_user_id := user_id; chat_id := user_id; video := Some file_id;
     video_note := None; animation := None |}.

Definition message_without_media (user_id : Z) : Message :=
  {| from_user_id := user_id; chat_id := user_id; video := None;
     video_note := None; animation := None |}.

Definition regen_pressed (user_id : Z) : CallbackQuery :=
  {| cb_from_user_id := user_id; cb_chat_id := user_id; cb_data := "regen" |}.

(** A world in which the user's last file id is [file_id]. *)
Definition world_with_last (user_id : Z) (file_id : string) : World :=
  set_last_file_id <[user_id := file_id]> (initial_world ∅).

(** ** The settings buttons, the callback filters and the start-up

    The rest of [src/main.py] that holds logic: the two settings handlers
    (lines 364-383), the filters under which the three callback handlers
    are registered (lines 364, 375, 386) and the module-level
    configuration (lines 21-38).  [edit_reply_markup] is logged apart from
    the [trace], in [edited]. *)

(** [s.split(":", 1)]: the string itself when it has no colon, else what
    is before the first colon and what is after it. *)
Fixpoint split_colon (s : string) : list string :=
  match s with
  | EmptyString => [""]
  | String c s' =>
      if decide (c = ":"%char) then [""; s']
      else match split_colon s' with
           | x :: rest => String c x :: rest
           | [] => [String c ""]
           end
  end.

(** A world together with the keyboards that [edit_reply_markup] put
    under messages (by chat, newest first). *)
Record UiWorld := {
  world : World;
  edited : list (Z * keyboard);
}.

Definition liftU {A} (m : M World A) : M UiWorld A :=
  fun u => match m (world u) with
           | (r, w') => (r, {| world := w'; edited := edited u |})
           end.

Section Settings.

Context (env : Env).

(** [callback.message.edit_reply_markup(reply_markup=kb)]: a Bot API call *)
Definition edit_reply_markup (chat : Z) (kb : keyboard) : M UiWorld unit :=
  fun u =>
    let u' := {| world := tick_api (world u); edited := (chat, kb) :: edited u |} in
    match env_api env (n_api (world u)) with
    | None => (Ok tt, u')
    | Some msg => (Raise (TelegramError msg), u')
    end.

(** cb_set_format (lines 364-372).  [None]: the index [1] is out of range
    ([IndexError]), which happens before anything else is done. *)
Definition cb_set_format (callback : CallbackQuery) : option (M UiWorld unit) :=
  let user_id := cb_from_user_id callback in
  match split_colon (cb_data callback) !! 1 with
  | None => None
  | Some fmt =>
      Some (liftU (set_user_format user_id fmt);;;
            kb <- liftU (gets (fun w => build_settings_keyboard w user_id));;
            edit_reply_markup (cb_chat_id callback) kb;;;
            text <- liftU (gets (fun w => "Формат установлен: "
                                          +:+ upper (get_user_format w user_id)));;
            liftU (api_call env (EvAnswerCallback text false)))
  end.

(** cb_set_size (lines 375-383) *)
Definition cb_set_size (callback : CallbackQuery) : option (M UiWorld unit) :=
  let user_id := cb_from_user_id callback in
  match split_colon (cb_data callback) !! 1 with
  | None => None
  | Some size =>
      Some (liftU (set_user_size user_id size);;;
            kb <- liftU (gets (fun w => build_settings_keyboard w user_id));;
            edit_reply_markup (cb_chat_id callback) kb;;;
            text <- liftU (gets (fun w => "Размер установлен: "
                                          +:+ describe_size (get_user_size w user_id)));;
            liftU (api_call env (EvAnswerCallback text false)))
  end.

End Settings.

(** The callback handlers, and the one the dispatcher picks for a button
    press: the first, in the order of registration, whose filter accepts
    the callback data. *)
Inductive callback_handler := SetFormat | SetSize | Regenerate.

Definition route_callback (data : string) : option callback_handler :=
  if startswith "fmt:" data then Some SetFormat
  else if startswith "size:" data then Some SetSize
  else if decide (data = "regen") then Some Regenerate
  else None.

(** [s.rstrip("/")] *)
Fixpoint rstrip_slash (s : string) : string :=
  match s with
  | EmptyString => ""
  | String c s' =>
      match rstrip_slash s' with
      | EmptyString => if decide (c = "/"%char) then "" else String c ""
      | r => String c r
      end
  end.

(** [a or b] for two results of [os.getenv] *)
Definition or_else (a b : option string) : option string :=
  match a with
  | Some (String _ _) => a
  | _ => b
  end.

(** [not x] for a result of [os.getenv] *)
Definition falsy (x : option string) : bool :=
  match x with
  | Some (String _ _) => false
  | _ => true
  end.

Record Config := {
  BOT_TOKEN : string;
  config_ADMIN_CHAT_ID : option string;
  BASE_WEBHOOK_URL : string;
  WEBHOOK_URL : string;
}.

(** Lines 21-38, as a function of the environment variables. *)
Definition load_config (getenv : string → option string) : result Config :=
  let token := getenv "BOT_TOKEN" in
  if falsy token then Raise (RuntimeError "Не задан BOT_TOKEN в переменных окружения" None)
  else
    let admin := getenv "ADMIN_CHAT_ID" in
    let base := or_else (getenv "WEBHOOK_BASE_URL") (getenv "RENDER_EXTERNAL_URL") in
    if falsy base then
      Raise (RuntimeError
               ("Не удалось определить BASE_WEBHOOK_URL. "
                +:+ "На Render переменная RENDER_EXTERNAL_URL должна быть доступна автоматически.")
               None)
    else
      let base := rstrip_slash (default "" base) in
      let WEBHOOK_PATH := "/webhook" in
      Ok {| BOT_TOKEN := default "" token; config_ADMIN_CHAT_ID := admin;
            BASE_WEBHOOK_URL := base; WEBHOOK_URL := base +:+ WEBHOOK_PATH |}.

(** ** Notions for the properties of the handlers *)

(** [s.endswith(p)] *)
Fixpoint endswith (p s : string) : bool :=
  if decide (s = p) then true
  else match s with
       | EmptyString => false
       | String _ s' => endswith p s'
       end.

(** The buttons that carry the mark of a current setting. *)
Definition marked (kb : keyboard) : keyboard :=
  filter (λ b, endswith " ✅" b.1 = true) kb.

(** Every stored preference is one that the setters store. *)
Definition prefs_valid (w : World) : Prop :=
  (∀ u fmt, user_format_prefs w !! u = Some fmt → fmt ∈ ["png"; "jpg"; "webp"]) ∧
  (∀ u sz, user_size_prefs w !! u = Some sz → sz ∈ ["orig"; "1024"; "1024sq"]).

(** What [send_video_to_admin] sends for a message, when the owner's chat
    is configured: one post, by the first media attribute present. *)
Definition admin_post (env : Env) (message : Message) : list event :=
  match ADMIN_CHAT_ID env with
  | None => []
  | Some admin =>
      if decide (admin = "") then []
      else match video message, video_note message, animation message with
           | Some v, _, _ => [EvAdminSend "send_video" admin v]
           | None, Some n, _ => [EvAdminSend "send_video_note" admin n]
           | None, None, Some a => [EvAdminSend "send_animation" admin a]
           | None, None, None => []
           end
  end.

(** A handler ends normally or with an error of the Bot API client. *)
Definition ok_or_chat_error (r : result unit) : Prop :=
  r = Ok tt ∨ ∃ msg, r = Raise (TelegramError msg).

(** The world in which the guarded block of [handle_video] starts, when
    the chat action went through: the action is logged, the file id is
    recorded and the copy for the owner is sent. *)
Definition hv_start (env : Env) (message : Message) (w : World) : World :=
  let w1 := tick_api (log (EvChatAction (chat_id message) "upload_photo") w) in
  let w2 := match message_media message with
            | Some f => set_last_file_id <[from_user_id message := f]> w1
            | None => w1
            end in
  (send_video_to_admin env message w2).2.

(** The frame path of a handler whose download draws in world [w]: the
    extraction draws next. *)
Definition frame_path_at (env : Env) (w : World) (output_format : string) : string :=
  output_path_at env (tick_uuid w) (Some output_format).

(** The world after both files of a successful run are deleted. *)
Definition after_unlinks (video frame : string) (w : World) : World :=
  set_fs (λ s, s ∖ {[frame]})
    (tick_unlink (log (EvUnlink frame)
       (set_fs (λ s, s ∖ {[video]}) (tick_unlink (log (EvUnlink video) w))))).

(** What the handlers rely on in a transfer, for the files that are
    there already: it deletes none, draws one uuid, and the path it
    returns is the one of that draw. *)
Definition draws_its_path (env : Env) (download : M World string) : Prop :=
  ∀ w, fs w ⊆ fs (download w).2 ∧ n_uuid (download w).2 = S (n_uuid w) ∧
       ∀ p, (download w).1 = Ok p → p = video_path_at env w.

(** A run of [n] slashes. *)
Fixpoint slashes (n : nat) : string :=
  match n with
  | 0 => ""
  | S n => String "/" (slashes n)
  end.

(** An environment variable that is set to a non-empty value. *)
Definition is_set (getenv : string → option string) (name : string) : Prop :=
  ∃ v, getenv name = Some v ∧ v ≠ "".

(** * Properties *)

(** ** The filter graphs: the literals are the printed syntax *)

Lemma scale_filter_is : scale_filter = print_filters scale_1024.
Proof. reflexivity. Qed.

Lemma scale_crop_filter_is : scale_crop_filter = print_filters scale_crop_1024sq.
Proof. reflexivity. Qed.

(** ** extract_last_frame: what it runs and what it returns *)

Lemma last_ffmpeg_cmd input_path size_mode output_path :
  List.last (ffmpeg_cmd input_path size_mode output_path) "" = output_path.
Proof.
  unfold ffmpeg_cmd, vf_args.
  repeat case_decide; reflexivity.
Qed.

(** [extract_last_frame], by the outcome of the ffmpeg run. *)
Lemma extract_last_frame_eq env input_path output_format size_mode timeout_sec w :
  extract_last_frame env input_path output_format size_mode timeout_sec w =
  match env_run env (n_run w) with
  | TimedOut wrote =>
      let e := {| te_cmd := cmd_at env w input_path output_format size_mode;
                  te_timeout := default 60%Z timeout_sec |} in
      (Raise (RuntimeError ("ffmpeg timeout: " +:+ str_TimeoutExpired e) (Some e)),
       after_run env w input_path output_format size_mode timeout_sec wrote)
  | Exited returncode stderr wrote =>
      let w' := after_run env w input_path output_format size_mode timeout_sec wrote in
      if negb (returncode =? 0)%Z
         || negb (bool_decide (output_path_at env w output_format ∈ fs w'))
      then (Raise (RuntimeError ("Ошибка ffmpeg (код " +:+ str_int returncode +:+ "): "
                                 +:+ decode Ignore stderr) None), w')
      else (Ok (output_path_at env w output_format), w')
  end.
Proof.
  unfold extract_last_frame, after_run, cmd_at, output_path_at, bind, try_except,
    subprocess_run, uuid4_hex, path_exists, gets, raise, ret.
  cbn [n_run tick_uuid].
  rewrite last_ffmpeg_cmd.
  destruct (env_run env (n_run w)) as [wrote|returncode stderr wrote]; cbn.
  - reflexivity.
  - destruct wrote; cbn; destruct (negb (returncode =? 0)%Z || _); reflexivity.
Qed.

(** ** Preference store *)

(** Membership in a list written out: unfold it to the equations. *)
Ltac in_list :=
  rewrite ?elem_of_cons, ?elem_of_nil in *; intuition (try congruence; try discriminate).

Lemma frame_format_member s : frame_format s ∈ ["png"; "jpg"; "webp"].
Proof.
  unfold frame_format.
  case_bool_decide as Hin.
  - rewrite decide_False by discriminate. in_list.
  - case_decide as Hj; in_list.
Qed.

(** What [set_user_format] stores is what [extract_last_frame] makes of
    the same raw format. *)
Lemma set_user_format_stores (user_id : Z) (raw : string) (w : World) :
  set_user_format user_id raw w
  = (Ok tt, set_format_prefs <[user_id := frame_format raw]> w).
Proof.
  unfold set_user_format, frame_format, modify. do 3 f_equal.
  generalize (lower raw). intros l.
  destruct (decide (l = "jpeg")) as [->|Hjpeg]; [reflexivity|].
  destruct (decide (l ∈ ["png"; "jpg"; "webp"])) as [Hin|Hout].
  - rewrite !bool_decide_eq_false_2 by in_list. by rewrite decide_False.
  - rewrite !bool_decide_eq_true_2 by in_list. reflexivity.
Qed.

(** C3: after [set_user_format] the stored format is one of png, jpg and
    webp: the lower-cased input when that is one of them, jpg when it is
    jpeg, png otherwise; after [set_user_size] the stored size is one of
    orig, 1024 and 1024sq: the lower-cased input when that is one of them,
    orig otherwise.  Both setters return normally, and a user with no entry
    reads png and orig. *)
Theorem C3_preferences_normalized (w : World) (user_id : Z) (raw : string) :
  let wf := (set_user_format user_id raw w).2 in
  let ws := (set_user_size user_id raw w).2 in
  (set_user_format user_id raw w).1 = Ok tt ∧
  (set_user_size user_id raw w).1 = Ok tt ∧
  get_user_format wf user_id ∈ ["png"; "jpg"; "webp"] ∧
  (lower raw = "jpeg" → get_user_format wf user_id = "jpg") ∧
  (lower raw ∈ ["png"; "jpg"; "webp"] → get_user_format wf user_id = lower raw) ∧
  (lower raw ∉ ["png"; "jpg"; "jpeg"; "webp"] → get_user_format wf user_id = "png") ∧
  get_user_size ws user_id ∈ ["orig"; "1024"; "1024sq"] ∧
  (lower raw ∈ ["orig"; "1024"; "1024sq"] → get_user_size ws user_id = lower raw) ∧
  (lower raw ∉ ["orig"; "1024"; "1024sq"] → get_user_size ws user_id = "orig") ∧
  (user_format_prefs w !! user_id = None → get_user_format w user_id = "png") ∧
  (user_size_prefs w !! user_id = None → get_user_size w user_id = "orig").
Proof.
  cbn zeta.
  unfold set_user_format, set_user_size, get_user_format, get_user_size, modify.
  cbn [fst snd set_format_prefs set_size_prefs user_format_prefs user_size_prefs].
  rewrite !lookup_insert_eq. cbn [default].
  repeat split.
  - case_decide; case_bool_decide; in_list.
  - intros ->. reflexivity.
  - intros Hin. case_decide as Hj.
    + rewrite Hj in Hin. in_list.
    + rewrite bool_decide_eq_false_2; [reflexivity | tauto].
  - intros Hout. rewrite decide_False by (intros Hj; apply Hout; rewrite Hj; in_list).
    rewrite bool_decide_eq_true_2; [reflexivity | in_list].
  - case_bool_decide as Hin; [in_list | done].
  - intros Hin. rewrite bool_decide_eq_false_2; [reflexivity | tauto].
  - intros Hout. by rewrite bool_decide_eq_true_2.
  - intros ->. reflexivity.
  - intros ->. reflexivity.
Qed.

(** C3 at a sample input: a mixed-case jpeg is stored as jpg, an unknown
    size as orig. *)
Lemma C3_preferences_witness :
  get_user_format (set_user_format 7 "JpEg" (initial_world ∅)).2 7 = "jpg" ∧
  get_user_size (set_user_size 7 "huge" (initial_world ∅)).2 7 = "orig".
Proof.
  pose proof (C3_preferences_normalized (initial_world ∅) 7 "JpEg") as Hf.
  pose proof (C3_preferences_normalized (initial_world ∅) 7 "huge") as Hs.
  cbn zeta in Hf, Hs.
  destruct Hf as (_ & _ & _ & Hjpeg & _).
  destruct Hs as (_ & _ & _ & _ & _ & _ & _ & _ & Horig & _).
  split.
  - apply Hjpeg. reflexivity.
  - apply Horig. vm_compute. intros H. 
    repeat (apply elem_of_cons in H as [H|H]; [discriminate H|]).
    by apply elem_of_nil in H.
Defined.

(** ** The size transforms *)

Lemma trace_after_run env w input_path output_format size_mode timeout_sec wrote :
  trace (after_run env w input_path output_format size_mode timeout_sec wrote) =
  EvRun (cmd_at env w input_path output_format size_mode) (default 60%Z timeout_sec)
  :: trace w.
Proof. unfold after_run. destruct wrote; reflexivity. Qed.

(** Whatever ffmpeg does, the call logs one run of the command line. *)
Lemma extract_last_frame_trace env input_path output_format size_mode timeout_sec w :
  trace (extract_last_frame env input_path output_format size_mode timeout_sec w).2 =
  EvRun (cmd_at env w input_path output_format size_mode) (default 60%Z timeout_sec)
  :: trace w.
Proof.
  rewrite extract_last_frame_eq.
  destruct (env_run env (n_run w)) as [wrote|returncode stderr wrote]; cbn zeta.
  - apply trace_after_run.
  - destruct (negb (returncode =? 0)%Z || _); apply trace_after_run.
Qed.

(** Rounding to the nearest multiple of 2: the result is within one of
    the exact quotient. *)
Lemma av_rescale_even_close (n a b : Z) :
  (0 < b)%Z → (0 ≤ n * a)%Z →
  let h := (av_rescale n a (b * 2) * 2)%Z in
  Z.even h = true ∧ (Z.abs (h * b - n * a) ≤ b)%Z.
Proof.
  intros Hb Hna. cbn zeta. unfold av_rescale.
  replace (b * 2 / 2)%Z with b by (symmetry; apply Z.div_mul; lia).
  pose proof (Z.div_mod (n * a + b) (b * 2) ltac:(lia)) as Hdm.
  pose proof (Z.mod_pos_bound (n * a + b) (b * 2) ltac:(lia)) as Hr.
  set (q := ((n * a + b) / (b * 2))%Z) in *.
  split.
  - rewrite Z.even_mul. apply orb_true_r.
  - apply Z.abs_le. nia.
Qed.

Lemma av_rescale_nonneg (n a b : Z) :
  (0 < b)%Z → (0 ≤ n * a)%Z → (0 ≤ av_rescale n a b)%Z.
Proof.
  intros Hb Hna. unfold av_rescale. apply Z.div_pos; [|lia].
  pose proof (Z.div_pos b 2 ltac:(lia) ltac:(lia)). lia.
Qed.

(** A side that is computed from the other one, with factor 2: it is
    even and at least 2; it is within one pixel of the proportional size
    when that is at least one pixel, and within two pixels of it in every
    case. *)
Lemma adjusted_even_close (n a b : Z) :
  (0 < b)%Z → (0 < n * a)%Z →
  let h := (Z.max 1 (av_rescale n a (b * 2)) * 2)%Z in
  Z.even h = true ∧ (2 ≤ h)%Z ∧
  (Z.abs (h * b - n * a) < 2 * b)%Z ∧
  ((b ≤ n * a)%Z → (Z.abs (h * b - n * a) ≤ b)%Z).
Proof.
  intros Hb Hna. cbn zeta.
  destruct (av_rescale_even_close n a b Hb ltac:(lia)) as (_ & Hclose).
  pose proof (av_rescale_nonneg n a (b * 2) ltac:(lia) ltac:(lia)) as Hq.
  cbn zeta in Hclose. set (q := av_rescale n a (b * 2)) in *.
  split; [rewrite Z.even_mul; apply orb_true_r|].
  split; [lia|].
  destruct (Z.le_gt_cases 1 q) as [Hone|Hzero].
  - rewrite Z.max_r by lia. split; [lia|auto].
  - assert (q = 0)%Z as -> by lia. rewrite Z.max_l by lia.
    rewrite Z.mul_0_l in Hclose. split; lia.
Qed.

(** Rounding to the nearest: the result is within a half of the quotient. *)
Lemma av_rescale_close (n a b : Z) :
  (0 < b)%Z → (0 ≤ n * a)%Z →
  (2 * Z.abs (av_rescale n a b * b - n * a) ≤ b)%Z.
Proof.
  intros Hb Hna. unfold av_rescale.
  pose proof (Z.div_mod (n * a + b / 2) b ltac:(lia)) as Hdm.
  pose proof (Z.mod_pos_bound (n * a + b / 2) b ltac:(lia)) as Hr.
  pose proof (Z.div_mod b 2 ltac:(lia)) as Hb2.
  pose proof (Z.mod_pos_bound b 2 ltac:(lia)) as Hr2.
  set (q := ((n * a + b / 2) / b)%Z) in *.
  set (half := (b / 2)%Z) in *.
  assert (Z.abs (q * b - n * a) ≤ half)%Z; [apply Z.abs_le; nia | lia].
Qed.

Lemma av_rescale_ge (n a b : Z) :
  (0 < b)%Z → (b ≤ a)%Z → (0 ≤ n)%Z → (n ≤ av_rescale n a b)%Z.
Proof.
  intros Hb Hab Hn. unfold av_rescale.
  apply Z.div_le_lower_bound; [lia|].
  pose proof (Z.div_pos b 2 ltac:(lia) ltac:(lia)).
  assert (n * b ≤ n * a)%Z by (apply Z.mul_le_mono_nonneg_l; lia). lia.
Qed.

Lemma av_rescale_le (n a b : Z) :
  (0 < a)%Z → (a ≤ b)%Z → (0 ≤ n)%Z → (av_rescale n a b ≤ n)%Z.
Proof.
  intros Ha Hab Hn. unfold av_rescale.
  assert (b / 2 < b)%Z by (apply Z.div_lt; lia).
  assert (n * a ≤ n * b)%Z by (apply Z.mul_le_mono_nonneg_l; lia).
  assert ((n * a + b / 2) / b < n + 1)%Z; [|lia].
  apply Z.div_lt_upper_bound; lia.
Qed.

(** When the proportional size is less than one pixel, the nearest
    multiple of 2 is 0. *)
Lemma thin_rescales_to_0 (n a b : Z) :
  (0 < b)%Z → (0 ≤ n * a)%Z → (n * a < b)%Z → av_rescale n a (b * 2) = 0%Z.
Proof.
  intros Hb Hna Hthin.
  pose proof (av_rescale_nonneg n a (b * 2) ltac:(lia) Hna) as Hq.
  unfold av_rescale in *.
  replace (b * 2 / 2)%Z with b in * by (symmetry; apply Z.div_mul; lia).
  assert ((n * a + b) / (b * 2) < 1)%Z; [|lia].
  apply Z.div_lt_upper_bound; lia.
Qed.

Lemma eval_if_gt (iw ih : Z) (a b : fexpr) :
  eval_fexpr iw ih (FIf (FGt a b) (FNum 1024) (FNum (-2))) =
  if (eval_fexpr iw ih b <? eval_fexpr iw ih a)%Z then 1024%Z else (-2)%Z.
Proof. cbn. destruct (_ <? _)%Z; reflexivity. Qed.

Lemma scale_1024_landscape (iw ih : Z) :
  (ih < iw)%Z →
  apply_filters (iw, ih) scale_1024
  = Some (1024, Z.max 1 (av_rescale 1024 ih (iw * 2)) * 2)%Z.
Proof.
  intros H. unfold scale_1024, apply_filters, apply_vfilter.
  rewrite !eval_if_gt. cbn [eval_fexpr].
  rewrite (proj2 (Z.ltb_lt ih iw) H), (proj2 (Z.ltb_ge iw ih)) by lia.
  reflexivity.
Qed.

Lemma scale_1024_portrait (iw ih : Z) :
  (iw < ih)%Z →
  apply_filters (iw, ih) scale_1024
  = Some (Z.max 1 (av_rescale 1024 iw (ih * 2)) * 2, 1024)%Z.
Proof.
  intros H. unfold scale_1024, apply_filters, apply_vfilter.
  rewrite !eval_if_gt. cbn [eval_fexpr].
  rewrite (proj2 (Z.ltb_lt iw ih) H), (proj2 (Z.ltb_ge ih iw)) by lia.
  reflexivity.
Qed.

Lemma scale_1024_square (n : Z) :
  (0 < n)%Z → apply_filters (n, n) scale_1024 = Some (n, n).
Proof.
  intros Hn. unfold scale_1024, apply_filters, apply_vfilter.
  rewrite !eval_if_gt. cbn [eval_fexpr].
  rewrite Z.ltb_irrefl. cbn.
  rewrite (proj2 (Z.ltb_ge n 0)) by lia. reflexivity.
Qed.

(** C4: with size mode 1024 ffmpeg is run with the filter graph
    [scale_1024].  On a landscape picture the graph gives width 1024 and
    a height that is even, not 0, and the proportional height rounded:
    within one pixel of it whenever the proportional height is at least
    one pixel, and the smallest even height, 2, when it is less.  On a
    portrait picture it gives height 1024 and such a width.  One graph
    serves both: its expressions compare [iw] and [ih] when ffmpeg
    evaluates them. *)
Theorem C4_scale_1024_orientation (env : Env) (w : World) (input_path : string)
    (output_format : option string) (timeout_sec : option Z) (iw ih : Z) :
  (0 < iw)%Z → (0 < ih)%Z →
  trace (extract_last_frame env input_path output_format (Some "1024") timeout_sec w).2 =
    EvRun ["ffmpeg"; "-y"; "-sseof"; "-0.1"; "-i"; input_path;
           "-vf"; print_filters scale_1024;
           "-vframes"; "1"; output_path_at env w output_format]
          (default 60%Z timeout_sec) :: trace w ∧
  ((ih < iw)%Z →
     ∃ h, apply_filters (iw, ih) scale_1024 = Some (1024%Z, h) ∧
          Z.even h = true ∧ (2 ≤ h)%Z ∧
          (Z.abs (h * iw - 1024 * ih) < 2 * iw)%Z ∧
          ((iw ≤ 1024 * ih)%Z → (Z.abs (h * iw - 1024 * ih) ≤ iw)%Z) ∧
          ((1024 * ih < iw)%Z → h = 2%Z)) ∧
  ((iw < ih)%Z →
     ∃ w', apply_filters (iw, ih) scale_1024 = Some (w', 1024%Z) ∧
           Z.even w' = true ∧ (2 ≤ w')%Z ∧
           (Z.abs (w' * ih - 1024 * iw) < 2 * ih)%Z ∧
           ((ih ≤ 1024 * iw)%Z → (Z.abs (w' * ih - 1024 * iw) ≤ ih)%Z) ∧
           ((1024 * iw < ih)%Z → w' = 2%Z)).
Proof.
  intros Hw Hh. split; [|split].
  - rewrite extract_last_frame_trace. reflexivity.
  - intros Hl. eexists. split; [apply scale_1024_landscape, Hl|].
    destruct (adjusted_even_close 1024 ih iw Hw ltac:(lia))
      as (Heven & Hpos & Htwo & Hone).
    split; [exact Heven|]. split; [exact Hpos|]. split; [exact Htwo|].
    split; [exact Hone|]. intros Hthin.
    by rewrite (thin_rescales_to_0 1024 ih iw) by lia.
  - intros Hp. eexists. split; [apply scale_1024_portrait, Hp|].
    destruct (adjusted_even_close 1024 iw ih Hh ltac:(lia))
      as (Heven & Hpos & Htwo & Hone).
    split; [exact Heven|]. split; [exact Hpos|]. split; [exact Htwo|].
    split; [exact Hone|]. intros Hthin.
    by rewrite (thin_rescales_to_0 1024 iw ih) by lia.
Qed.

(** C5: with size mode 1024sq ffmpeg is run with the graph
    [scale_crop_1024sq]: the scale enlarges the picture, keeping its aspect
    ratio to the nearest pixel, until it covers 1024 x 1024 (both sides at
    least 1024, one of them exactly), the crop takes the centered
    1024 x 1024 rectangle, so the output is 1024 x 1024 for every input
    size.  With size mode orig the command has no filter argument. *)
Theorem C5_square_crop_and_orig (env : Env) (w : World) (input_path : string)
    (output_format : option string) (timeout_sec : option Z) (iw ih : Z) :
  (0 < iw)%Z → (0 < ih)%Z →
  trace (extract_last_frame env input_path output_format (Some "1024sq") timeout_sec w).2 =
    EvRun ["ffmpeg"; "-y"; "-sseof"; "-0.1"; "-i"; input_path;
           "-vf"; print_filters scale_crop_1024sq;
           "-vframes"; "1"; output_path_at env w output_format]
          (default 60%Z timeout_sec) :: trace w ∧
  (∃ sw sh,
     apply_filters (iw, ih) [Scale (FNum 1024) (FNum 1024) Increase] = Some (sw, sh) ∧
     (1024 ≤ sw)%Z ∧ (1024 ≤ sh)%Z ∧ (sw = 1024%Z ∨ sh = 1024%Z) ∧
     (2 * Z.abs (sw * ih - sh * iw) ≤ Z.max iw ih)%Z ∧
     apply_filters (sw, sh) [Crop (FNum 1024) (FNum 1024)] = Some (1024, 1024)%Z ∧
     crop_rect sw sh 1024 1024 = ((sw - 1024) / 2, (sh - 1024) / 2, 1024, 1024)%Z) ∧
  apply_filters (iw, ih) scale_crop_1024sq = Some (1024, 1024)%Z ∧
  trace (extract_last_frame env input_path output_format (Some "orig") timeout_sec w).2 =
    EvRun ["ffmpeg"; "-y"; "-sseof"; "-0.1"; "-i"; input_path;
           "-vframes"; "1"; output_path_at env w output_format]
          (default 60%Z timeout_sec) :: trace w.
Proof.
  intros Hw Hh.
  assert (Hscale : ∃ sw sh,
     apply_filters (iw, ih) [Scale (FNum 1024) (FNum 1024) Increase] = Some (sw, sh) ∧
     (1024 ≤ sw)%Z ∧ (1024 ≤ sh)%Z ∧ (sw = 1024%Z ∨ sh = 1024%Z) ∧
     (2 * Z.abs (sw * ih - sh * iw) ≤ Z.max iw ih)%Z).
  { exists (Z.max (av_rescale 1024 iw ih) 1024), (Z.max (av_rescale 1024 ih iw) 1024).
    split; [reflexivity|].
    destruct (Z.le_ge_cases ih iw) as [Hle|Hle].
    - pose proof (av_rescale_ge 1024 iw ih Hh Hle ltac:(lia)).
      pose proof (av_rescale_le 1024 ih iw Hh Hle ltac:(lia)).
      pose proof (av_rescale_close 1024 iw ih Hh ltac:(lia)).
      rewrite (Z.max_l (av_rescale 1024 iw ih)), (Z.max_r (av_rescale 1024 ih iw)) by lia.
      repeat split; try lia. 
    - pose proof (av_rescale_ge 1024 ih iw Hw Hle ltac:(lia)).
      pose proof (av_rescale_le 1024 iw ih Hw Hle ltac:(lia)).
      pose proof (av_rescale_close 1024 ih iw Hw ltac:(lia)).
      rewrite (Z.max_r (av_rescale 1024 iw ih)), (Z.max_l (av_rescale 1024 ih iw)) by lia.
      repeat split; try lia. }
  destruct Hscale as (sw & sh & Hs & Hsw & Hsh & Hone & Hratio).
  assert (Hcrop : apply_filters (sw, sh) [Crop (FNum 1024) (FNum 1024)]
                  = Some (1024, 1024)%Z).
  { cbn. rewrite (proj2 (Z.leb_le 1024 sw) Hsw), (proj2 (Z.leb_le 1024 sh) Hsh).
    reflexivity. }
  repeat split.
  - rewrite extract_last_frame_trace. reflexivity.
  - exists sw, sh. repeat split; assumption.
  - cbn [scale_crop_1024sq apply_filters] in *.
    destruct (apply_vfilter (iw, ih) _) as [[sw' sh']|]; [|discriminate].
    injection Hs as -> ->. exact Hcrop.
  - rewrite extract_last_frame_trace. reflexivity.
Qed.

(** C10: the [-vf] argument that [extract_last_frame] hands to ffmpeg for
    size mode 1024 is the text of [scale_1024].  Each of its two
    expressions is 1024 exactly under a strict inequality between the
    input's sides; on a square input both are the placeholder -2, and the
    scale then leaves the picture at its own size: no side is set to
    1024 (unless the picture is 1024 x 1024 already). *)
Theorem C10_square_input_keeps_size (env : Env) (w : World) (input_path : string)
    (output_format : option string) (timeout_sec : option Z) (n : Z) :
  (0 < n)%Z →
  trace (extract_last_frame env input_path output_format (Some "1024") timeout_sec w).2 =
    EvRun ["ffmpeg"; "-y"; "-sseof"; "-0.1"; "-i"; input_path;
           "-vf"; "scale='if(gt(iw,ih),1024,-2)':'if(gt(ih,iw),1024,-2)'";
           "-vframes"; "1"; output_path_at env w output_format]
          (default 60%Z timeout_sec) :: trace w ∧
  vf_args "1024" = ["-vf"; print_filters scale_1024] ∧
  "scale='if(gt(iw,ih),1024,-2)':'if(gt(ih,iw),1024,-2)'" = print_filters
    [Scale (FIf (FGt FIw FIh) (FNum 1024) (FNum (-2)))
           (FIf (FGt FIh FIw) (FNum 1024) (FNum (-2))) Disable] ∧
  scale_1024 = [Scale (FIf (FGt FIw FIh) (FNum 1024) (FNum (-2)))
                      (FIf (FGt FIh FIw) (FNum 1024) (FNum (-2))) Disable] ∧
  (∀ iw ih, eval_fexpr iw ih (FIf (FGt FIw FIh) (FNum 1024) (FNum (-2))) = 1024%Z
            ↔ (ih < iw)%Z) ∧
  (∀ iw ih, eval_fexpr iw ih (FIf (FGt FIh FIw) (FNum 1024) (FNum (-2))) = 1024%Z
            ↔ (iw < ih)%Z) ∧
  eval_fexpr n n (FIf (FGt FIw FIh) (FNum 1024) (FNum (-2))) = (-2)%Z ∧
  eval_fexpr n n (FIf (FGt FIh FIw) (FNum 1024) (FNum (-2))) = (-2)%Z ∧
  apply_filters (n, n) scale_1024 = Some (n, n) ∧
  (n ≠ 1024%Z → ∀ sw sh, apply_filters (n, n) scale_1024 = Some (sw, sh) →
                         sw ≠ 1024%Z ∧ sh ≠ 1024%Z).
Proof.
  intros Hn.
  split; [rewrite extract_last_frame_trace; reflexivity|].
  split; [reflexivity|]. split; [reflexivity|]. split; [reflexivity|].
  split; [|split; [|split; [|split; [|split]]]].
  - intros iw ih. rewrite eval_if_gt. cbn [eval_fexpr].
    destruct (Z.ltb_spec ih iw); split; (lia || discriminate || reflexivity).
  - intros iw ih. rewrite eval_if_gt. cbn [eval_fexpr].
    destruct (Z.ltb_spec iw ih); split; (lia || discriminate || reflexivity).
  - rewrite eval_if_gt. cbn [eval_fexpr]. rewrite Z.ltb_irrefl. reflexivity.
  - rewrite eval_if_gt. cbn [eval_fexpr]. rewrite Z.ltb_irrefl. reflexivity.
  - apply scale_1024_square, Hn.
  - intros Hne sw sh. rewrite (scale_1024_square n Hn). intros [= <- <-]. done.
Qed.

(** ** Names of the transient files *)

Lemma append_inj_l (s a b : string) : s +:+ a = s +:+ b → a = b.
Proof. induction s as [|c s IH]; cbn; [auto | intros [= H]; auto]. Qed.

Lemma length_append (a b : string) :
  String.length (a +:+ b) = String.length a + String.length b.
Proof. induction a as [|c a IH]; simpl; [reflexivity | by rewrite IH]. Qed.

Lemma append_inj_length (a b x y : string) :
  String.length a = String.length b → a +:+ x = b +:+ y → a = b ∧ x = y.
Proof.
  revert b. induction a as [|c a IH]; intros [|d b] Hlen Heq; try discriminate.
  - auto.
  - cbn in Hlen, Heq. injection Heq as -> Heq. injection Hlen as Hlen.
    destruct (IH b Hlen Heq) as [-> ->]. auto.
Qed.

Lemma length_hex_digits (n : nat) (u : Z) : String.length (hex_digits n u) = n.
Proof.
  revert u. induction n as [|n IH]; intros u; cbn [hex_digits]; [reflexivity|].
  rewrite length_append, IH. cbn. lia.
Qed.

Lemma hex_digit_inj (n m : nat) :
  n < 16 → m < 16 → hex_digit n = hex_digit m → n = m.
Proof.
  intros Hn Hm.
  do 16 (destruct n as [|n]; [do 16 (destruct m as [|m]; [first [reflexivity|discriminate]|]); lia|]).
  lia.
Qed.

Lemma hex_digits_inj (n : nat) (u v : Z) :
  (0 ≤ u < 16 ^ Z.of_nat n)%Z → (0 ≤ v < 16 ^ Z.of_nat n)%Z →
  hex_digits n u = hex_digits n v → u = v.
Proof.
  revert u v. induction n as [|n IH]; intros u v Hu Hv Heq.
  - cbn in Hu, Hv. lia.
  - rewrite Nat2Z.inj_succ, Z.pow_succ_r in Hu, Hv by lia.
    cbn [hex_digits] in Heq.
    apply append_inj_length in Heq as [Hhi Hlo];
      [|by rewrite !length_hex_digits].
    injection Hlo as Hlo.
    pose proof (Z.mod_pos_bound u 16 ltac:(lia)).
    pose proof (Z.mod_pos_bound v 16 ltac:(lia)).
    apply hex_digit_inj in Hlo; [|lia..].
    apply Z2Nat.inj in Hlo; [|lia..].
    apply IH in Hhi.
    + rewrite (Z.div_mod u 16), (Z.div_mod v 16) by lia. congruence.
    + split; [apply Z.div_pos; lia | apply Z.div_lt_upper_bound; lia].
    + split; [apply Z.div_pos; lia | apply Z.div_lt_upper_bound; lia].
Qed.

Lemma uuid_hex_inj (u v : Z) :
  uuid_hex u = uuid_hex v → (u mod 2 ^ 128 = v mod 2 ^ 128)%Z.
Proof.
  unfold uuid_hex. apply hex_digits_inj.
  - change (16 ^ Z.of_nat 32)%Z with (2 ^ 128)%Z. apply Z.mod_pos_bound. lia.
  - change (16 ^ Z.of_nat 32)%Z with (2 ^ 128)%Z. apply Z.mod_pos_bound. lia.
Qed.

(** Two output paths are the same only when the same uuid was drawn. *)
Lemma output_path_at_inj env w1 w2 fmt1 fmt2 :
  output_path_at env w1 fmt1 = output_path_at env w2 fmt2 →
  (env_uuid4 env (n_uuid w1) mod 2 ^ 128 = env_uuid4 env (n_uuid w2) mod 2 ^ 128)%Z.
Proof.
  unfold output_path_at, path_join, frame_name. intros H.
  do 3 apply append_inj_l in H.
  apply append_inj_length in H as [H _].
  - by apply uuid_hex_inj.
  - unfold uuid_hex. by rewrite !length_hex_digits.
Qed.

(** C6: the command seeks to 0.1 s before the end of the input
    ([-sseof -0.1] before [-i]), takes one frame ([-vframes 1]) and writes
    to [last_frame_<uuid>.<format>] in the scratch directory, where the
    uuid is the 32 hexadecimal digits of the call's own draw, so that
    calls with different draws write to different paths, and the format
    is the normalized one: the lower-cased argument when that is png, jpg
    or webp, jpg for jpeg, png for anything else and when no format is
    given, which is the format [set_user_format] stores for the same
    argument; without a timeout argument the run is given 60 seconds. *)
Theorem C6_command_and_output_path (env : Env) (w : World) (input_path : string)
    (output_format size_mode : option string) (timeout_sec : option Z) :
  let out := output_path_at env w output_format in
  let hex := uuid_hex (env_uuid4 env (n_uuid w)) in
  let given := lower (default "png" output_format) in
  let extension := frame_format (default "png" output_format) in
  trace (extract_last_frame env input_path output_format size_mode timeout_sec w).2 =
    EvRun (["ffmpeg"; "-y"; "-sseof"; "-0.1"; "-i"; input_path]
           ++ vf_args (default "orig" size_mode)
           ++ ["-vframes"; "1"; out]) (default 60%Z timeout_sec) :: trace w ∧
  (∃ cmd, trace (extract_last_frame env input_path output_format size_mode None w).2 =
          EvRun cmd 60 :: trace w) ∧
  out = gettempdir env +:+ "/last_frame_" +:+ hex +:+ "."
        +:+ frame_format (default "png" output_format) ∧
  frame_format (default "png" output_format) ∈ ["png"; "jpg"; "webp"] ∧
  String.length hex = 32 ∧
  n_uuid (extract_last_frame env input_path output_format size_mode timeout_sec w).2
    = S (n_uuid w) ∧
  (∀ w2 fmt2, output_path_at env w2 fmt2 = out →
     (env_uuid4 env (n_uuid w2) mod 2 ^ 128 = env_uuid4 env (n_uuid w) mod 2 ^ 128)%Z) ∧
  (given ∈ ["png"; "jpg"; "webp"] → extension = given) ∧
  (given = "jpeg" → extension = "jpg") ∧
  (given ∉ ["png"; "jpg"; "jpeg"; "webp"] → extension = "png") ∧
  (output_format = None → extension = "png") ∧
  (∀ user_id w0, extension
                 = get_user_format
                     (set_user_format user_id (default "png" output_format) w0).2 user_id).
Proof.
  cbn zeta.
  split; [apply extract_last_frame_trace|].
  split; [eexists; apply extract_last_frame_trace|].
  split; [reflexivity|].
  split; [apply frame_format_member|].
  split; [apply length_hex_digits|].
  split.
  { rewrite extract_last_frame_eq.
    destruct (env_run env (n_run w)) as [wrote|rc err wrote]; cbn zeta.
    - unfold after_run. destruct wrote; reflexivity.
    - destruct (negb _ || _); unfold after_run; destruct wrote; reflexivity. }
  split; [intros w2 fmt2; apply output_path_at_inj|].
  split; [|split; [|split; [|split]]].
  - unfold frame_format. generalize (lower (default "png" output_format)).
    intros given Hin. rewrite bool_decide_eq_false_2 by in_list.
    rewrite decide_False; [reflexivity|]. intros ->. in_list.
  - unfold frame_format. intros ->. reflexivity.
  - unfold frame_format. intros Hout. by rewrite bool_decide_eq_true_2.
  - intros ->. reflexivity.
  - intros user_id w0. rewrite set_user_format_stores. unfold get_user_format.
    cbn [snd set_format_prefs user_format_prefs]. by rewrite lookup_insert_eq.
Qed.

(** ** Permissive decoding *)

Lemma utf8_start_ignore (b : nat) :
  let '(out, st) := utf8_start Ignore b in
  (out = [b] ∧ pending st = []) ∨ (out = [] ∧ pending st = [b]) ∨
  (out = [] ∧ pending st = []).
Proof.
  unfold utf8_start.
  repeat (match goal with |- context [if ?c then _ else _] => destruct c end);
    cbn; auto.
Qed.

(** With [errors='ignore'] the decoder only drops bytes: what it keeps is
    a subsequence of what it read. *)
Lemma utf8_loop_ignore_sublist (st : utf8_state) (bs : list nat) :
  sublist (utf8_loop Ignore st bs) (pending st ++ bs).
Proof.
  revert st. induction bs as [|b bs IH]; intros st.
  - cbn. destruct (pending st); apply sublist_nil_l.
  - assert (Hstart : sublist
              (let '(out, st') := utf8_start Ignore b in out ++ utf8_loop Ignore st' bs)
              (b :: bs)).
    { pose proof (utf8_start_ignore b) as Hb.
      destruct (utf8_start Ignore b) as [out st'].
      pose proof (IH st') as IH'.
      destruct Hb as [[-> Hp]|[[-> Hp]|[-> Hp]]]; rewrite Hp in IH'; cbn in *.
      - by apply sublist_skip.
      - exact IH'.
      - by apply sublist_cons. }
    cbn [utf8_loop]. destruct (need st) as [|n].
    + apply sublist_inserts_l. destruct (utf8_start Ignore b). exact Hstart.
    + destruct (between (lo st) b (hi st)).
      * destruct n as [|n].
        -- apply sublist_app; [reflexivity|]. apply sublist_skip, (IH utf8_idle).
        -- specialize (IH {| pending := pending st ++ [b]; need := S n;
                             lo := 128; hi := 191 |}).
           cbn in IH. by rewrite <- app_assoc in IH.
      * cbn [on_error app]. apply sublist_inserts_l.
        destruct (utf8_start Ignore b). exact Hstart.
Qed.

(** ASCII text is decoded to itself, whatever the error handler. *)
Lemma utf8_loop_ascii (h : error_handler) (bs : list nat) :
  Forall (λ b, b < 128) bs → utf8_loop h utf8_idle bs = bs.
Proof.
  induction 1 as [|b bs Hb _ IH]; [reflexivity|].
  cbn [utf8_loop utf8_idle need]. unfold utf8_start.
  rewrite (proj2 (Nat.ltb_lt b 128) Hb). cbn. by rewrite IH.
Qed.

(** ** extract_last_frame: the three outcomes *)

(** C2 (as the code has it): when the run times out the call raises a
    [RuntimeError] whose message starts with "ffmpeg timeout: " and names
    the timeout, with the [TimeoutExpired] (command and timeout) as its
    cause; when ffmpeg exits with a nonzero code, or the output file does
    not exist, it raises a [RuntimeError] with no cause whose message holds
    the exit code and the stderr bytes decoded with [errors='ignore']:
    undecodable bytes are dropped (the text is a subsequence of the bytes,
    ASCII text is kept as it is) and decoding cannot raise; otherwise it
    returns the output path, and the file exists.  The two errors differ,
    and a caller tells them apart by the start of the message. *)
Theorem C2_extraction_outcomes (env : Env) (w : World) (input_path : string)
    (output_format size_mode : option string) (timeout_sec : option Z) :
  let call := extract_last_frame env input_path output_format size_mode timeout_sec w in
  let out := output_path_at env w output_format in
  let cmd := cmd_at env w input_path output_format size_mode in
  let timeout := default 60%Z timeout_sec in
  let failed returncode stderr :=
    RuntimeError ("Ошибка ffmpeg (код " +:+ str_int returncode +:+ "): "
                  +:+ decode Ignore stderr) None in
  let timed_out :=
    RuntimeError ("ffmpeg timeout: Command '" +:+ repr_list cmd +:+ "' timed out after "
                  +:+ str_int timeout +:+ " seconds")
                 (Some {| te_cmd := cmd; te_timeout := timeout |}) in
  (∀ wrote, env_run env (n_run w) = TimedOut wrote → call.1 = Raise timed_out) ∧
  (∀ returncode stderr wrote,
     env_run env (n_run w) = Exited returncode stderr wrote →
     returncode ≠ 0%Z ∨ out ∉ fs call.2 →
     call.1 = Raise (failed returncode stderr)) ∧
  (∀ returncode stderr wrote,
     env_run env (n_run w) = Exited returncode stderr wrote →
     returncode = 0%Z → out ∈ fs call.2 →
     call.1 = Ok out) ∧
  (∀ p, call.1 = Ok p → p = out ∧ p ∈ fs call.2) ∧
  (∀ stderr : list nat,
     sublist (utf8_loop Ignore utf8_idle stderr) stderr ∧
     (Forall (λ b, b < 128) stderr → decode Ignore stderr = string_of_bytes stderr)) ∧
  (∀ returncode stderr,
     timed_out ≠ failed returncode stderr ∧
     startswith "ffmpeg timeout: " (str_exn timed_out) = true ∧
     startswith "ffmpeg timeout: " (str_exn (failed returncode stderr)) = false).
Proof.
  cbn zeta. rewrite extract_last_frame_eq.
  split; [|split; [|split; [|split; [|split]]]].
  - intros wrote ->. reflexivity.
  - intros returncode stderr wrote ->. cbn zeta.
    destruct (negb (returncode =? 0)%Z || _) eqn:Hbad; [reflexivity|].
    apply orb_false_elim in Hbad as [Hrc Hpresent].
    apply negb_false_iff in Hrc, Hpresent.
    apply Z.eqb_eq in Hrc. apply bool_decide_eq_true in Hpresent.
    cbn [snd]. tauto.
  - intros returncode stderr wrote -> ->. cbn zeta.
    destruct (bool_decide _) eqn:Hpresent; cbn; [reflexivity|].
    apply bool_decide_eq_false in Hpresent. tauto.
  - intros p.
    destruct (env_run env (n_run w)) as [wrote|returncode stderr wrote]; cbn zeta;
      [discriminate|].
    destruct (negb (returncode =? 0)%Z || _) eqn:Hbad; [discriminate|].
    apply orb_false_elim in Hbad as [_ Hpresent].
    apply negb_false_iff, bool_decide_eq_true in Hpresent.
    intros [= <-]. auto.
  - intros stderr. split.
    + apply (utf8_loop_ignore_sublist utf8_idle).
    + intros Hascii. unfold decode. by rewrite utf8_loop_ascii.
  - intros returncode stderr. split; [discriminate|]. split; reflexivity.
Qed.

(** ** Media transfer *)

Lemma download_file_id_to_temp_eq env file_id w :
  download_file_id_to_temp env file_id w =
  match env_download env (n_download w) with
  | Downloaded => (Ok (video_path_at env w), after_download env w file_id true)
  | DownloadFailed msg partial_file =>
      (Raise (TelegramError msg), after_download env w file_id partial_file)
  end.
Proof.
  unfold download_file_id_to_temp, after_download, video_path_at, bind, bot_download,
    uuid4_hex, ret.
  cbn [n_download tick_uuid].
  destruct (env_download env (n_download w)) as [|msg []]; reflexivity.
Qed.

Lemma download_video_to_temp_eq env message w :
  download_video_to_temp env message w =
  match message_media message with
  | Some file_id => download_file_id_to_temp env file_id w
  | None => (Raise (ValueError "В сообщении нет поддерживаемого видео"), tick_uuid w)
  end.
Proof.
  unfold download_video_to_temp, download_file_id_to_temp, bind, uuid4_hex, ret, raise.
  destruct (message_media message); reflexivity.
Qed.

Lemma video_path_at_inj env w1 w2 :
  video_path_at env w1 = video_path_at env w2 →
  (env_uuid4 env (n_uuid w1) mod 2 ^ 128 = env_uuid4 env (n_uuid w2) mod 2 ^ 128)%Z.
Proof.
  unfold video_path_at, path_join. intros H.
  do 3 apply append_inj_l in H.
  apply append_inj_length in H as [H _].
  - by apply uuid_hex_inj.
  - unfold uuid_hex. by rewrite !length_hex_digits.
Qed.

(** C8: [download_video_to_temp] raises the [ValueError] exactly when the
    message has no video, no video note and no animation, and then nothing
    is downloaded.  Otherwise it asks the client for the first of the three
    that is present, with destination [input_<uuid>.mp4] in the scratch
    directory (the suffix is fixed, the uuid is the call's own draw);
    when the client succeeds the file exists and its path is returned,
    when the client fails its error is passed on. *)
Theorem C8_download_video_to_temp (env : Env) (w : World) (message : Message) :
  let call := download_video_to_temp env message w in
  let p := video_path_at env w in
  ((∃ msg, call.1 = Raise (ValueError msg)) ↔
   (video message = None ∧ video_note message = None ∧ animation message = None)) ∧
  (message_media message = None → trace call.2 = trace w ∧ fs call.2 = fs w) ∧
  (∀ file_id, message_media message = Some file_id →
     trace call.2 = EvDownload file_id p :: trace w ∧
     (env_download env (n_download w) = Downloaded → call.1 = Ok p ∧ p ∈ fs call.2) ∧
     (∀ msg partial_file,
        env_download env (n_download w) = DownloadFailed msg partial_file →
        call.1 = Raise (TelegramError msg))) ∧
  (∀ v, video message = Some v → message_media message = Some v) ∧
  (∀ n, video message = None → video_note message = Some n →
        message_media message = Some n) ∧
  (video message = None → video_note message = None →
   message_media message = animation message) ∧
  p = gettempdir env +:+ "/input_" +:+ uuid_hex (env_uuid4 env (n_uuid w)) +:+ ".mp4" ∧
  (∀ w2, video_path_at env w2 = p →
     (env_uuid4 env (n_uuid w2) mod 2 ^ 128 = env_uuid4 env (n_uuid w) mod 2 ^ 128)%Z).
Proof.
  cbn zeta. rewrite download_video_to_temp_eq.
  split; [|split; [|split; [|split; [|split; [|split; [|split]]]]]].
  - unfold message_media.
    destruct (video message), (video_note message), (animation message);
      try rewrite download_file_id_to_temp_eq;
      try destruct (env_download env (n_download w)) as [|? ?]; cbn;
      split; try (intros [? [=]]); try (intros (? & ? & ?); discriminate); eauto.
  - intros ->. auto.
  - intros file_id ->. rewrite download_file_id_to_temp_eq.
    split; [|split].
    + destruct (env_download env (n_download w)) as [|? []]; reflexivity.
    + intros ->. split; [reflexivity|]. cbn. set_solver.
    + intros msg partial_file ->. reflexivity.
  - unfold message_media. intros v ->. reflexivity.
  - unfold message_media. intros n -> ->. reflexivity.
  - unfold message_media. intros -> ->. reflexivity.
  - reflexivity.
  - intros w2. apply video_path_at_inj.
Qed.

(** ** The handlers *)

(** The handlers, in terms of [guarded] and [work]. *)
Lemma handle_video_unfold env message w :
  handle_video env message w =
  (api_call env (EvChatAction (chat_id message) "upload_photo");;;
   preferred_format <- gets (fun w => get_user_format w (from_user_id message));;
   size_mode <- gets (fun w => get_user_size w (from_user_id message));;
   match message_media message with
   | Some f => modify (set_last_file_id <[from_user_id message := f]>)
   | None => ret tt
   end;;;
   send_video_to_admin env message;;;
   guarded env
     (work env (download_video_to_temp env message) preferred_format size_mode
        (hv_reply env message preferred_format size_mode))
     (hv_on_error env message)) w.
Proof.
  unfold handle_video, message_media.
  destruct (video message), (video_note message), (animation message); reflexivity.
Qed.

Lemma cb_regenerate_unfold env callback w file_id :
  user_last_file_id w !! cb_from_user_id callback = Some file_id →
  file_id ≠ "" →
  cb_regenerate env callback w =
  guarded env
    (liftW (api_call env (EvChatAction (cb_chat_id callback) "upload_photo"));;;
     work env (download_file_id_to_temp env file_id)
       (get_user_format w (cb_from_user_id callback))
       (get_user_size w (cb_from_user_id callback))
       (cb_reply env callback (get_user_format w (cb_from_user_id callback))
          (get_user_size w (cb_from_user_id callback))))
    (cb_on_error env callback) w.
Proof.
  intros Hf Hne. unfold cb_regenerate, bind at 1, gets at 1. rewrite Hf.
  rewrite decide_False by exact Hne. reflexivity.
Qed.

(** *** The chat-only parts *)

Lemma quiet_hv_reply env message preferred_format size_mode f :
  quiet [EvSendPhoto 0 f "" []] (hv_reply env message preferred_format size_mode f).
Proof.
  intros [w l]. unfold hv_reply, bind, liftW, gets, api_call, store_eq, pipeline.
  cbn. destruct (env_api env (n_api w)); cbn; repeat split.
Qed.

Lemma quiet_hv_on_error env message e : quiet [] (hv_on_error env message e).
Proof.
  intros [w l]. unfold hv_on_error, liftW, api_call, store_eq, pipeline.
  cbn. destruct (env_api env (n_api w)); cbn; repeat split.
Qed.

Lemma quiet_cb_reply env callback preferred_format size_mode f :
  quiet [EvSendPhoto 0 f "" []] (cb_reply env callback preferred_format size_mode f).
Proof.
  intros [w l]. unfold cb_reply, bind, liftW, gets, api_call, store_eq, pipeline.
  cbn. destruct (env_api env (n_api w)); cbn; [repeat split|].
  destruct (env_api env (S (n_api w))); cbn; repeat split.
Qed.

Lemma quiet_cb_on_error env callback e : quiet [] (cb_on_error env callback e).
Proof.
  intros [w l]. unfold cb_on_error, bind, liftW, api_call, store_eq, pipeline.
  cbn. destruct (env_api env (n_api w)); cbn; [repeat split|].
  destruct (env_api env (S (n_api w))); cbn; repeat split.
Qed.

Lemma quiet_chat_action env chat action :
  quiet [] (liftW (api_call env (EvChatAction chat action))).
Proof.
  intros [w l]. unfold liftW, api_call, store_eq, pipeline.
  cbn. destruct (env_api env (n_api w)); cbn; repeat split.
Qed.

Lemma quiet_ret (a : unit) : quiet [] (ret a).
Proof. intros [w l]. unfold store_eq. cbn. repeat split. Qed.

(** [send_video_to_admin] returns normally whatever the Bot API does, and
    touches neither the dictionaries nor the files. *)
Lemma send_video_to_admin_spec env message w :
  (send_video_to_admin env message w).1 = Ok tt ∧
  store_eq w (send_video_to_admin env message w).2 ∧
  same_view w (send_video_to_admin env message w).2.
Proof.
  unfold send_video_to_admin, store_eq, same_view, pipeline.
  destruct (ADMIN_CHAT_ID env) as [admin|]; [|cbn; repeat split].
  case_decide; [cbn; repeat split|].
  unfold try_except, api_call, modify, ret.
  destruct (video message), (video_note message), (animation message); cbn;
    try destruct (env_api env (n_api w)); cbn; repeat split.
Qed.

(** *** The cleanup *)

Lemma cleanup_path_eq env p s :
  cleanup_path env p s = (Ok tt, (after_cleanup_path env p s.1, s.2)).
Proof.
  destruct s as [w l]. unfold cleanup_path, after_cleanup_path.
  destruct p as [p|]; [|reflexivity].
  unfold bind, liftW, path_exists, gets, try_except, unlink, ret. cbn.
  destruct (bool_decide (p ∈ fs w)); [|reflexivity]. simpl.
  destruct (env_unlink env (n_unlink w)); reflexivity.
Qed.

(** The cleanup returns normally, whatever unlink does. *)
Lemma cleanup_eq env s :
  cleanup env s =
  (Ok tt, (after_cleanup_path env (frame_path s.2)
             (after_cleanup_path env (tmp_video_path s.2) s.1), s.2)).
Proof.
  unfold cleanup, bind at 1, gets. cbn [fst snd].
  unfold bind. rewrite cleanup_path_eq. cbn [fst snd]. by rewrite cleanup_path_eq.
Qed.

Lemma after_cleanup_path_store env p w : store_eq w (after_cleanup_path env p w).
Proof.
  unfold after_cleanup_path, store_eq.
  destruct p as [p|]; [|done].
  destruct (bool_decide _); [|done]. destruct (env_unlink env _); done.
Qed.

Lemma after_cleanup_path_fs env p w : fs (after_cleanup_path env p w) ⊆ fs w.
Proof.
  unfold after_cleanup_path.
  destruct p as [p|]; [|done].
  destruct (bool_decide _); [|done].
  destruct (env_unlink env _); cbn; [done|]. apply subseteq_difference_l. done.
Qed.

Lemma after_cleanup_path_gone env p w :
  unlink_succeeds env → p ∉ fs (after_cleanup_path env (Some p) w).
Proof.
  intros Hu. unfold after_cleanup_path.
  case_bool_decide as Hin; [|exact Hin].
  rewrite Hu. cbn. rewrite elem_of_difference, elem_of_singleton. tauto.
Qed.

Lemma cleanup_spec env s :
  (cleanup env s).1 = Ok tt ∧ store_eq s.1 (cleanup env s).2.1 ∧
  fs (cleanup env s).2.1 ⊆ fs s.1 ∧
  (unlink_succeeds env → ∀ p, p ∈ held s.2 → p ∉ fs (cleanup env s).2.1).
Proof.
  rewrite cleanup_eq. cbn [fst snd].
  split; [reflexivity|]. split; [|split].
  - pose proof (after_cleanup_path_store env (tmp_video_path s.2) s.1) as (? & ? & ?).
    pose proof (after_cleanup_path_store env (frame_path s.2)
                  (after_cleanup_path env (tmp_video_path s.2) s.1)) as (? & ? & ?).
    unfold store_eq. repeat split; congruence.
  - etrans; apply after_cleanup_path_fs.
  - intros Hu p. unfold held. rewrite elem_of_union. intros [Hp|Hp].
    + destruct (tmp_video_path s.2) as [v|]; cbn [from_option] in Hp;
        [|by apply elem_of_empty in Hp].
      apply elem_of_singleton in Hp as ->. intros Hin.
      apply (after_cleanup_path_fs env (frame_path s.2)) in Hin.
      by apply after_cleanup_path_gone in Hin.
    + destruct (frame_path s.2) as [f|]; cbn [from_option] in Hp;
        [|by apply elem_of_empty in Hp].
      apply elem_of_singleton in Hp as ->. by apply after_cleanup_path_gone.
Qed.

(** *** Transfer and extraction, as the handlers see them *)

Lemma download_file_id_creates env file_id :
  creates_its_result env (download_file_id_to_temp env file_id).
Proof.
  intros w. rewrite download_file_id_to_temp_eq. unfold after_download, store_eq.
  destruct (env_download env (n_download w)) as [|msg partial_file] eqn:Hd;
    cbn [fst snd].
  - split; [done|]. split; [done|]. done.
  - split; [destruct partial_file; done|]. split; [done|].
    intros (Hdl & _). destruct partial_file; [|done].
    by apply Hdl in Hd.
Qed.

Lemma download_video_creates env message :
  creates_its_result env (download_video_to_temp env message).
Proof.
  intros w. rewrite download_video_to_temp_eq.
  destruct (message_media message) as [file_id|].
  - apply download_file_id_creates.
  - unfold store_eq. cbn [fst snd]. split; [done|]. split; [done|]. done.
Qed.

Lemma extract_last_frame_creates env input_path output_format size_mode timeout_sec :
  creates_its_result env
    (extract_last_frame env input_path output_format size_mode timeout_sec).
Proof.
  intros w. rewrite extract_last_frame_eq. unfold after_run, store_eq.
  destruct (env_run env (n_run w)) as [wrote|returncode stderr wrote] eqn:Hr; cbn zeta.
  - cbn [fst snd]. split; [destruct wrote; done|]. split; [done|].
    intros (_ & Hto & _). destruct wrote; [|done]. by apply Hto in Hr.
  - destruct (negb (returncode =? 0)%Z || _) eqn:Hbad; cbn [fst snd].
    + split; [destruct wrote; done|]. split; [done|].
      intros (_ & _ & Hex). destruct wrote; [|done].
      apply Hex in Hr as ->. cbn in Hbad.
      apply negb_true_iff, bool_decide_eq_false in Hbad.
      exfalso. apply Hbad. cbn. apply elem_of_union_l, elem_of_singleton. reflexivity.
    + split; [destruct wrote; done|]. split; [done|].
      destruct wrote; cbn; [done|]. apply union_subseteq_r.
Qed.

(** *** The guarded block of both handlers *)

Ltac use_quiet H s :=
  let Hq := fresh "Hq" in
  pose proof (H s) as Hq;
  destruct Hq as (?Hlocals & (?Hfmt & ?Hsize & ?Hlast) & ?Hfs & ?Hpipe
                  & ?Huuid & ?Hdl & ?Hrun & ?Hunlink & ?Hres).

Ltac use_creates H w :=
  let Hc := fresh "Hc" in
  pose proof (H w) as Hc;
  destruct Hc as ((?Hfmt & ?Hsize & ?Hlast) & ?Hres & ?Hfiles).

(** After the [try] and [except] blocks: the dictionaries are as before,
    no [OSError] is on its way, and every new file is held in a local. *)
Ltac fs_incl :=
  repeat match goal with H : fs _ = fs _ |- _ => rewrite H in *; clear H end;
  set_solver.

Lemma try_block_spec env (pre : M (World * Locals) unit) download preferred_format
    size_mode reply on_error added w :
  quiet [] pre → creates_its_result env download →
  (∀ f, quiet (added f) (reply f)) → (∀ e, quiet [] (on_error e)) →
  let block := try_except (pre;;; work env download preferred_format size_mode reply)
                 is_Exception on_error
                 (w, {| tmp_video_path := None; frame_path := None |}) in
  store_eq w block.2.1 ∧ not_OSError block.1 ∧
  (failures_leave_no_file env → fs block.2.1 ⊆ fs w ∪ held block.2.2).
Proof.
  intros Hpre Hdownload Hreply Herror. cbn zeta.
  unfold try_except, bind, work, store_eq, is_Exception.
  set (s0 := (w, {| tmp_video_path := None; frame_path := None |})).
  use_quiet Hpre s0.
  destruct (pre s0) as [[[]|e] [w1 l1]]; subst s0; cbn [fst snd] in *; subst l1;
    cycle 1.
  { use_quiet (Herror e) (w1, {| tmp_video_path := None; frame_path := None |}).
    destruct (on_error e _) as [r [w2 l2]]; cbn [fst snd is_Exception tmp_video_path frame_path] in *.
    split; [repeat split; congruence|]. split; [done|]. intros _. fs_incl. }
  unfold bind, liftW, assign_tmp_video_path, assign_frame_path, modify.
  cbn [fst snd tmp_video_path frame_path].
  use_creates Hdownload w1.
  destruct (download w1) as [[p|e] w2]; cbn [fst snd is_Exception tmp_video_path frame_path] in *; cycle 1.
  { use_quiet (Herror e) (w2, {| tmp_video_path := None; frame_path := None |}).
    destruct (on_error e _) as [r [w3 l3]]; cbn [fst snd is_Exception tmp_video_path frame_path] in *.
    split; [repeat split; congruence|]. split; [done|]. intros Hb. fs_incl. }
  use_creates (extract_last_frame_creates env p (Some preferred_format)
                 (Some size_mode) None) w2.
  destruct (extract_last_frame env p _ _ _ w2) as [[f|e] w3]; cbn [fst snd is_Exception tmp_video_path frame_path] in *; cycle 1.
  { set (l2 := {| tmp_video_path := Some p; frame_path := None |}).
    use_quiet (Herror e) (w3, l2).
    destruct (on_error e (w3, l2)) as [r [w4 l4]]; cbn [fst snd is_Exception tmp_video_path frame_path] in *.
    split; [repeat split; congruence|]. split; [done|]. intros Hb.
    subst l4. unfold held, l2. cbn. fs_incl. }
  set (l3 := {| tmp_video_path := Some p; frame_path := Some f |}).
  use_quiet (Hreply f) (w3, l3).
  destruct (reply f (w3, l3)) as [[[]|e] [w4 l4]]; cbn [fst snd is_Exception tmp_video_path frame_path] in *.
  - split; [repeat split; congruence|]. split; [done|]. intros Hb.
    subst l4. unfold held, l3. cbn. fs_incl.
  - use_quiet (Herror e) (w4, l4).
    destruct (on_error e (w4, l4)) as [r [w5 l5]]; cbn [fst snd is_Exception tmp_video_path frame_path] in *.
    split; [repeat split; congruence|]. split; [done|]. intros Hb.
    subst l5 l4. unfold held, l3. cbn. fs_incl.
Qed.

(** The guarded block as a whole: dictionaries untouched, [OSError] never
    passed on, and no file left when the collaborators behave. *)
Lemma guarded_spec env (pre : M (World * Locals) unit) download preferred_format
    size_mode reply on_error added w :
  quiet [] pre → creates_its_result env download →
  (∀ f, quiet (added f) (reply f)) → (∀ e, quiet [] (on_error e)) →
  let call := guarded env (pre;;; work env download preferred_format size_mode reply)
                on_error w in
  store_eq w call.2 ∧ not_OSError call.1 ∧
  (unlink_succeeds env → failures_leave_no_file env → fs call.2 ⊆ fs w).
Proof.
  intros Hpre Hdownload Hreply Herror. cbn zeta.
  pose proof (try_block_spec env pre download preferred_format size_mode reply
                on_error added w Hpre Hdownload Hreply Herror) as Hblock.
  cbn zeta in Hblock. unfold guarded, with_locals, try_finally.
  destruct (try_except _ _ _ _) as [r s1]; cbn [fst snd] in Hblock.
  destruct Hblock as ((Hfmt & Hsize & Hlast) & Hres & Hfiles).
  pose proof (cleanup_spec env s1) as (Hok & (Hfmt' & Hsize' & Hlast') & Hsub & Hgone).
  destruct (cleanup env s1) as [rc s2]; cbn [fst snd] in *. subst rc. cbn [fst snd].
  split; [unfold store_eq; repeat split; congruence|]. split; [done|].
  intros Hu Hb x Hx.
  specialize (Hfiles Hb x (Hsub x Hx)).
  apply elem_of_union in Hfiles as [Hin|Hheld]; [done|].
  by destruct (Hgone Hu x Hheld).
Qed.

(** *** handle_video and cb_regenerate as wholes *)

Lemma api_call_eq env e w :
  api_call env e w =
  (match env_api env (n_api w) with
   | None => Ok tt
   | Some msg => Raise (TelegramError msg)
   end, tick_api (log e w)).
Proof. unfold api_call. destruct (env_api env (n_api w)); reflexivity. Qed.

(** When the chat action goes through, [handle_video] records the file
    id, forwards the media and then runs its guarded block, in a world
    [w3] that differs from [w] in the recorded id and in chat messages. *)
Lemma handle_video_prefix env message w :
  env_api env (n_api w) = None →
  ∃ w3,
    handle_video env message w =
      guarded env
        (work env (download_video_to_temp env message)
           (get_user_format w (from_user_id message))
           (get_user_size w (from_user_id message))
           (hv_reply env message (get_user_format w (from_user_id message))
              (get_user_size w (from_user_id message))))
        (hv_on_error env message) w3 ∧
    user_format_prefs w3 = user_format_prefs w ∧
    user_size_prefs w3 = user_size_prefs w ∧
    user_last_file_id w3 =
      match message_media message with
      | Some f => <[from_user_id message := f]> (user_last_file_id w)
      | None => user_last_file_id w
      end ∧
    same_view w w3.
Proof.
  intros Hapi. rewrite handle_video_unfold.
  unfold bind at 1, api_call at 1. rewrite Hapi.
  unfold bind at 1, gets at 1. unfold bind at 1, gets at 1. unfold bind at 1.
  set (w1 := tick_api _).
  assert (Hw2 : ∃ w2,
    (match message_media message with
     | Some f => modify (set_last_file_id <[from_user_id message := f]>)
     | None => ret tt
     end w1 : result unit * World) = (Ok tt, w2) ∧
    user_format_prefs w2 = user_format_prefs w ∧
    user_size_prefs w2 = user_size_prefs w ∧
    user_last_file_id w2 =
      match message_media message with
      | Some f => <[from_user_id message := f]> (user_last_file_id w)
      | None => user_last_file_id w
      end ∧ same_view w w2).
  { unfold same_view, pipeline.
    destruct (message_media message); eexists; (split; [reflexivity|]); done. }
  destruct Hw2 as (w2 & -> & Hfmt & Hsize & Hlast & Hview).
  unfold bind at 1.
  pose proof (send_video_to_admin_spec env message w2)
    as (Hok & (Hfmt' & Hsize' & Hlast') & Hview').
  destruct (send_video_to_admin env message w2) as [ra w3]; cbn [fst snd] in *.
  subst ra. exists w3.
  split; [reflexivity|]. split; [congruence|]. split; [congruence|].
  split; [congruence|].
  unfold same_view in *. intuition congruence.
Qed.

(** When the chat action is refused, [handle_video] stops there. *)
Lemma handle_video_refused env message w msg :
  env_api env (n_api w) = Some msg →
  handle_video env message w =
  (Raise (TelegramError msg),
   tick_api (log (EvChatAction (chat_id message) "upload_photo") w)).
Proof.
  intros Hapi. rewrite handle_video_unfold. unfold bind at 1.
  rewrite api_call_eq, Hapi. reflexivity.
Qed.

Lemma handle_video_spec env message w :
  let call := handle_video env message w in
  user_format_prefs call.2 = user_format_prefs w ∧
  user_size_prefs call.2 = user_size_prefs w ∧
  user_last_file_id call.2 =
    match env_api env (n_api w), message_media message with
    | None, Some f => <[from_user_id message := f]> (user_last_file_id w)
    | _, _ => user_last_file_id w
    end ∧
  not_OSError call.1 ∧
  (call.1 = Ok tt → env_api env (n_api w) = None) ∧
  (unlink_succeeds env → failures_leave_no_file env → fs call.2 ⊆ fs w).
Proof.
  cbn zeta. destruct (env_api env (n_api w)) as [msg|] eqn:Hapi.
  { rewrite (handle_video_refused env message w msg Hapi). cbn.
    split; [done|]. split; [done|]. split; [done|]. split; [done|].
    split; [discriminate|]. intros _ _. reflexivity. }
  destruct (handle_video_prefix env message w Hapi)
    as (w3 & -> & Hfmt & Hsize & Hlast & (Hfs & _)).
  set (fmt := get_user_format _ _). set (size := get_user_size _ _).
  pose proof (guarded_spec env (ret tt) (download_video_to_temp env message) fmt size
                (hv_reply env message fmt size) (hv_on_error env message)
                (fun f => [EvSendPhoto 0 f "" []]) w3 (quiet_ret tt)
                (download_video_creates env message)
                (quiet_hv_reply env message fmt size)
                (quiet_hv_on_error env message))
    as Hguarded.
  cbn zeta in Hguarded.
  change (guarded env (ret tt;;; work env (download_video_to_temp env message) fmt size
                         (hv_reply env message fmt size)) (hv_on_error env message) w3)
    with (guarded env (work env (download_video_to_temp env message) fmt size
                         (hv_reply env message fmt size)) (hv_on_error env message) w3)
    in Hguarded.
  destruct Hguarded as ((Hfmt'' & Hsize'' & Hlast'') & Hres & Hfiles).
  split; [congruence|]. split; [congruence|].
  split; [destruct (message_media message); congruence|].
  split; [exact Hres|]. split; [done|].
  intros Hu Hb. etrans; [apply (Hfiles Hu Hb)|]. by rewrite Hfs.
Qed.

(** With no stored reference, or an empty one, [cb_regenerate] only
    answers the button press. *)
Lemma cb_regenerate_nothing env callback w :
  user_last_file_id w !! cb_from_user_id callback = None ∨
  user_last_file_id w !! cb_from_user_id callback = Some "" →
  cb_regenerate env callback w =
  api_call env (EvAnswerCallback "Нет сохранённого видео — пришли сначала ролик 🎥" true) w.
Proof.
  intros [Hf|Hf]; unfold cb_regenerate, bind at 1, gets at 1; rewrite Hf;
    [reflexivity|].
  rewrite decide_True by reflexivity. reflexivity.
Qed.

Lemma cb_regenerate_spec env callback w :
  let call := cb_regenerate env callback w in
  store_eq w call.2 ∧ not_OSError call.1 ∧
  (unlink_succeeds env → failures_leave_no_file env → fs call.2 ⊆ fs w).
Proof.
  cbn zeta.
  destruct (user_last_file_id w !! cb_from_user_id callback) as [file_id|] eqn:Hf;
    [destruct (decide (file_id = "")) as [->|Hne]|].
  - rewrite cb_regenerate_nothing, api_call_eq by auto. unfold store_eq. cbn.
    split; [done|]. split; [by destruct (env_api env (n_api w))|].
    intros _ _. reflexivity.
  - rewrite (cb_regenerate_unfold env callback w file_id Hf Hne).
    apply (guarded_spec env _ _ _ _ _ _ (fun f => [EvSendPhoto 0 f "" []])).
    + apply quiet_chat_action.
    + apply download_file_id_creates.
    + intros f. apply quiet_cb_reply.
    + intros e. apply quiet_cb_on_error.
  - rewrite cb_regenerate_nothing, api_call_eq by auto. unfold store_eq. cbn.
    split; [done|]. split; [by destruct (env_api env (n_api w))|].
    intros _ _. reflexivity.
Qed.

(** *** Chat messages do not steer the pipeline

    Two runs that start with the same files, the same pipeline so far and
    the same draws ahead stay so, whatever each tells the chat. *)

Lemma same_view_refl w : same_view w w.
Proof. unfold same_view. done. Qed.

Lemma same_view_sym w1 w2 : same_view w1 w2 → same_view w2 w1.
Proof. unfold same_view. intuition congruence. Qed.

Lemma same_view_trans w1 w2 w3 : same_view w1 w2 → same_view w2 w3 → same_view w1 w3.
Proof. unfold same_view. intuition congruence. Qed.

Lemma download_file_id_respects env file_id w1 w2 :
  same_view w1 w2 →
  (download_file_id_to_temp env file_id w1).1 = (download_file_id_to_temp env file_id w2).1 ∧
  same_view (download_file_id_to_temp env file_id w1).2
            (download_file_id_to_temp env file_id w2).2.
Proof.
  intros (Hfs & Hpipe & Huuid & Hdl & Hrun & Hunlink).
  rewrite !download_file_id_to_temp_eq. unfold after_download, video_path_at.
  rewrite Hdl, Huuid.
  destruct (env_download env (n_download w1)) as [|msg []]; cbn [fst snd];
    (split; [reflexivity|]); unfold same_view, pipeline in *; cbn;
    rewrite ?Hfs, ?Hpipe, ?Huuid, ?Hdl, ?Hrun, ?Hunlink; done.
Qed.

Lemma extract_last_frame_respects env input_path output_format size_mode timeout_sec w1 w2 :
  same_view w1 w2 →
  (extract_last_frame env input_path output_format size_mode timeout_sec w1).1 =
  (extract_last_frame env input_path output_format size_mode timeout_sec w2).1 ∧
  same_view (extract_last_frame env input_path output_format size_mode timeout_sec w1).2
            (extract_last_frame env input_path output_format size_mode timeout_sec w2).2.
Proof.
  intros (Hfs & Hpipe & Huuid & Hdl & Hrun & Hunlink).
  rewrite !extract_last_frame_eq. unfold after_run, cmd_at, output_path_at.
  rewrite Hrun, Huuid.
  destruct (env_run env (n_run w1)) as [[]|returncode stderr []]; cbn [fst snd];
    cbn [fs set_fs tick_run log tick_uuid]; rewrite ?Hfs;
    try destruct (negb (returncode =? 0)%Z || _); cbn [fst snd];
    (split; [reflexivity|]); unfold same_view, pipeline in *; cbn;
    rewrite ?Hfs, ?Hpipe, ?Huuid, ?Hdl, ?Hrun, ?Hunlink; done.
Qed.

Lemma after_cleanup_path_respects env p w1 w2 :
  same_view w1 w2 →
  same_view (after_cleanup_path env p w1) (after_cleanup_path env p w2).
Proof.
  intros (Hfs & Hpipe & Huuid & Hdl & Hrun & Hunlink).
  unfold after_cleanup_path. destruct p as [p|]; [|done].
  rewrite Hfs, Hunlink.
  destruct (bool_decide (p ∈ fs w1)); [|done].
  destruct (env_unlink env (n_unlink w1)); unfold same_view, pipeline in *; cbn;
    rewrite ?Hfs, ?Hpipe, ?Huuid, ?Hdl, ?Hrun, ?Hunlink; done.
Qed.

Lemma cleanup_respects env w1 w2 l :
  same_view w1 w2 → same_view (cleanup env (w1, l)).2.1 (cleanup env (w2, l)).2.1.
Proof.
  intros Hview. rewrite !cleanup_eq. cbn [fst snd].
  by do 2 apply after_cleanup_path_respects.
Qed.

Ltac view_solve :=
  unfold same_view in *; cbn [fst snd] in *;
  repeat match goal with H : _ ∧ _ |- _ => destruct H end;
  repeat split; cbn [app] in *; congruence.

(** Two guarded blocks that download and extract the same thing end with
    the same files and the same pipeline, however their chat differs. *)
Lemma guarded_sim env (pre1 pre2 : M (World * Locals) unit) download1 download2
    preferred_format size_mode reply1 reply2 on_error1 on_error2 added w1 w2 :
  quiet [] pre1 → quiet [] pre2 →
  (pre1 (w1, {| tmp_video_path := None; frame_path := None |})).1 = Ok tt →
  (pre2 (w2, {| tmp_video_path := None; frame_path := None |})).1 = Ok tt →
  (∀ wa wb, same_view wa wb →
     (download1 wa).1 = (download2 wb).1 ∧ same_view (download1 wa).2 (download2 wb).2) →
  (∀ f, quiet (added f) (reply1 f)) → (∀ f, quiet (added f) (reply2 f)) →
  (∀ e, quiet [] (on_error1 e)) → (∀ e, quiet [] (on_error2 e)) →
  same_view w1 w2 →
  same_view
    (guarded env (pre1;;; work env download1 preferred_format size_mode reply1)
       on_error1 w1).2
    (guarded env (pre2;;; work env download2 preferred_format size_mode reply2)
       on_error2 w2).2.
Proof.
  intros Hpre1 Hpre2 Hok1 Hok2 Hdownload Hreply1 Hreply2 Herror1 Herror2 Hview.
  unfold guarded, with_locals, try_finally.
  assert (Hblock :
    let b1 := try_except (pre1;;; work env download1 preferred_format size_mode reply1)
                is_Exception on_error1
                (w1, {| tmp_video_path := None; frame_path := None |}) in
    let b2 := try_except (pre2;;; work env download2 preferred_format size_mode reply2)
                is_Exception on_error2
                (w2, {| tmp_video_path := None; frame_path := None |}) in
    same_view b1.2.1 b2.2.1 ∧ b1.2.2 = b2.2.2).
  { cbn zeta. unfold try_except, bind, work, is_Exception.
    use_quiet Hpre1 (w1, {| tmp_video_path := None; frame_path := None |}).
    use_quiet Hpre2 (w2, {| tmp_video_path := None; frame_path := None |}).
    destruct (pre1 _) as [r1 [wa la]], (pre2 _) as [r2 [wb lb]];
      cbn [fst snd] in *. subst r1 r2 la lb.
    assert (Hab : same_view wa wb) by view_solve.
    clear Hfmt Hsize Hlast Hfs Hpipe Huuid Hdl Hrun Hunlink Hres
          Hfmt0 Hsize0 Hlast0 Hfs0 Hpipe0 Huuid0 Hdl0 Hrun0 Hunlink0 Hres0 Hview.
    unfold bind, liftW, assign_tmp_video_path, assign_frame_path, modify.
    cbn [fst snd tmp_video_path frame_path].
    destruct (Hdownload wa wb Hab) as (Hr & Hab').
    destruct (download1 wa) as [r1 wa'], (download2 wb) as [r2 wb'];
      cbn [fst snd] in *. subst r2. clear Hab wa wb.
    destruct r1 as [p|e].
    2:{ use_quiet (Herror1 e) (wa', {| tmp_video_path := None; frame_path := None |}).
        use_quiet (Herror2 e) (wb', {| tmp_video_path := None; frame_path := None |}).
        destruct (on_error1 e _) as [r1 [wa la]], (on_error2 e _) as [r2 [wb lb]].
        split; [view_solve|cbn [fst snd] in *; congruence]. }
    destruct (extract_last_frame_respects env p (Some preferred_format)
                (Some size_mode) None wa' wb' Hab') as (Hr & Hab).
    destruct (extract_last_frame env p _ _ _ wa') as [r1 wa],
             (extract_last_frame env p _ _ _ wb') as [r2 wb];
      cbn [fst snd] in *. subst r2. clear Hab' wa' wb'.
    destruct r1 as [f|e].
    2:{ use_quiet (Herror1 e) (wa, {| tmp_video_path := Some p; frame_path := None |}).
        use_quiet (Herror2 e) (wb, {| tmp_video_path := Some p; frame_path := None |}).
        destruct (on_error1 e _) as [r1 [wa' la]], (on_error2 e _) as [r2 [wb' lb]].
        split; [view_solve|cbn [fst snd] in *; congruence]. }
    use_quiet (Hreply1 f) (wa, {| tmp_video_path := Some p; frame_path := Some f |}).
    use_quiet (Hreply2 f) (wb, {| tmp_video_path := Some p; frame_path := Some f |}).
    destruct (reply1 f _) as [r1 [wa' la]], (reply2 f _) as [r2 [wb' lb]];
      cbn [fst snd] in *. subst la lb.
    assert (Hab' : same_view wa' wb') by view_solve.
    clear Hfmt Hsize Hlast Hfs Hpipe Huuid Hdl Hrun Hunlink Hres
          Hfmt0 Hsize0 Hlast0 Hfs0 Hpipe0 Huuid0 Hdl0 Hrun0 Hunlink0 Hres0 Hab.
    destruct r1 as [[]|e1], r2 as [[]|e2]; cbn [fst snd].
    - done.
    - use_quiet (Herror2 e2) (wb', {| tmp_video_path := Some p; frame_path := Some f |}).
      destruct (on_error2 e2 _) as [r2 [wb'' lb]].
      split; [view_solve|cbn [fst snd] in *; congruence].
    - use_quiet (Herror1 e1) (wa', {| tmp_video_path := Some p; frame_path := Some f |}).
      destruct (on_error1 e1 _) as [r1 [wa'' la]].
      split; [view_solve|cbn [fst snd] in *; congruence].
    - use_quiet (Herror1 e1) (wa', {| tmp_video_path := Some p; frame_path := Some f |}).
      use_quiet (Herror2 e2) (wb', {| tmp_video_path := Some p; frame_path := Some f |}).
      destruct (on_error1 e1 _) as [r1 [wa'' la]], (on_error2 e2 _) as [r2 [wb'' lb]].
      split; [view_solve|cbn [fst snd] in *; congruence]. }
  cbn zeta in Hblock.
  destruct (try_except _ _ on_error1 _) as [r1 [wa la]],
           (try_except _ _ on_error2 _) as [r2 [wb lb]].
  cbn [fst snd] in Hblock. destruct Hblock as (Hab & ->).
  pose proof (cleanup_respects env wa wb lb Hab) as Hc.
  rewrite !cleanup_eq in *. cbn [fst snd] in *. exact Hc.
Qed.

(** A guarded block whose first step is refused by the chat leaves the
    files and the pipeline as they were. *)
Lemma guarded_refused env (pre body : M (World * Locals) unit) on_error w e :
  quiet [] pre → (∀ e, quiet [] (on_error e)) →
  (pre (w, {| tmp_video_path := None; frame_path := None |})).1 = Raise e →
  same_view w (guarded env (pre;;; body) on_error w).2.
Proof.
  intros Hpre Herror Hraise.
  unfold guarded, with_locals, try_finally, try_except, bind, is_Exception.
  use_quiet Hpre (w, {| tmp_video_path := None; frame_path := None |}).
  destruct (pre _) as [r [w1 l1]]; cbn [fst snd] in *. subst r l1.
  use_quiet (Herror e) (w1, {| tmp_video_path := None; frame_path := None |}).
  destruct (on_error e _) as [r [w2 l2]]; cbn [fst snd] in *. subst l2.
  rewrite cleanup_eq. cbn. view_solve.
Qed.

(** The two downloads are one when the message carries the file. *)
Lemma download_video_is_download_file_id env message file_id w :
  message_media message = Some file_id →
  download_video_to_temp env message w = download_file_id_to_temp env file_id w.
Proof. intros H. by rewrite download_video_to_temp_eq, H. Qed.

(** C9: when the message carries media and the chat action goes through,
    [handle_video] has recorded the new file id before its guarded block
    (download, extraction, reply) starts, and nothing after that changes
    it: whatever the download and the extraction do, the user's reference
    is the new file id when the handler is done, and it is so whenever the
    handler returns normally.  Other users' references are untouched. *)
Theorem C9_last_reference_recorded_first (env : Env) (w : World) (message : Message)
    (file_id : string) :
  message_media message = Some file_id →
  let call := handle_video env message w in
  let user_id := from_user_id message in
  (env_api env (n_api w) = None →
     ∃ w3, user_last_file_id w3 !! user_id = Some file_id ∧
           call = guarded env
                    (work env (download_video_to_temp env message)
                       (get_user_format w user_id) (get_user_size w user_id)
                       (hv_reply env message (get_user_format w user_id)
                          (get_user_size w user_id)))
                    (hv_on_error env message) w3) ∧
  (env_api env (n_api w) = None →
     user_last_file_id call.2 !! user_id = Some file_id) ∧
  (call.1 = Ok tt → user_last_file_id call.2 !! user_id = Some file_id) ∧
  (∀ u, u ≠ user_id → user_last_file_id call.2 !! u = user_last_file_id w !! u).
Proof.
  intros Hmedia. cbn zeta.
  pose proof (handle_video_spec env message w) as (_ & _ & Hlast & _ & Hok & _).
  rewrite Hmedia in Hlast.
  assert (Hdone : env_api env (n_api w) = None →
                  user_last_file_id (handle_video env message w).2
                    !! from_user_id message = Some file_id).
  { intros Hapi. rewrite Hlast, Hapi. apply lookup_insert_eq. }
  split; [|split; [exact Hdone|split; [auto|]]].
  - intros Hapi.
    destruct (handle_video_prefix env message w Hapi) as (w3 & Heq & _ & _ & Hl & _).
    exists w3. split; [|exact Heq]. rewrite Hl, Hmedia. apply lookup_insert_eq.
  - intros u Hu. rewrite Hlast.
    destruct (env_api env (n_api w)); [reflexivity|]. by apply lookup_insert_ne.
Qed.

(** The stored references stay file ids: only [handle_video] writes one,
    and it writes a file id of its message. *)
Lemma handle_video_references env message w :
  (∀ file_id, message_media message = Some file_id → file_id ≠ "") →
  references_nonempty w → references_nonempty (handle_video env message w).2.
Proof.
  intros Hmessage Hw user_id file_id.
  pose proof (handle_video_spec env message w) as (_ & _ & -> & _).
  destruct (env_api env (n_api w)); [apply Hw|].
  destruct (message_media message) as [f|] eqn:Hmedia; [|apply Hw].
  destruct (decide (from_user_id message = user_id)) as [->|Hne].
  - rewrite lookup_insert_eq. intros [= <-]. by apply Hmessage.
  - rewrite lookup_insert_ne by exact Hne. apply Hw.
Qed.

(** C7: the stored references are file ids of Telegram, which are not
    empty: the store is empty at the start, [handle_video] on a message
    whose file ids are not empty keeps them so, and so does
    [cb_regenerate].  In such a world, when the user has no stored
    reference, [cb_regenerate] only answers the button press with the
    nothing-to-regenerate alert: no pipeline step (download, ffmpeg run,
    photo reply, deletion), and the files and the three dictionaries are
    as before.  Otherwise it is the guarded block of chat action, download
    by the stored file id, extraction with the user's preferences, reply
    and cleanup, and it ends with the same files, the same pipeline steps
    and the same dictionaries as [handle_video] run in the same world on
    a message of that user carrying that file. *)
Theorem C7_regenerate (env : Env) (w : World) (callback : CallbackQuery) :
  references_nonempty w →
  let call := cb_regenerate env callback w in
  let user_id := cb_from_user_id callback in
  (user_last_file_id w !! user_id = None →
     trace call.2 =
       EvAnswerCallback "Нет сохранённого видео — пришли сначала ролик 🎥" true :: trace w ∧
     pipeline call.2 = pipeline w ∧ fs call.2 = fs w ∧ store_eq w call.2) ∧
  (∀ file_id, user_last_file_id w !! user_id = Some file_id →
     call = guarded env
              (liftW (api_call env (EvChatAction (cb_chat_id callback) "upload_photo"));;;
               work env (download_file_id_to_temp env file_id)
                 (get_user_format w user_id) (get_user_size w user_id)
                 (cb_reply env callback (get_user_format w user_id)
                    (get_user_size w user_id)))
              (cb_on_error env callback) w ∧
     ∀ message, message_media message = Some file_id → from_user_id message = user_id →
       same_view (handle_video env message w).2 call.2 ∧
       store_eq (handle_video env message w).2 call.2) ∧
  references_nonempty call.2 ∧
  (∀ files, references_nonempty (initial_world files)) ∧
  (∀ message, (∀ file_id, message_media message = Some file_id → file_id ≠ "") →
     references_nonempty (handle_video env message w).2).
Proof.
  intros Hw. cbn zeta. split; [|split; [|split; [|split]]].
  - intros Hnone. rewrite cb_regenerate_nothing, api_call_eq by (left; exact Hnone).
    unfold store_eq, pipeline. cbn. done.
  - intros file_id Hf. pose proof (Hw _ _ Hf) as Hne.
    split; [exact (cb_regenerate_unfold env callback w file_id Hf Hne)|].
    intros message Hmedia Huser.
    pose proof (cb_regenerate_spec env callback w) as ((Hcf & Hcs & Hcl) & _).
    pose proof (handle_video_spec env message w) as (Hvf & Hvs & Hvl & _).
    split; cycle 1.
    { unfold store_eq. split; [congruence|]. split; [congruence|].
      rewrite Hcl, Hvl, Hmedia, Huser.
      destruct (env_api env (n_api w)); [reflexivity|].
      symmetry. by apply insert_id. }
    clear Hcf Hcs Hcl Hvf Hvs Hvl.
    rewrite (cb_regenerate_unfold env callback w file_id Hf Hne).
    destruct (env_api env (n_api w)) as [msg|] eqn:Hapi.
    + rewrite (handle_video_refused env message w msg Hapi).
      eapply same_view_trans; [|eapply guarded_refused].
      * unfold same_view, pipeline. cbn. done.
      * apply quiet_chat_action.
      * intros e. apply quiet_cb_on_error.
      * unfold liftW. cbn [fst snd]. rewrite api_call_eq, Hapi. reflexivity.
    + destruct (handle_video_prefix env message w Hapi) as (w3 & -> & _ & _ & _ & Hview).
      rewrite Huser.
      set (fmt := get_user_format _ _). set (size := get_user_size _ _).
      change (guarded env (work env (download_video_to_temp env message) fmt size
                             (hv_reply env message fmt size)) (hv_on_error env message) w3)
        with (guarded env (ret tt;;; work env (download_video_to_temp env message) fmt size
                             (hv_reply env message fmt size)) (hv_on_error env message) w3).
      apply (guarded_sim env _ _ _ _ _ _ _ _ _ _ (fun f => [EvSendPhoto 0 f "" []])).
      * apply quiet_ret.
      * apply quiet_chat_action.
      * reflexivity.
      * unfold liftW. cbn [fst snd]. rewrite api_call_eq, Hapi. reflexivity.
      * intros wa wb Hab.
        rewrite (download_video_is_download_file_id env message file_id wa Hmedia).
        by apply download_file_id_respects.
      * intros f. apply quiet_hv_reply.
      * intros f. apply quiet_cb_reply.
      * intros e. apply quiet_hv_on_error.
      * intros e. apply quiet_cb_on_error.
      * by apply same_view_sym.
  - pose proof (cb_regenerate_spec env callback w) as ((_ & _ & Hl) & _).
    intros user_id file_id. rewrite Hl. apply Hw.
  - intros files user_id file_id. cbn. by rewrite lookup_empty.
  - intros message Hmessage. by apply handle_video_references.
Qed.

(** What the cleanup of both handlers does achieve: it returns normally
    whatever unlink does, and when unlink succeeds no path held in
    [tmp_video_path] or [frame_path] exists after it; neither handler
    passes an [OSError] on; and when every unlink succeeds and no failed
    download or ffmpeg run leaves a file behind, no file exists after
    either handler that did not exist before it. *)
Lemma handlers_clean_up (env : Env) (w : World) (message : Message)
    (callback : CallbackQuery) :
  (∀ s, (cleanup env s).1 = Ok tt ∧
        (unlink_succeeds env → ∀ p, p ∈ held s.2 → p ∉ fs (cleanup env s).2.1)) ∧
  not_OSError (handle_video env message w).1 ∧
  not_OSError (cb_regenerate env callback w).1 ∧
  (unlink_succeeds env → failures_leave_no_file env →
     fs (handle_video env message w).2 ⊆ fs w ∧
     fs (cb_regenerate env callback w).2 ⊆ fs w).
Proof.
  pose proof (handle_video_spec env message w) as (_ & _ & _ & Hv & _ & Hvfs).
  pose proof (cb_regenerate_spec env callback w) as (_ & Hc & Hcfs).
  split; [|split; [exact Hv|split; [exact Hc|auto]]].
  intros s. pose proof (cleanup_spec env s) as (Hok & _ & _ & Hgone). auto.
Qed.

(** * The claims at sample inputs *)

Ltac by_computation := apply (bool_decide_unpack _); vm_compute; exact I.

Lemma env_ok_behaves : unlink_succeeds env_ok ∧ failures_leave_no_file env_ok.
Proof.
  split; [intros n; reflexivity|].
  split; [intros n msg; discriminate|].
  split; [intros n; discriminate|].
  intros n returncode stderr [= <- _]. reflexivity.
Defined.

(** With well-behaved collaborators the scratch directory holds nothing
    new after either handler. *)
Lemma handlers_clean_up_sample :
  fs (handle_video env_ok (message_with_video 7 "FILE-2") (world_with_last 7 "FILE-1")).2
    ⊆ fs (world_with_last 7 "FILE-1") ∧
  fs (cb_regenerate env_ok (regen_pressed 7) (world_with_last 7 "FILE-1")).2
    ⊆ fs (world_with_last 7 "FILE-1").
Proof.
  pose proof (handlers_clean_up env_ok (world_with_last 7 "FILE-1")
                (message_with_video 7 "FILE-2") (regen_pressed 7)) as (_ & _ & _ & H).
  apply H; apply env_ok_behaves.
Defined.

(** Deletion is best effort: when unlink fails the handler returns
    normally and the video it downloaded is still there. *)
Example unlink_failure_is_swallowed :
  let w := initial_world ∅ in
  let call := handle_video env_unlink_fails (message_with_video 7 "FILE-2") w in
  call.1 = Ok tt ∧
  EvDownload "FILE-2" (video_path_at env_unlink_fails w) ∈ trace call.2 ∧
  EvUnlink (video_path_at env_unlink_fails w) ∈ trace call.2 ∧
  (video_path_at env_unlink_fails w ∉ fs w) ∧
  video_path_at env_unlink_fails w ∈ fs call.2.
Proof.
  cbn zeta. split; [vm_compute; reflexivity|].
  split; [by_computation|]. split; [by_computation|].
  split; [by_computation|by_computation].
Qed.

(** An ffmpeg run that exits with a nonzero code after writing its
    output: [extract_last_frame] raises, [frame_path] is never assigned,
    and the cleanup does not know the file. *)
Example failed_extraction_leaves_its_output :
  let w := initial_world ∅ in
  let call := handle_video env_exit_1_after_writing (message_with_video 7 "FILE-2") w in
  unlink_succeeds env_exit_1_after_writing ∧
  call.1 = Ok tt ∧
  elements (fs call.2) = ["/tmp/last_frame_0000000000000000000000000000000b.png"].
Proof.
  cbn zeta. split; [intros n; reflexivity|]. split; vm_compute; reflexivity.
Qed.

(** C1: the claim fails on the code where a step fails after it wrote
    its file, although the [finally] block of both handlers is written to
    delete both files.  ffmpeg is stopped at the timeout, or exits with
    code 1, after it wrote the frame: [extract_last_frame] raises, so
    [frame_path] is never assigned (lines 325 and 413 assign on return
    only); the handler returns normally, every unlink succeeds, the video
    is deleted, the frame is never handed to unlink, and the frame file,
    which was not there before the request, is on disk afterwards.  The
    same holds for the video when the download breaks off after a part of
    the file is written (lines 323 and 411): then nothing is handed to
    unlink. *)
Theorem C1_failed_step_leaves_its_file :
  let w := world_with_last 7 "FILE-1" in
  let video := "/tmp/input_0000000000000000000000000000000a.mp4" in
  let frame := "/tmp/last_frame_0000000000000000000000000000000b.png" in
  let new_video := handle_video env_timeout_after_writing (message_with_video 7 "FILE-2") w in
  let regenerate := cb_regenerate env_timeout_after_writing (regen_pressed 7) w in
  let failed_run := handle_video env_exit_1_after_writing (message_with_video 7 "FILE-2") w in
  let broken_download := handle_video env_download_partial (message_with_video 7 "FILE-2") w in
  unlink_succeeds env_timeout_after_writing ∧ unlink_succeeds env_exit_1_after_writing ∧
  unlink_succeeds env_download_partial ∧
  fs w = ∅ ∧
  new_video.1 = Ok tt ∧ unlinked new_video.2 = [video] ∧
  elements (fs new_video.2) = [frame] ∧
  regenerate.1 = Ok tt ∧ unlinked regenerate.2 = [video] ∧
  elements (fs regenerate.2) = [frame] ∧
  failed_run.1 = Ok tt ∧ unlinked failed_run.2 = [video] ∧
  elements (fs failed_run.2) = [frame] ∧
  broken_download.1 = Ok tt ∧ unlinked broken_download.2 = [] ∧
  elements (fs broken_download.2) = [video].
Proof.
  cbn zeta. split; [intros n; reflexivity|]. split; [intros n; reflexivity|].
  split; [intros n; reflexivity|]. split; [reflexivity|].
  repeat (split; [vm_compute; reflexivity|]). vm_compute; reflexivity.
Qed.

(** C2 at sample inputs: a run that times out, and a run that succeeds. *)
Lemma C2_extraction_witness :
  (∃ msg e, (extract_last_frame env_timeout "/tmp/in.mp4" None None None
               (initial_world ∅)).1 = Raise (RuntimeError msg (Some e)) ∧
            te_timeout e = 60%Z) ∧
  (extract_last_frame env_ok "/tmp/in.mp4" None None None (initial_world ∅)).1
    = Ok "/tmp/last_frame_0000000000000000000000000000000a.png".
Proof.
  split.
  - pose proof (C2_extraction_outcomes env_timeout (initial_world ∅) "/tmp/in.mp4"
                  None None None) as (H & _).
    cbn zeta in H. rewrite (H false eq_refl). eexists _, _. split; reflexivity.
  - pose proof (C2_extraction_outcomes env_ok (initial_world ∅) "/tmp/in.mp4"
                  None None None) as (_ & _ & H & _).
    cbn zeta in H. rewrite (H 0%Z [] true eq_refl eq_refl); [reflexivity|].
    by_computation.
Defined.

(** C2 as stated fails on bytes that are not UTF-8: the byte 255 on
    stderr is dropped from the message, where a replacing decoder puts
    U+FFFD. *)
Lemma C2_counterexample_bytes_dropped :
  let call := extract_last_frame env_stderr_not_utf8 "/tmp/in.mp4" None None None
                (initial_world ∅) in
  call.1 = Raise (RuntimeError "Ошибка ffmpeg (код 1): " None) ∧
  decode Replace [255] = string_of_bytes [239; 191; 189] ∧
  call.1 ≠ Raise (RuntimeError ("Ошибка ffmpeg (код 1): " +:+ decode Replace [255]) None).
Proof.
  cbn zeta. split; [vm_compute; reflexivity|]. split; [vm_compute; reflexivity|].
  vm_compute. discriminate.
Qed.

(** C4 on a 1920 x 1080, on a 1080 x 1920 and on a 2 x 4000 picture. *)
Lemma C4_scale_1024_witness :
  (∃ h, apply_filters (1920, 1080)%Z scale_1024 = Some (1024%Z, h) ∧
        Z.even h = true ∧ (Z.abs (h * 1920 - 1024 * 1080) ≤ 1920)%Z) ∧
  (∃ w', apply_filters (1080, 1920)%Z scale_1024 = Some (w', 1024%Z) ∧
         Z.even w' = true ∧ (Z.abs (w' * 1920 - 1024 * 1080) ≤ 1920)%Z) ∧
  apply_filters (2, 4000)%Z scale_1024 = Some (2, 1024)%Z.
Proof.
  split; [|split].
  - pose proof (C4_scale_1024_orientation env_ok (initial_world ∅) "/tmp/in.mp4"
                  None None 1920 1080 ltac:(lia) ltac:(lia)) as (_ & H & _).
    destruct (H ltac:(lia)) as (h & Hsize & Heven & _ & _ & Hone & _).
    exists h. split; [exact Hsize|]. split; [exact Heven|]. apply Hone. lia.
  - pose proof (C4_scale_1024_orientation env_ok (initial_world ∅) "/tmp/in.mp4"
                  None None 1080 1920 ltac:(lia) ltac:(lia)) as (_ & _ & H).
    destruct (H ltac:(lia)) as (w' & Hsize & Heven & _ & _ & Hone & _).
    exists w'. split; [exact Hsize|]. split; [exact Heven|]. apply Hone. lia.
  - pose proof (C4_scale_1024_orientation env_ok (initial_world ∅) "/tmp/in.mp4"
                  None None 2 4000 ltac:(lia) ltac:(lia)) as (_ & _ & H).
    destruct (H ltac:(lia)) as (w' & Hsize & _ & _ & _ & _ & Hthin).
    rewrite (Hthin ltac:(lia)) in Hsize. exact Hsize.
Defined.

(** C5 on a 1920 x 1080 picture. *)
Lemma C5_square_crop_witness :
  apply_filters (1920, 1080)%Z scale_crop_1024sq = Some (1024, 1024)%Z.
Proof.
  pose proof (C5_square_crop_and_orig env_ok (initial_world ∅) "/tmp/in.mp4"
                None None 1920 1080 ltac:(lia) ltac:(lia)) as (_ & _ & H & _).
  exact H.
Defined.

(** C10 on a 720 x 720 picture: it stays 720 x 720. *)
Lemma C10_square_input_witness :
  apply_filters (720, 720)%Z scale_1024 = Some (720, 720)%Z.
Proof.
  pose proof (C10_square_input_keeps_size env_ok (initial_world ∅) "/tmp/in.mp4"
                None None 720 ltac:(lia)) as (_ & _ & _ & _ & _ & _ & _ & _ & H & _).
  exact H.
Defined.

(** The sample worlds hold file ids only. *)
Lemma world_with_last_references (user_id : Z) (file_id : string) :
  file_id ≠ "" → references_nonempty (world_with_last user_id file_id).
Proof.
  intros Hne u f. unfold world_with_last. cbn.
  destruct (decide (user_id = u)) as [->|Hu].
  - rewrite lookup_insert_eq. by intros [= <-].
  - rewrite lookup_insert_ne by exact Hu. by rewrite lookup_empty.
Defined.

(** C7 at sample inputs: a user with no reference gets the alert only; a
    user whose reference is FILE-1 gets what sending FILE-1 again gives. *)
Lemma C7_regenerate_witness :
  trace (cb_regenerate env_ok (regen_pressed 7) (world_with_last 8 "FILE-8")).2 =
    [EvAnswerCallback "Нет сохранённого видео — пришли сначала ролик 🎥" true] ∧
  same_view
    (handle_video env_ok (message_with_video 7 "FILE-1") (world_with_last 7 "FILE-1")).2
    (cb_regenerate env_ok (regen_pressed 7) (world_with_last 7 "FILE-1")).2.
Proof.
  split.
  - pose proof (C7_regenerate env_ok (world_with_last 8 "FILE-8") (regen_pressed 7)
                  (world_with_last_references 8 "FILE-8" ltac:(discriminate)))
      as (H & _).
    cbn zeta in H. apply H. reflexivity.
  - pose proof (C7_regenerate env_ok (world_with_last 7 "FILE-1") (regen_pressed 7)
                  (world_with_last_references 7 "FILE-1" ltac:(discriminate)))
      as (_ & H & _).
    cbn zeta in H. destruct (H "FILE-1" eq_refl) as (_ & H').
    apply (H' (message_with_video 7 "FILE-1") eq_refl eq_refl).
Defined.

(** The guard of [cb_regenerate] is [if not file_id]: an empty string in
    the store, which no handler puts there, would be taken for no
    reference. *)
Example empty_reference_counts_as_none :
  let w := world_with_last 7 "" in
  user_last_file_id w !! 7%Z = Some "" ∧
  (cb_regenerate env_ok (regen_pressed 7) w).1 = Ok tt ∧
  trace (cb_regenerate env_ok (regen_pressed 7) w).2 =
    [EvAnswerCallback "Нет сохранённого видео — пришли сначала ролик 🎥" true] ∧
  pipeline (cb_regenerate env_ok (regen_pressed 7) w).2 = [].
Proof.
  cbn zeta. split; [vm_compute; reflexivity|]. split; [vm_compute; reflexivity|].
  split; vm_compute; reflexivity.
Qed.

(** C8 at sample inputs: a message without media, and one with a video. *)
Lemma C8_download_witness :
  (∃ msg, (download_video_to_temp env_ok (message_without_media 7) (initial_world ∅)).1
          = Raise (ValueError msg)) ∧
  (download_video_to_temp env_ok (message_with_video 7 "FILE-2") (initial_world ∅)).1
    = Ok "/tmp/input_0000000000000000000000000000000a.mp4".
Proof.
  split.
  - pose proof (C8_download_video_to_temp env_ok (initial_world ∅)
                  (message_without_media 7)) as (H & _).
    cbn zeta in H. apply H. repeat split.
  - pose proof (C8_download_video_to_temp env_ok (initial_world ∅)
                  (message_with_video 7 "FILE-2")) as (_ & _ & H & _).
    cbn zeta in H. destruct (H "FILE-2" eq_refl) as (_ & Hok & _).
    destruct (Hok eq_refl) as (-> & _). reflexivity.
Defined.

(** C9 at a sample input: the download of FILE-2 fails, and the user's
    reference, FILE-1 before, is FILE-2 after the handler. *)
Lemma C9_last_reference_witness :
  let call := handle_video env_download_fails (message_with_video 7 "FILE-2")
                (world_with_last 7 "FILE-1") in
  user_last_file_id (world_with_last 7 "FILE-1") !! 7%Z = Some "FILE-1" ∧
  call.1 = Ok tt ∧
  user_last_file_id call.2 !! 7%Z = Some "FILE-2".
Proof.
  cbn zeta. split; [vm_compute; reflexivity|]. split; [vm_compute; reflexivity|].
  pose proof (C9_last_reference_recorded_first env_download_fails
                (world_with_last 7 "FILE-1") (message_with_video 7 "FILE-2") "FILE-2"
                eq_refl) as (_ & H & _).
  cbn zeta in H. apply H. reflexivity.
Defined.

(** * More of the program *)

(** ** Preferences, captions and the keyboard *)

Lemma frame_format_fixed (x : string) :
  x ∈ ["png"; "jpg"; "webp"] → frame_format x = x.
Proof.
  intros Hx. rewrite !elem_of_cons, elem_of_nil in Hx.
  destruct Hx as [->|[->|[->|[]]]]; vm_compute; reflexivity.
Qed.

(** X1: [extract_last_frame] and [set_user_format] normalize a format in
    different orders of the same tests, and agree: the extension
    [frame_format] picks for a raw format is the format [set_user_format]
    stores for it.  Normalizing is idempotent, and a stored format that
    is one of png, jpg, webp is its own extension. *)
Theorem X1_format_normalizations_agree (w : World) (user_id : Z) (raw : string) :
  frame_format raw = get_user_format (set_user_format user_id raw w).2 user_id ∧
  frame_format (frame_format raw) = frame_format raw ∧
  get_user_format (set_user_format user_id (frame_format raw) w).2 user_id
    = frame_format raw ∧
  (get_user_format w user_id ∈ ["png"; "jpg"; "webp"] →
   frame_format (get_user_format w user_id) = get_user_format w user_id).
Proof.
  assert (Hagree : ∀ r, frame_format r
                        = get_user_format (set_user_format user_id r w).2 user_id).
  { intros r. rewrite set_user_format_stores. unfold get_user_format.
    cbn [snd set_format_prefs user_format_prefs]. by rewrite lookup_insert_eq. }
  split; [apply Hagree|]. split; [apply frame_format_fixed, frame_format_member|].
  split; [rewrite <- Hagree; apply frame_format_fixed, frame_format_member|].
  apply frame_format_fixed.
Qed.

(** X1 at sample inputs. *)
Lemma X1_format_normalizations_witness :
  frame_format "JPEG" = "jpg" ∧ frame_format "gif" = "png" ∧
  frame_format (get_user_format (set_user_format 7 "WebP" (initial_world ∅)).2 7) = "webp".
Proof.
  split; [vm_compute; reflexivity|]. split; [vm_compute; reflexivity|].
  pose proof (X1_format_normalizations_agree
                (set_user_format 7 "WebP" (initial_world ∅)).2 7 "x") as (_ & _ & _ & H).
  rewrite H; [vm_compute; reflexivity|]. by_computation.
Defined.

(** X2: a setter writes one entry of one dictionary: [set_user_format]
    leaves the other users' formats, every size, every last file id, the
    files and the trace as they were, and likewise [set_user_size]; the
    two setters commute, and of two writes of a user's format the later
    one stands. *)
Theorem X2_setters_write_one_entry (w : World) (user_id other : Z) (raw raw' : string) :
  let wf := (set_user_format user_id raw w).2 in
  let ws := (set_user_size user_id raw w).2 in
  (other ≠ user_id → get_user_format wf other = get_user_format w other) ∧
  user_size_prefs wf = user_size_prefs w ∧
  user_last_file_id wf = user_last_file_id w ∧ fs wf = fs w ∧ trace wf = trace w ∧
  (other ≠ user_id → get_user_size ws other = get_user_size w other) ∧
  user_format_prefs ws = user_format_prefs w ∧
  user_last_file_id ws = user_last_file_id w ∧ fs ws = fs w ∧ trace ws = trace w ∧
  (set_user_size other raw' wf).2 = (set_user_format user_id raw (set_user_size other raw' w).2).2 ∧
  (set_user_format user_id raw' wf).2 = (set_user_format user_id raw' w).2.
Proof.
  cbn zeta. unfold set_user_format, set_user_size, get_user_format, get_user_size, modify.
  cbn [fst snd set_format_prefs set_size_prefs user_format_prefs user_size_prefs
       user_last_file_id fs trace].
  split; [intros Hne; by rewrite lookup_insert_ne|].
  do 4 (split; [reflexivity|]).
  split; [intros Hne; by rewrite lookup_insert_ne|].
  do 4 (split; [reflexivity|]).
  split; [reflexivity|].
  unfold set_format_prefs. cbn. by rewrite insert_insert_eq.
Qed.

(** X2 at a sample input: user 8 keeps the format after user 7 sets one. *)
Lemma X2_setters_witness :
  get_user_format (set_user_format 7 "jpg" (set_user_format 8 "webp" (initial_world ∅)).2).2 8
  = "webp".
Proof.
  pose proof (X2_setters_write_one_entry (set_user_format 8 "webp" (initial_world ∅)).2
                7 8 "jpg" "jpg") as (H & _).
  cbn zeta in H. rewrite H; [vm_compute; reflexivity|]. discriminate.
Defined.

(** X3: the caption describes the transform that is requested: for every
    size mode, in any case, [describe_size] says "original" exactly when
    [vf_args] adds no filter, "larger side 1024" exactly when it adds the
    scale filter, and "square" exactly when it adds the scale-and-crop
    filter; and both treat a raw size as [set_user_size] stores it. *)
Theorem X3_caption_matches_transform (w : World) (user_id : Z) (raw : string) :
  let stored := get_user_size (set_user_size user_id raw w).2 user_id in
  describe_size stored = describe_size raw ∧
  vf_args stored = vf_args raw ∧
  (vf_args raw = [] ↔ describe_size raw = "оригинальное разрешение") ∧
  (vf_args raw = ["-vf"; scale_filter] ↔ describe_size raw = "большая сторона 1024 px") ∧
  (vf_args raw = ["-vf"; scale_crop_filter]
   ↔ describe_size raw = "квадрат 1024×1024 (кроп по центру)").
Proof.
  cbn zeta. unfold set_user_size, get_user_size, modify.
  cbn [fst snd set_size_prefs user_size_prefs]. rewrite lookup_insert_eq. cbn [default].
  set (stored := if bool_decide (lower raw ∉ ["orig"; "1024"; "1024sq"])
                 then "orig" else lower raw).
  assert (Hstored : lower stored = stored ∧
                    (stored = lower raw ∨
                     stored = "orig" ∧ lower raw ≠ "1024" ∧ lower raw ≠ "1024sq")).
  { unfold stored. case_bool_decide as Hin.
    - split; [vm_compute; reflexivity|]. right. in_list.
    - split; [|by left]. rewrite !elem_of_cons, elem_of_nil in Hin.
      destruct Hin as [->|[->|[->|[]]]]; vm_compute; reflexivity. }
  destruct Hstored as (Hlower & Hcases).
  unfold describe_size, vf_args, id. rewrite Hlower.
  split; [|split].
  - destruct Hcases as [->|(-> & H1 & H2)]; [reflexivity|].
    rewrite !(decide_False (P := "orig" = _)) by discriminate.
    by rewrite !decide_False.
  - destruct Hcases as [->|(-> & H1 & H2)]; [reflexivity|].
    rewrite !(decide_False (P := "orig" = _)) by discriminate.
    by rewrite !decide_False.
  - repeat case_decide; (split; [|split]); split; intros Heq;
      first [reflexivity | discriminate Heq].
Qed.

Lemma startswith_app (p s : string) :
  startswith p s = true ↔ ∃ rest, s = p +:+ rest.
Proof.
  revert s. induction p as [|a p IH]; intros s; cbn.
  - split; eauto.
  - destruct s as [|b s].
    + split; [discriminate|]. intros [rest [=]].
    + case_decide as Hab.
      * subst b. rewrite IH. split; intros [rest H]; exists rest.
        -- cbn. by rewrite H.
        -- cbn in H. by injection H.
      * split; [discriminate|]. intros [rest H]. cbn in H.
        injection H as H1 H2. by destruct Hab.
Qed.

(** X4: the settings keyboard.  Whatever the stored settings, it has the
    same seven buttons in the same order, with the callback data
    fmt:png, fmt:jpg, fmt:webp, size:orig, size:1024, size:1024sq and
    regen.  The text of a button ends with the mark exactly when it is the
    button of the user's current format or of the user's current size;
    so with a format and a size that the setters store, exactly two
    buttons are marked: the current format and the current size. *)
Theorem X4_keyboard_marks_current_settings (w : World) (user_id : Z) :
  let kb := build_settings_keyboard w user_id in
  kb.*2 = ["fmt:png"; "fmt:jpg"; "fmt:webp"; "size:orig"; "size:1024"; "size:1024sq";
           "regen"] ∧
  (∀ text data, (text, data) ∈ kb →
     endswith " ✅" text = true ↔
     data = "fmt:" +:+ get_user_format w user_id ∨
     data = "size:" +:+ get_user_size w user_id) ∧
  (get_user_format w user_id ∈ ["png"; "jpg"; "webp"] →
   get_user_size w user_id ∈ ["orig"; "1024"; "1024sq"] →
   (marked kb).*2 = ["fmt:" +:+ get_user_format w user_id;
                     "size:" +:+ get_user_size w user_id]).
Proof.
  cbn zeta. unfold build_settings_keyboard, marked.
  set (fmt := get_user_format w user_id). set (size := get_user_size w user_id).
  split; [reflexivity|]. split.
  - intros text data Hin. cbn [map app] in Hin.
    rewrite !elem_of_cons, elem_of_nil in Hin.
    assert (Hf : ∀ x, "fmt:" +:+ x ≠ "size:" +:+ size) by (intros x; discriminate).
    assert (Hs : ∀ x, "size:" +:+ x ≠ "fmt:" +:+ fmt) by (intros x; discriminate).
    destruct Hin as [H|[H|[H|[H|[H|[H|[H|[]]]]]]]]; injection H as -> ->;
      try (split; [discriminate | intros [H|H]; discriminate H]);
      case_decide as Hc; try subst fmt; try subst size;
      (split; [intros Hm; try discriminate Hm; first [left; congruence | right; congruence]
              | intros [H|H]; first [reflexivity | discriminate H
                                     | (apply append_inj_l in H; congruence)]]).
  - intros Hfmt Hsize. rewrite !elem_of_cons, elem_of_nil in Hfmt, Hsize.
    destruct Hfmt as [->|[->|[->|[]]]], Hsize as [->|[->|[->|[]]]]; vm_compute; reflexivity.
Qed.

(** ** The settings handlers and the callback filters *)

Lemma split_colon_cons (s : string) : ∃ x rest, split_colon s = x :: rest.
Proof.
  induction s as [|c s (x & rest & IH)]; cbn; [eauto|].
  case_decide; [eauto|]. rewrite IH. eauto.
Qed.

(** [split(":", 1)] has a second part exactly when there is a colon. *)
Lemma split_colon_second (s : string) :
  split_colon s !! 1 = None ↔ contains ":" s = false.
Proof.
  induction s as [|c s IH]; cbn; [done|].
  destruct (split_colon_cons s) as (x & rest & Hs).
  rewrite Hs in IH |- *.
  case_decide as Hc.
  - subst c. cbn. rewrite decide_True by reflexivity. done.
  - rewrite decide_False by congruence. cbn. exact IH.
Qed.

Lemma split_colon_fmt (rest : string) : split_colon ("fmt:" +:+ rest) !! 1 = Some rest.
Proof. reflexivity. Qed.

Lemma split_colon_size (rest : string) : split_colon ("size:" +:+ rest) !! 1 = Some rest.
Proof. reflexivity. Qed.

(** The size that [set_user_size] stores for a raw size is one of the
    three, and names the same transform as the raw size. *)
Lemma set_user_size_stores (user_id : Z) (raw : string) (w : World) :
  ∃ size, set_user_size user_id raw w = (Ok tt, set_size_prefs <[user_id := size]> w) ∧
          size ∈ ["orig"; "1024"; "1024sq"] ∧
          (raw ∈ ["orig"; "1024"; "1024sq"] → size = raw) ∧
          describe_size size = describe_size raw ∧ vf_args size = vf_args raw.
Proof.
  unfold set_user_size, modify. eexists. split; [reflexivity|].
  set (stored := if bool_decide (lower raw ∉ ["orig"; "1024"; "1024sq"])
                 then "orig" else lower raw).
  assert (Hstored : stored ∈ ["orig"; "1024"; "1024sq"] ∧
                    (stored = lower raw ∨
                     stored = "orig" ∧ lower raw ≠ "1024" ∧ lower raw ≠ "1024sq")).
  { unfold stored. case_bool_decide as Hin.
    - split; [in_list|]. right. in_list.
    - split; [|by left]. exact Hin. }
  destruct Hstored as (Hin & Hcases).
  assert (Hlower : lower stored = stored).
  { rewrite !elem_of_cons, elem_of_nil in Hin.
    destruct Hin as [->|[->|[->|[]]]]; vm_compute; reflexivity. }
  split; [exact Hin|]. split.
  { intros Hraw. assert (lower raw = raw) as Hl.
    { rewrite !elem_of_cons, elem_of_nil in Hraw.
      destruct Hraw as [->|[->|[->|[]]]]; vm_compute; reflexivity. }
    unfold stored. rewrite Hl. by rewrite bool_decide_eq_false_2 by tauto. }
  unfold describe_size, vf_args. rewrite Hlower.
  destruct Hcases as [->|(-> & H1 & H2)]; [done|].
  rewrite !(decide_False (P := "orig" = _)) by discriminate.
  by rewrite !decide_False.
Qed.

(** [cb_set_format], step by step: the setter, the keyboard under the
    message, the acknowledgement. *)
Lemma cb_set_format_eq env callback fmt u :
  split_colon (cb_data callback) !! 1 = Some fmt →
  let user_id := cb_from_user_id callback in
  let w1 := set_format_prefs <[user_id := frame_format fmt]> (world u) in
  let shown := (cb_chat_id callback, build_settings_keyboard w1 user_id) :: edited u in
  let ack := EvAnswerCallback ("Формат установлен: " +:+ upper (frame_format fmt)) false in
  ∃ handler, cb_set_format env callback = Some handler ∧
    handler u =
    match env_api env (n_api (world u)) with
    | Some msg => (Raise (TelegramError msg), {| world := tick_api w1; edited := shown |})
    | None =>
        (match env_api env (S (n_api (world u))) with
         | Some msg => Raise (TelegramError msg)
         | None => Ok tt
         end, {| world := tick_api (log ack (tick_api w1)); edited := shown |})
    end.
Proof.
  intros Hsplit. cbn zeta. unfold cb_set_format. rewrite Hsplit.
  eexists. split; [reflexivity|].
  unfold bind, liftU, gets, edit_reply_markup. rewrite set_user_format_stores.
  cbn [fst snd world edited]. cbn [n_api set_format_prefs].
  destruct (env_api env (n_api (world u))) as [msg|]; [reflexivity|].
  cbn [world edited]. rewrite api_call_eq.
  unfold get_user_format. cbn [user_format_prefs tick_api set_format_prefs n_api].
  rewrite lookup_insert_eq. reflexivity.
Qed.

Lemma cb_set_size_eq env callback raw u :
  split_colon (cb_data callback) !! 1 = Some raw →
  let user_id := cb_from_user_id callback in
  ∃ size handler,
    let w1 := set_size_prefs <[user_id := size]> (world u) in
    let shown := (cb_chat_id callback, build_settings_keyboard w1 user_id) :: edited u in
    let ack := EvAnswerCallback ("Размер установлен: " +:+ describe_size raw) false in
    cb_set_size env callback = Some handler ∧
    size ∈ ["orig"; "1024"; "1024sq"] ∧
    (raw ∈ ["orig"; "1024"; "1024sq"] → size = raw) ∧
    describe_size size = describe_size raw ∧ vf_args size = vf_args raw ∧
    handler u =
    match env_api env (n_api (world u)) with
    | Some msg => (Raise (TelegramError msg), {| world := tick_api w1; edited := shown |})
    | None =>
        (match env_api env (S (n_api (world u))) with
         | Some msg => Raise (TelegramError msg)
         | None => Ok tt
         end, {| world := tick_api (log ack (tick_api w1)); edited := shown |})
    end.
Proof.
  intros Hsplit. cbn zeta. unfold cb_set_size. rewrite Hsplit.
  destruct (set_user_size_stores (cb_from_user_id callback) raw (world u))
    as (size & Hset & Hin & Hfix & Hdescr & Hvf).
  exists size. eexists. split; [reflexivity|].
  split; [exact Hin|]. split; [exact Hfix|]. split; [exact Hdescr|]. split; [exact Hvf|].
  unfold bind, liftU, gets, edit_reply_markup. rewrite Hset.
  cbn [fst snd world edited]. cbn [n_api set_size_prefs].
  destruct (env_api env (n_api (world u))) as [msg|]; [reflexivity|].
  cbn [world edited]. rewrite api_call_eq.
  unfold get_user_size. cbn [user_size_prefs tick_api set_size_prefs n_api].
  rewrite lookup_insert_eq. cbn [default]. unfold id. rewrite Hdescr. reflexivity.
Qed.

(** X5: pressing a format button.  For callback data [fmt:<rest>] the
    handler finds [<rest>], stores its normalized format for the user who
    pressed (a format of the keyboard is stored as it is) and for nobody
    else, and leaves sizes, last file ids and files alone; the keyboard
    it puts under the message is the one of the new settings.  The
    format is stored before the first Bot API call, so it stays stored
    when a call fails: if [edit_reply_markup] raises, the error is passed
    on and the press is never answered; otherwise the press is answered
    with the new format in upper case. *)
Theorem X5_format_button (env : Env) (u : UiWorld) (callback : CallbackQuery)
    (rest : string) :
  cb_data callback = "fmt:" +:+ rest →
  let user_id := cb_from_user_id callback in
  ∃ handler, cb_set_format env callback = Some handler ∧
    let call := handler u in
    let w' := world call.2 in
    get_user_format w' user_id = frame_format rest ∧
    (rest ∈ ["png"; "jpg"; "webp"] → get_user_format w' user_id = rest) ∧
    (∀ other, other ≠ user_id →
       get_user_format w' other = get_user_format (world u) other) ∧
    user_size_prefs w' = user_size_prefs (world u) ∧
    user_last_file_id w' = user_last_file_id (world u) ∧
    fs w' = fs (world u) ∧
    edited call.2 = (cb_chat_id callback, build_settings_keyboard w' user_id) :: edited u ∧
    (∀ msg, env_api env (n_api (world u)) = Some msg →
       call.1 = Raise (TelegramError msg) ∧ trace w' = trace (world u)) ∧
    (env_api env (n_api (world u)) = None →
       trace w' = EvAnswerCallback ("Формат установлен: " +:+ upper (frame_format rest))
                    false :: trace (world u) ∧
       call.1 = match env_api env (S (n_api (world u))) with
                | None => Ok tt
                | Some msg => Raise (TelegramError msg)
                end).
Proof.
  intros Hdata. cbn zeta.
  destruct (cb_set_format_eq env callback rest u) as (handler & Hsome & Hrun).
  { rewrite Hdata. apply split_colon_fmt. }
  exists handler. split; [exact Hsome|]. rewrite Hrun. clear Hrun Hsome.
  assert (Hstored : ∀ w1, user_format_prefs w1
                          = <[cb_from_user_id callback := frame_format rest]>
                              (user_format_prefs (world u)) →
                    get_user_format w1 (cb_from_user_id callback) = frame_format rest).
  { intros w1 H. unfold get_user_format. by rewrite H, lookup_insert_eq. }
  assert (Hother : ∀ w1 other, user_format_prefs w1
                          = <[cb_from_user_id callback := frame_format rest]>
                              (user_format_prefs (world u)) →
                    other ≠ cb_from_user_id callback →
                    get_user_format w1 other = get_user_format (world u) other).
  { intros w1 other H Hne. unfold get_user_format. by rewrite H, lookup_insert_ne. }
  destruct (env_api env (n_api (world u))) as [msg|]; cbn [fst snd world edited].
  - split; [by apply Hstored|].
    split; [intros Hin; rewrite Hstored by reflexivity; by apply frame_format_fixed|].
    split; [intros other; by apply Hother|].
    do 4 (split; [reflexivity|]).
    split; [intros ? [= <-]; done|]. discriminate.
  - split; [by apply Hstored|].
    split; [intros Hin; rewrite Hstored by reflexivity; by apply frame_format_fixed|].
    split; [intros other; by apply Hother|].
    do 4 (split; [reflexivity|]).
    split; [discriminate|]. intros _. split; [reflexivity|].
    by destruct (env_api env (S (n_api (world u)))).
Qed.

(** X5 at a sample input: the data [fmt:JPEG] stores jpg. *)
Lemma X5_format_button_witness :
  ∃ handler,
    cb_set_format env_ok {| cb_from_user_id := 7; cb_chat_id := 7; cb_data := "fmt:JPEG" |}
      = Some handler ∧
    get_user_format (world (handler {| world := initial_world ∅; edited := [] |}).2) 7
      = "jpg".
Proof.
  destruct (X5_format_button env_ok {| world := initial_world ∅; edited := [] |}
              {| cb_from_user_id := 7; cb_chat_id := 7; cb_data := "fmt:JPEG" |}
              "JPEG" eq_refl) as (handler & Hsome & Hfmt & _).
  exists handler. split; [exact Hsome|]. cbn zeta in Hfmt.
  cbn [cb_from_user_id] in Hfmt. rewrite Hfmt. reflexivity.
Defined.

(** X6: pressing a size button.  For callback data [size:<rest>] the
    handler finds [<rest>] and stores for the user who pressed one of
    orig, 1024, 1024sq: [<rest>] itself when it is one of them, and in
    any case a size with the description and the ffmpeg filter of
    [<rest>]; nobody else's size, no format, no last file id and no file
    changes.  The size is stored before the first Bot API call: if
    [edit_reply_markup] raises, the error is passed on and the press is
    never answered; otherwise the press is answered with the description
    of the size. *)
Theorem X6_size_button (env : Env) (u : UiWorld) (callback : CallbackQuery)
    (rest : string) :
  cb_data callback = "size:" +:+ rest →
  let user_id := cb_from_user_id callback in
  ∃ handler, cb_set_size env callback = Some handler ∧
    let call := handler u in
    let w' := world call.2 in
    get_user_size w' user_id ∈ ["orig"; "1024"; "1024sq"] ∧
    (rest ∈ ["orig"; "1024"; "1024sq"] → get_user_size w' user_id = rest) ∧
    describe_size (get_user_size w' user_id) = describe_size rest ∧
    vf_args (get_user_size w' user_id) = vf_args rest ∧
    (∀ other, other ≠ user_id →
       get_user_size w' other = get_user_size (world u) other) ∧
    user_format_prefs w' = user_format_prefs (world u) ∧
    user_last_file_id w' = user_last_file_id (world u) ∧
    fs w' = fs (world u) ∧
    edited call.2 = (cb_chat_id callback, build_settings_keyboard w' user_id) :: edited u ∧
    (∀ msg, env_api env (n_api (world u)) = Some msg →
       call.1 = Raise (TelegramError msg) ∧ trace w' = trace (world u)) ∧
    (env_api env (n_api (world u)) = None →
       trace w' = EvAnswerCallback ("Размер установлен: " +:+ describe_size rest)
                    false :: trace (world u) ∧
       call.1 = match env_api env (S (n_api (world u))) with
                | None => Ok tt
                | Some msg => Raise (TelegramError msg)
                end).
Proof.
  intros Hdata. cbn zeta.
  destruct (cb_set_size_eq env callback rest u)
    as (size & handler & Hsome & Hin & Hfix & Hdescr & Hvf & Hrun).
  { rewrite Hdata. apply split_colon_size. }
  exists handler. split; [exact Hsome|]. rewrite Hrun. clear Hrun Hsome.
  assert (Hstored : ∀ w1, user_size_prefs w1
                          = <[cb_from_user_id callback := size]>
                              (user_size_prefs (world u)) →
                    get_user_size w1 (cb_from_user_id callback) = size).
  { intros w1 H. unfold get_user_size. by rewrite H, lookup_insert_eq. }
  assert (Hother : ∀ w1 other, user_size_prefs w1
                          = <[cb_from_user_id callback := size]>
                              (user_size_prefs (world u)) →
                    other ≠ cb_from_user_id callback →
                    get_user_size w1 other = get_user_size (world u) other).
  { intros w1 other H Hne. unfold get_user_size. by rewrite H, lookup_insert_ne. }
  destruct (env_api env (n_api (world u))) as [msg|]; cbn [fst snd world edited].
  - rewrite Hstored by reflexivity.
    split; [exact Hin|]. split; [exact Hfix|]. split; [exact Hdescr|].
    split; [exact Hvf|].
    split; [intros other; by apply Hother|].
    do 4 (split; [reflexivity|]).
    split; [intros ? [= <-]; done|]. discriminate.
  - rewrite Hstored by reflexivity.
    split; [exact Hin|]. split; [exact Hfix|]. split; [exact Hdescr|].
    split; [exact Hvf|].
    split; [intros other; by apply Hother|].
    do 4 (split; [reflexivity|]).
    split; [discriminate|]. intros _. split; [reflexivity|].
    by destruct (env_api env (S (n_api (world u)))).
Qed.

(** X6 at a sample input: the data [size:1024SQ] stores 1024sq. *)
Lemma X6_size_button_witness :
  ∃ handler,
    cb_set_size env_ok {| cb_from_user_id := 7; cb_chat_id := 7; cb_data := "size:1024SQ" |}
      = Some handler ∧
    vf_args (get_user_size (world (handler {| world := initial_world ∅; edited := [] |}).2) 7)
      = ["-vf"; scale_crop_filter].
Proof.
  destruct (X6_size_button env_ok {| world := initial_world ∅; edited := [] |}
              {| cb_from_user_id := 7; cb_chat_id := 7; cb_data := "size:1024SQ" |}
              "1024SQ" eq_refl) as (handler & Hsome & _ & _ & _ & Hvf & _).
  exists handler. split; [exact Hsome|]. cbn zeta in Hvf.
  cbn [cb_from_user_id] in Hvf. rewrite Hvf. reflexivity.
Defined.

(** X7: the filters of the three callback handlers exclude each other,
    so a button press has at most one handler whatever the order of
    registration; every button of the settings keyboard has one, the
    handler it is meant for; and under their filters [cb_set_format] and
    [cb_set_size] always find a second part in the data: the index error
    of [split(":", 1)[1]] arises exactly for data without a colon, which
    neither filter accepts. *)
Theorem X7_callback_filters (env : Env) (w : World) (user_id : Z)
    (callback : CallbackQuery) :
  let data := cb_data callback in
  (route_callback data = Some SetFormat ↔ startswith "fmt:" data = true) ∧
  (route_callback data = Some SetSize ↔ startswith "size:" data = true) ∧
  (route_callback data = Some Regenerate ↔ data = "regen") ∧
  route_callback <$> (build_settings_keyboard w user_id).*2
    = [Some SetFormat; Some SetFormat; Some SetFormat;
       Some SetSize; Some SetSize; Some SetSize; Some Regenerate] ∧
  (cb_set_format env callback = None ↔ contains ":" data = false) ∧
  (cb_set_size env callback = None ↔ contains ":" data = false) ∧
  (route_callback data = Some SetFormat → is_Some (cb_set_format env callback)) ∧
  (route_callback data = Some SetSize → is_Some (cb_set_size env callback)).
Proof.
  cbn zeta.
  assert (Hfmt : startswith "fmt:" (cb_data callback) = true →
                 startswith "size:" (cb_data callback) = false ∧
                 cb_data callback ≠ "regen" ∧
                 split_colon (cb_data callback) !! 1 ≠ None).
  { intros (rest & ->)%startswith_app. done. }
  assert (Hsize : startswith "size:" (cb_data callback) = true →
                  cb_data callback ≠ "regen" ∧
                  split_colon (cb_data callback) !! 1 ≠ None).
  { intros (rest & ->)%startswith_app. done. }
  assert (Hf : cb_set_format env callback = None
               ↔ split_colon (cb_data callback) !! 1 = None).
  { unfold cb_set_format. by destruct (split_colon (cb_data callback) !! 1). }
  assert (Hs : cb_set_size env callback = None
               ↔ split_colon (cb_data callback) !! 1 = None).
  { unfold cb_set_size. by destruct (split_colon (cb_data callback) !! 1). }
  unfold route_callback.
  destruct (startswith "fmt:" (cb_data callback)) eqn:Ef.
  { destruct (Hfmt eq_refl) as (-> & Hne & Hsplit).
    split; [done|]. split; [done|]. split; [split; [done|intros H; by destruct Hne]|].
    split; [reflexivity|].
    split; [by rewrite Hf, split_colon_second|].
    split; [by rewrite Hs, split_colon_second|].
    split; [intros _; apply not_eq_None_Some; by rewrite Hf|done]. }
  destruct (startswith "size:" (cb_data callback)) eqn:Es.
  { destruct (Hsize eq_refl) as (Hne & Hsplit).
    split; [done|]. split; [done|]. split; [split; [done|intros H; by destruct Hne]|].
    split; [reflexivity|].
    split; [by rewrite Hf, split_colon_second|].
    split; [by rewrite Hs, split_colon_second|].
    split; [done|]. intros _. apply not_eq_None_Some. by rewrite Hs. }
  split; [case_decide; split; discriminate|].
  split; [case_decide; split; discriminate|].
  split; [case_decide; split; congruence|].
  split; [reflexivity|].
  split; [by rewrite Hf, split_colon_second|].
  split; [by rewrite Hs, split_colon_second|].
  split; case_decide; discriminate.
Qed.

(** ** An invariant of the dictionaries *)

Lemma prefs_valid_store (w w' : World) :
  user_format_prefs w' = user_format_prefs w → user_size_prefs w' = user_size_prefs w →
  prefs_valid w → prefs_valid w'.
Proof. unfold prefs_valid. intros -> ->. done. Qed.

Lemma prefs_valid_format (w : World) (user_id : Z) (raw : string) :
  prefs_valid w → prefs_valid (set_format_prefs <[user_id := frame_format raw]> w).
Proof.
  intros (Hf & Hs). split; [|exact Hs].
  intros u fmt. cbn. destruct (decide (user_id = u)) as [->|Hne].
  - rewrite lookup_insert_eq. intros [= <-]. apply frame_format_member.
  - rewrite lookup_insert_ne by exact Hne. apply Hf.
Qed.

Lemma prefs_valid_size (w : World) (user_id : Z) (size : string) :
  size ∈ ["orig"; "1024"; "1024sq"] →
  prefs_valid w → prefs_valid (set_size_prefs <[user_id := size]> w).
Proof.
  intros Hin (Hf & Hs). split; [exact Hf|].
  intros u sz. cbn. destruct (decide (user_id = u)) as [->|Hne].
  - rewrite lookup_insert_eq. by intros [= <-].
  - rewrite lookup_insert_ne by exact Hne. apply Hs.
Qed.

(** X8: the stored preferences are always ones the setters store.  The
    dictionaries are empty at the start, and no setter and no handler
    breaks the invariant that every stored format is png, jpg or webp and
    every stored size is orig, 1024 or 1024sq; under it every user reads
    a valid format and size, and the extension of the frame file is the
    format the user reads. *)
Theorem X8_stored_preferences_stay_valid (env : Env) (w : World) (message : Message)
    (callback : CallbackQuery) (shown : list (Z * keyboard)) (files : gset string)
    (user_id : Z) (raw : string) :
  prefs_valid (initial_world files) ∧
  (prefs_valid w →
   prefs_valid (set_user_format user_id raw w).2 ∧
   prefs_valid (set_user_size user_id raw w).2 ∧
   prefs_valid (handle_video env message w).2 ∧
   prefs_valid (cb_regenerate env callback w).2 ∧
   (∀ handler, cb_set_format env callback = Some handler →
      prefs_valid (world (handler {| world := w; edited := shown |}).2)) ∧
   (∀ handler, cb_set_size env callback = Some handler →
      prefs_valid (world (handler {| world := w; edited := shown |}).2)) ∧
   get_user_format w user_id ∈ ["png"; "jpg"; "webp"] ∧
   get_user_size w user_id ∈ ["orig"; "1024"; "1024sq"] ∧
   frame_format (get_user_format w user_id) = get_user_format w user_id).
Proof.
  split; [split; intros u x; cbn; by rewrite lookup_empty|].
  intros Hw.
  assert (Hfmt : get_user_format w user_id ∈ ["png"; "jpg"; "webp"]).
  { unfold get_user_format. destruct (user_format_prefs w !! user_id) as [fmt|] eqn:E.
    - by apply (proj1 Hw user_id).
    - cbn. in_list. }
  split; [rewrite set_user_format_stores; by apply prefs_valid_format|].
  split.
  { destruct (set_user_size_stores user_id raw w) as (size & -> & Hin & _).
    by apply prefs_valid_size. }
  split.
  { pose proof (handle_video_spec env message w) as (Hf & Hs & _).
    by apply (prefs_valid_store w). }
  split.
  { pose proof (cb_regenerate_spec env callback w) as ((Hf & Hs & _) & _).
    by apply (prefs_valid_store w). }
  split.
  { intros handler Hsome.
    destruct (split_colon (cb_data callback) !! 1) as [fmt|] eqn:Hsplit;
      [|unfold cb_set_format in Hsome; by rewrite Hsplit in Hsome].
    destruct (cb_set_format_eq env callback fmt {| world := w; edited := shown |} Hsplit)
      as (handler' & Hsome' & Hrun).
    rewrite Hsome in Hsome'. injection Hsome' as <-. rewrite Hrun.
    pose proof (prefs_valid_format w (cb_from_user_id callback) fmt Hw) as Hv.
    destruct (env_api env _); cbn [snd world];
      refine (prefs_valid_store _ _ _ _ Hv); reflexivity. }
  split.
  { intros handler Hsome.
    destruct (split_colon (cb_data callback) !! 1) as [size|] eqn:Hsplit;
      [|unfold cb_set_size in Hsome; by rewrite Hsplit in Hsome].
    destruct (cb_set_size_eq env callback size {| world := w; edited := shown |} Hsplit)
      as (size' & handler' & Hsome' & Hin & _ & _ & _ & Hrun).
    rewrite Hsome in Hsome'. injection Hsome' as <-. rewrite Hrun.
    pose proof (prefs_valid_size w (cb_from_user_id callback) size' Hin Hw) as Hv.
    destruct (env_api env _); cbn [snd world];
      refine (prefs_valid_store _ _ _ _ Hv); reflexivity. }
  split; [exact Hfmt|]. split; [|by apply frame_format_fixed].
  unfold get_user_size. destruct (user_size_prefs w !! user_id) as [sz|] eqn:E.
  - by apply (proj2 Hw user_id).
  - cbn. in_list.
Qed.

(** X8 at a sample input: the invariant after the first video. *)
Lemma X8_stored_preferences_witness :
  prefs_valid (handle_video env_ok (message_with_video 7 "FILE-1") (initial_world ∅)).2.
Proof.
  pose proof (X8_stored_preferences_stay_valid env_ok (initial_world ∅)
                (message_with_video 7 "FILE-1") (regen_pressed 7) [] ∅ 7 "png")
    as (Hstart & Hstep).
  destruct (Hstep Hstart) as (_ & _ & H & _). exact H.
Defined.

(** ** The copy for the owner *)

Lemma send_video_to_admin_eq env message w :
  send_video_to_admin env message w =
  (Ok tt,
   match admin_post env message with
   | [] => w
   | post :: _ =>
       let w' := tick_api (log post w) in
       match env_api env (n_api w) with
       | None => w'
       | Some msg => log (EvPrint ("Не удалось отправить видео владельцу: " +:+ msg)) w'
       end
   end).
Proof.
  unfold send_video_to_admin, admin_post.
  destruct (ADMIN_CHAT_ID env) as [admin|]; [|reflexivity].
  case_decide; [reflexivity|].
  unfold try_except, modify.
  destruct (video message), (video_note message), (animation message);
    try reflexivity; rewrite api_call_eq;
    destruct (env_api env (n_api w)); reflexivity.
Qed.

(** X9: [send_video_to_admin] always returns normally and changes neither
    the dictionaries nor the files.  Without an owner chat (the variable
    unset or empty), or for a message without media, it does nothing at
    all.  Otherwise it makes exactly one Bot API call, to the owner's chat
    and with the file id of the first of video, video note and animation
    that is present, by the method that goes with it; when that call
    fails, the error is printed and goes no further. *)
Theorem X9_send_video_to_admin (env : Env) (w : World) (message : Message) :
  let call := send_video_to_admin env message w in
  call.1 = Ok tt ∧
  store_eq w call.2 ∧ fs call.2 = fs w ∧
  (ADMIN_CHAT_ID env = None ∨ ADMIN_CHAT_ID env = Some "" ∨ message_media message = None →
   call.2 = w) ∧
  (∀ admin file_id,
     ADMIN_CHAT_ID env = Some admin → admin ≠ "" →
     message_media message = Some file_id →
     let method := match video message, video_note message with
                   | Some _, _ => "send_video"
                   | None, Some _ => "send_video_note"
                   | None, None => "send_animation"
                   end in
     n_api call.2 = S (n_api w) ∧
     (env_api env (n_api w) = None →
      trace call.2 = EvAdminSend method admin file_id :: trace w) ∧
     (∀ msg, env_api env (n_api w) = Some msg →
        trace call.2 = EvPrint ("Не удалось отправить видео владельцу: " +:+ msg)
                       :: EvAdminSend method admin file_id :: trace w)).
Proof.
  cbn zeta. rewrite send_video_to_admin_eq. cbn [fst snd].
  split; [reflexivity|]. unfold admin_post, message_media, store_eq.
  split; [|split; [|split]].
  - destruct (ADMIN_CHAT_ID env) as [admin|]; [|done].
    case_decide; [done|].
    destruct (video message), (video_note message), (animation message);
      try done; by destruct (env_api env (n_api w)).
  - destruct (ADMIN_CHAT_ID env) as [admin|]; [|done].
    case_decide; [done|].
    destruct (video message), (video_note message), (animation message);
      try done; by destruct (env_api env (n_api w)).
  - intros [->|[->|Hnone]]; [reflexivity|reflexivity|].
    destruct (ADMIN_CHAT_ID env) as [admin|]; [|done].
    case_decide; [done|].
    destruct (video message), (video_note message), (animation message);
      done.
  - intros admin file_id -> Hne Hmedia. rewrite decide_False by exact Hne.
    destruct (video message), (video_note message), (animation message);
      try discriminate Hmedia; injection Hmedia as ->;
      (split; [by destruct (env_api env (n_api w))|]);
      (split; [by intros ->|by intros msg ->]).
Qed.

(** ** Transfer by file id *)

(** X10: [download_file_id_to_temp] draws one uuid and asks the client
    for the file id with the destination [input_<uuid>.mp4] in the scratch
    directory; it changes no dictionary.  When the client succeeds it
    returns that path, and the file is the only new file; when the client
    fails its error is passed on, and the file is there only if the
    client left a part of it.  On a message that carries the file id,
    [download_video_to_temp] is the same call. *)
Theorem X10_download_file_id_to_temp (env : Env) (w : World) (file_id : string)
    (message : Message) :
  let call := download_file_id_to_temp env file_id w in
  let p := video_path_at env w in
  p = gettempdir env +:+ "/input_" +:+ uuid_hex (env_uuid4 env (n_uuid w)) +:+ ".mp4" ∧
  trace call.2 = EvDownload file_id p :: trace w ∧
  n_uuid call.2 = S (n_uuid w) ∧ n_download call.2 = S (n_download w) ∧
  store_eq w call.2 ∧
  (env_download env (n_download w) = Downloaded →
   call.1 = Ok p ∧ fs call.2 = {[p]} ∪ fs w) ∧
  (∀ msg partial_file,
     env_download env (n_download w) = DownloadFailed msg partial_file →
     call.1 = Raise (TelegramError msg) ∧
     fs call.2 = if partial_file then {[p]} ∪ fs w else fs w) ∧
  (message_media message = Some file_id →
   download_video_to_temp env message w = call).
Proof.
  cbn zeta. split; [reflexivity|].
  split; [|split; [|split; [|split; [|split; [|split]]]]].
  - rewrite download_file_id_to_temp_eq. unfold after_download.
    by destruct (env_download env (n_download w)) as [|msg []].
  - rewrite download_file_id_to_temp_eq. unfold after_download.
    by destruct (env_download env (n_download w)) as [|msg []].
  - rewrite download_file_id_to_temp_eq. unfold after_download.
    by destruct (env_download env (n_download w)) as [|msg []].
  - rewrite download_file_id_to_temp_eq. unfold after_download, store_eq.
    by destruct (env_download env (n_download w)) as [|msg []].
  - rewrite download_file_id_to_temp_eq. intros ->. done.
  - rewrite download_file_id_to_temp_eq. intros msg partial_file ->.
    split; [done|]. unfold after_download. by destruct partial_file.
  - intros Hmedia. by apply download_video_is_download_file_id.
Qed.

(** ** What a handler can end with *)

Lemma ok_or_chat_error_api env e w : ok_or_chat_error (api_call env e w).1.
Proof.
  rewrite api_call_eq. cbn [fst].
  destruct (env_api env (n_api w)) as [msg|]; [right; eauto|by left].
Qed.

(** The guarded block ends as its [try] block or its [except] block
    ends: the cleanup adds no error of its own. *)
Lemma guarded_result env (body : M (World * Locals) unit) on_error w :
  (∀ e s, ok_or_chat_error (on_error e s).1) →
  ok_or_chat_error (guarded env body on_error w).1.
Proof.
  intros Herror. unfold guarded, with_locals, try_finally, try_except, is_Exception.
  destruct (body _) as [[[]|e] s1].
  - rewrite cleanup_eq. by left.
  - specialize (Herror e s1). destruct (on_error e s1) as [r s2].
    rewrite cleanup_eq. exact Herror.
Qed.

Lemma guarded_result_ok env (body : M (World * Locals) unit) on_error w :
  (∀ e s, (on_error e s).1 = Ok tt) →
  (guarded env body on_error w).1 = Ok tt.
Proof.
  intros Herror. unfold guarded, with_locals, try_finally, try_except, is_Exception.
  destruct (body _) as [[[]|e] s1].
  - by rewrite cleanup_eq.
  - specialize (Herror e s1). destruct (on_error e s1) as [r s2].
    rewrite cleanup_eq. exact Herror.
Qed.

Lemma hv_on_error_result env message e s :
  (hv_on_error env message e s).1 =
  match env_api env (n_api s.1) with
  | None => Ok tt
  | Some msg => Raise (TelegramError msg)
  end.
Proof.
  unfold hv_on_error, liftW. rewrite api_call_eq. reflexivity.
Qed.

Lemma cb_on_error_result env callback e s :
  (cb_on_error env callback e s).1 =
  match env_api env (n_api s.1) with
  | None => match env_api env (S (n_api s.1)) with
            | None => Ok tt
            | Some msg => Raise (TelegramError msg)
            end
  | Some msg => Raise (TelegramError msg)
  end.
Proof.
  unfold cb_on_error, bind, liftW. rewrite api_call_eq. cbn [fst snd].
  destruct (env_api env (n_api s.1)); [reflexivity|].
  rewrite api_call_eq. reflexivity.
Qed.

(** X11: a handler ends normally or with an error of the Bot API client:
    no [ValueError], [RuntimeError], [TimeoutExpired] or [OSError] of the
    download, the extraction or the cleanup leaves [handle_video] or
    [cb_regenerate].  When every Bot API call goes through, both handlers
    return normally, whatever the download, ffmpeg and unlink do. *)
Theorem X11_only_chat_errors_escape (env : Env) (w : World) (message : Message)
    (callback : CallbackQuery) :
  ok_or_chat_error (handle_video env message w).1 ∧
  ok_or_chat_error (cb_regenerate env callback w).1 ∧
  ((∀ n, env_api env n = None) →
   (handle_video env message w).1 = Ok tt ∧ (cb_regenerate env callback w).1 = Ok tt).
Proof.
  assert (Hhv : ∀ e s, ok_or_chat_error (hv_on_error env message e s).1).
  { intros e s. rewrite hv_on_error_result.
    destruct (env_api env _); [right; eauto|by left]. }
  assert (Hcb : ∀ e s, ok_or_chat_error (cb_on_error env callback e s).1).
  { intros e s. rewrite cb_on_error_result.
    destruct (env_api env _); [right; eauto|].
    destruct (env_api env _); [right; eauto|by left]. }
  split; [|split].
  - destruct (env_api env (n_api w)) as [msg|] eqn:Hapi.
    + rewrite (handle_video_refused env message w msg Hapi). right. eauto.
    + destruct (handle_video_prefix env message w Hapi) as (w3 & -> & _).
      by apply guarded_result.
  - destruct (user_last_file_id w !! cb_from_user_id callback) as [file_id|] eqn:Hf;
      [destruct (decide (file_id = "")) as [->|Hne]|].
    + rewrite cb_regenerate_nothing by auto. apply ok_or_chat_error_api.
    + rewrite (cb_regenerate_unfold env callback w file_id Hf Hne).
      by apply guarded_result.
    + rewrite cb_regenerate_nothing by auto. apply ok_or_chat_error_api.
  - intros Hapi. split.
    + destruct (handle_video_prefix env message w (Hapi _)) as (w3 & -> & _).
      apply guarded_result_ok. intros e s. by rewrite hv_on_error_result, Hapi.
    + destruct (user_last_file_id w !! cb_from_user_id callback) as [file_id|] eqn:Hf;
        [destruct (decide (file_id = "")) as [->|Hne]|].
      * rewrite cb_regenerate_nothing, api_call_eq by auto. by rewrite Hapi.
      * rewrite (cb_regenerate_unfold env callback w file_id Hf Hne).
        apply guarded_result_ok. intros e s. by rewrite cb_on_error_result, !Hapi.
      * rewrite cb_regenerate_nothing, api_call_eq by auto. by rewrite Hapi.
Qed.

(** ** The handlers, path by path *)

(** A download path and a frame path never coincide. *)
Lemma video_path_ne_output_path env w1 w2 fmt :
  video_path_at env w1 ≠ output_path_at env w2 fmt.
Proof.
  unfold video_path_at, output_path_at, path_join, frame_name. intros H.
  apply append_inj_l in H. discriminate H.
Qed.

Lemma handle_video_start env message w :
  env_api env (n_api w) = None →
  handle_video env message w =
  guarded env
    (work env (download_video_to_temp env message)
       (get_user_format w (from_user_id message))
       (get_user_size w (from_user_id message))
       (hv_reply env message (get_user_format w (from_user_id message))
          (get_user_size w (from_user_id message))))
    (hv_on_error env message) (hv_start env message w).
Proof.
  intros Hapi. rewrite handle_video_unfold. unfold hv_start.
  unfold bind at 1. rewrite api_call_eq, Hapi.
  unfold bind at 1, gets at 1. unfold bind at 1, gets at 1. unfold bind at 1.
  destruct (message_media message) as [f|].
  - unfold modify at 1. unfold bind at 1.
    pose proof (send_video_to_admin_spec env message
                  (set_last_file_id <[from_user_id message := f]>
                     (tick_api (log (EvChatAction (chat_id message) "upload_photo") w))))
      as (Hok & _).
    destruct (send_video_to_admin env message _) as [r w3]. cbn [fst snd] in *.
    subst r. reflexivity.
  - unfold ret at 1. unfold bind at 1.
    pose proof (send_video_to_admin_spec env message
                  (tick_api (log (EvChatAction (chat_id message) "upload_photo") w)))
      as (Hok & _).
    destruct (send_video_to_admin env message _) as [r w3]. cbn [fst snd] in *.
    subst r. reflexivity.
Qed.

(** The guarded block when every step succeeds. *)
Lemma guarded_success env (pre : M (World * Locals) unit) download file_id fmt size reply
    (reply_world : string → World → World) on_error w w1 stderr :
  pre (w, {| tmp_video_path := None; frame_path := None |})
    = (Ok tt, (w1, {| tmp_video_path := None; frame_path := None |})) →
  download w1 = download_file_id_to_temp env file_id w1 →
  env_download env (n_download w1) = Downloaded →
  env_run env (n_run w1) = Exited 0 stderr true →
  unlink_succeeds env →
  (∀ f s, reply f s = (Ok tt, (reply_world f s.1, s.2))) →
  (∀ f w, fs (reply_world f w) = fs w) →
  let video := video_path_at env w1 in
  let frame := frame_path_at env w1 fmt in
  guarded env (pre;;; work env download fmt size reply) on_error w =
  (Ok tt,
   after_unlinks video frame
     (reply_world frame
        (after_run env (after_download env w1 file_id true) video (Some fmt) (Some size)
           None true))).
Proof.
  intros Hpre Hdownload Hdl Hrun Hu Hreply Hfs. cbn zeta.
  unfold guarded, with_locals, try_finally, try_except, bind, work.
  rewrite Hpre. unfold bind, liftW. cbn [fst snd].
  rewrite Hdownload, download_file_id_to_temp_eq, Hdl.
  unfold assign_tmp_video_path, assign_frame_path, modify. cbn [fst snd].
  rewrite extract_last_frame_eq.
  replace (n_run (after_download env w1 file_id true)) with (n_run w1) by reflexivity.
  rewrite Hrun. cbn zeta.
  set (video := video_path_at env w1).
  set (w3 := after_run _ _ _ _ _ _ _).
  assert (Hframe : output_path_at env (after_download env w1 file_id true) (Some fmt)
                   = frame_path_at env w1 fmt) by reflexivity.
  rewrite Hframe. set (frame := frame_path_at env w1 fmt).
  assert (Hfs3 : fs w3 = {[frame]} ∪ ({[video]} ∪ fs w1)) by reflexivity.
  rewrite bool_decide_eq_true_2 by (rewrite Hfs3; set_solver).
  cbn [negb orb Z.eqb fst snd tmp_video_path frame_path].
  rewrite Hreply. cbn [fst snd].
  rewrite cleanup_eq. cbn [fst snd tmp_video_path frame_path].
  f_equal. unfold after_cleanup_path at 2.
  rewrite bool_decide_eq_true_2 by (rewrite Hfs, Hfs3; set_solver).
  rewrite Hu. unfold after_cleanup_path.
  rewrite bool_decide_eq_true_2; [by rewrite Hu|].
  cbn [fs set_fs tick_unlink log]. rewrite Hfs, Hfs3.
  assert (frame ≠ video) by (intros H; by apply (video_path_ne_output_path env w1 (tick_uuid w1) (Some fmt))).
  set_solver.
Qed.

Lemma build_settings_keyboard_store (w w' : World) (user_id : Z) :
  user_format_prefs w' = user_format_prefs w → user_size_prefs w' = user_size_prefs w →
  build_settings_keyboard w' user_id = build_settings_keyboard w user_id.
Proof.
  intros Hf Hs. unfold build_settings_keyboard, get_user_format, get_user_size.
  by rewrite Hf, Hs.
Qed.

Lemma video_path_at_uuid env (w w' : World) :
  n_uuid w' = n_uuid w → video_path_at env w' = video_path_at env w.
Proof. unfold video_path_at. by intros ->. Qed.

Lemma frame_path_at_uuid env (w w' : World) fmt :
  n_uuid w' = n_uuid w → frame_path_at env w' fmt = frame_path_at env w fmt.
Proof. unfold frame_path_at, output_path_at. cbn. by intros ->. Qed.

(** Where the guarded block of [handle_video] starts. *)
Lemma hv_start_spec env message w :
  let w3 := hv_start env message w in
  same_view w w3 ∧
  user_format_prefs w3 = user_format_prefs w ∧
  user_size_prefs w3 = user_size_prefs w ∧
  user_last_file_id w3 =
    match message_media message with
    | Some f => <[from_user_id message := f]> (user_last_file_id w)
    | None => user_last_file_id w
    end ∧
  (env_api env (S (n_api w)) = None →
   trace w3 = admin_post env message
              ++ EvChatAction (chat_id message) "upload_photo" :: trace w).
Proof.
  cbn zeta. unfold hv_start. rewrite send_video_to_admin_eq. cbn [snd].
  unfold same_view, pipeline.
  destruct (message_media message) as [f|]; cbn zeta;
    (destruct (admin_post env message) as [|post rest] eqn:Hpost;
     [done|]);
    (assert (rest = []) as ->
       by (unfold admin_post in Hpost;
           destruct (ADMIN_CHAT_ID env); [|done]; case_decide; [done|];
           destruct (video message), (video_note message), (animation message);
           congruence));
    (assert (pipeline_event post = None)
       by (unfold admin_post in Hpost;
           destruct (ADMIN_CHAT_ID env); [|done]; case_decide; [done|];
           destruct (video message), (video_note message), (animation message);
           try discriminate Hpost; by injection Hpost as <-));
    cbn [n_api tick_api log set_last_file_id];
    destruct (env_api env (S (n_api w))) as [msg|]; cbn;
    rewrite ?H; done.
Qed.

Lemma hv_reply_eq env message fmt size f s :
  hv_reply env message fmt size f s =
  (match env_api env (n_api s.1) with
   | None => Ok tt
   | Some msg => Raise (TelegramError msg)
   end,
   (tick_api (log (EvSendPhoto (chat_id message) f
                     ("Последний кадр из твоего видео." +:+ nl +:+ nl
                      +:+ "Формат: " +:+ upper fmt +:+ nl
                      +:+ "Размер: " +:+ describe_size size)
                     (build_settings_keyboard s.1 (from_user_id message))) s.1), s.2)).
Proof.
  unfold hv_reply, bind, liftW, gets. cbn [fst snd]. rewrite api_call_eq. reflexivity.
Qed.

(** X12: [handle_video] when everything works.  For a message with media,
    a chat that accepts every call, a download that succeeds, an ffmpeg
    run that exits with 0 and writes its output, and deletions that
    succeed, the handler returns normally and has made these calls, in
    this order: the chat action, the copy for the owner (if configured),
    the download to the video path, one ffmpeg run from the video path to
    the frame path with the user's size mode, one photo reply with the
    frame, the caption of the user's format and size and the settings
    keyboard, the deletion of the video and the deletion of the frame.
    Afterwards neither file exists and no other file has changed, and the
    file id is the user's last reference. *)
Theorem X12_handle_video_success (env : Env) (w : World) (message : Message)
    (file_id : string) (stderr : list nat) :
  message_media message = Some file_id →
  (∀ n, env_api env n = None) →
  env_download env (n_download w) = Downloaded →
  env_run env (n_run w) = Exited 0 stderr true →
  unlink_succeeds env →
  let call := handle_video env message w in
  let user_id := from_user_id message in
  let fmt := get_user_format w user_id in
  let size := get_user_size w user_id in
  let video := video_path_at env w in
  let frame := frame_path_at env w fmt in
  let caption := "Последний кадр из твоего видео." +:+ nl +:+ nl
                 +:+ "Формат: " +:+ upper fmt +:+ nl
                 +:+ "Размер: " +:+ describe_size size in
  call.1 = Ok tt ∧
  trace call.2 =
    [EvUnlink frame; EvUnlink video;
     EvSendPhoto (chat_id message) frame caption (build_settings_keyboard w user_id);
     EvRun (ffmpeg_cmd video size frame) 60;
     EvDownload file_id video]
    ++ admin_post env message
    ++ EvChatAction (chat_id message) "upload_photo" :: trace w ∧
  fs call.2 = fs w ∖ {[video; frame]} ∧
  user_last_file_id call.2 = <[user_id := file_id]> (user_last_file_id w) ∧
  user_format_prefs call.2 = user_format_prefs w ∧
  user_size_prefs call.2 = user_size_prefs w.
Proof.
  intros Hmedia Hapi Hdl Hrun Hu. cbn zeta.
  rewrite handle_video_start by apply Hapi.
  pose proof (hv_start_spec env message w) as Hstart. cbn zeta in Hstart.
  destruct Hstart as ((Hfs & _ & Huuid & Hnd & Hnr & _) & Hfmt & Hsize & Hlast & Htrace).
  specialize (Htrace (Hapi _)). rewrite Hmedia in Hlast.
  set (w1 := hv_start env message w) in *.
  set (fmt := get_user_format w (from_user_id message)).
  set (size := get_user_size w (from_user_id message)).
  change (guarded env (work env (download_video_to_temp env message) fmt size
                         (hv_reply env message fmt size)) (hv_on_error env message) w1)
    with (guarded env (ret tt;;; work env (download_video_to_temp env message) fmt size
                         (hv_reply env message fmt size)) (hv_on_error env message) w1).
  rewrite (guarded_success env (ret tt) (download_video_to_temp env message) file_id fmt size
             (hv_reply env message fmt size)
             (λ f w', tick_api (log (EvSendPhoto (chat_id message) f
                     ("Последний кадр из твоего видео." +:+ nl +:+ nl
                      +:+ "Формат: " +:+ upper fmt +:+ nl
                      +:+ "Размер: " +:+ describe_size size)
                     (build_settings_keyboard w' (from_user_id message))) w'))
             (hv_on_error env message) w1 w1 stderr); cycle 1.
  { reflexivity. }
  { by apply download_video_is_download_file_id. }
  { by rewrite Hnd. }
  { by rewrite Hnr. }
  { exact Hu. }
  { intros f s. by rewrite hv_reply_eq, Hapi. }
  { reflexivity. }
  rewrite (video_path_at_uuid env w w1 Huuid), (frame_path_at_uuid env w w1 fmt Huuid).
  cbn [fst snd]. split; [reflexivity|].
  unfold after_unlinks, after_run, after_download.
  cbn [trace fs set_fs tick_unlink tick_run tick_download tick_api tick_uuid log
       user_last_file_id user_format_prefs user_size_prefs].
  split.
  { rewrite Htrace, !(video_path_at_uuid env w w1 Huuid).
    rewrite (build_settings_keyboard_store w _ (from_user_id message)) by done.
    unfold cmd_at, frame_path_at, output_path_at.
    cbn [n_uuid tick_uuid tick_download log set_fs default]. by rewrite Huuid. }
  split.
  { rewrite Hfs. unfold frame_path_at, output_path_at.
    cbn [n_uuid tick_uuid tick_download log set_fs default].
    rewrite Huuid, !(video_path_at_uuid env w w1 Huuid).
    match goal with |- context [path_join ?a ?b] => generalize (path_join a b) end.
    generalize (video_path_at env w) (fs w). clear. intros video files frame.
    set_solver. }
  done.
Qed.

(** X12 at a sample input: a first video, with collaborators that work. *)
Lemma X12_handle_video_success_witness :
  (handle_video env_ok (message_with_video 7 "FILE-1") (initial_world ∅)).1 = Ok tt ∧
  fs (handle_video env_ok (message_with_video 7 "FILE-1") (initial_world ∅)).2 = ∅ ∧
  length (trace (handle_video env_ok (message_with_video 7 "FILE-1") (initial_world ∅)).2)
    = 6.
Proof.
  destruct (X12_handle_video_success env_ok (initial_world ∅)
              (message_with_video 7 "FILE-1") "FILE-1" [] eq_refl (λ _, eq_refl)
              eq_refl eq_refl (λ _, eq_refl)) as (Hok & Htrace & Hfs & _).
  split; [exact Hok|]. split.
  - rewrite Hfs. cbn [fs initial_world]. set_solver.
  - rewrite Htrace. reflexivity.
Defined.

(** The guarded block when the download raises: nothing is held, so
    nothing is deleted. *)
Lemma guarded_download_raises env (pre : M (World * Locals) unit) download fmt size reply
    on_error (error_world : exn → World → World) w w1 e w2 :
  pre (w, {| tmp_video_path := None; frame_path := None |})
    = (Ok tt, (w1, {| tmp_video_path := None; frame_path := None |})) →
  download w1 = (Raise e, w2) →
  (∀ e s, on_error e s = (Ok tt, (error_world e s.1, s.2))) →
  guarded env (pre;;; work env download fmt size reply) on_error w
  = (Ok tt, error_world e w2).
Proof.
  intros Hpre Hdownload Herror.
  unfold guarded, with_locals, try_finally, try_except, bind, work.
  rewrite Hpre. unfold bind, liftW. cbn [fst snd].
  rewrite Hdownload. cbn [is_Exception]. rewrite Herror.
  rewrite cleanup_eq. reflexivity.
Qed.

(** The guarded block when the extraction raises: the video is held and
    deleted, the frame path is not. *)
Lemma guarded_extract_raises env (pre : M (World * Locals) unit) download file_id fmt size
    reply on_error (error_world : exn → World → World) w w1 e w3 :
  pre (w, {| tmp_video_path := None; frame_path := None |})
    = (Ok tt, (w1, {| tmp_video_path := None; frame_path := None |})) →
  download w1 = download_file_id_to_temp env file_id w1 →
  env_download env (n_download w1) = Downloaded →
  extract_last_frame env (video_path_at env w1) (Some fmt) (Some size) None
    (after_download env w1 file_id true) = (Raise e, w3) →
  video_path_at env w1 ∈ fs w3 →
  env_unlink env (n_unlink w3) = None →
  (∀ e s, on_error e s = (Ok tt, (error_world e s.1, s.2))) →
  (∀ e w, fs (error_world e w) = fs w ∧ n_unlink (error_world e w) = n_unlink w) →
  guarded env (pre;;; work env download fmt size reply) on_error w
  = (Ok tt,
     set_fs (λ s, s ∖ {[video_path_at env w1]})
       (tick_unlink (log (EvUnlink (video_path_at env w1)) (error_world e w3)))).
Proof.
  intros Hpre Hdownload Hdl Hextract Hin Hu Herror Hworld.
  unfold guarded, with_locals, try_finally, try_except, bind, work.
  rewrite Hpre. unfold bind, liftW. cbn [fst snd].
  rewrite Hdownload, download_file_id_to_temp_eq, Hdl.
  unfold assign_tmp_video_path, modify. cbn [fst snd].
  rewrite Hextract. cbn [is_Exception]. rewrite Herror. cbn [fst snd].
  rewrite cleanup_eq. cbn [fst snd tmp_video_path frame_path].
  destruct (Hworld e w3) as (Hfs & Hn).
  unfold after_cleanup_path.
  rewrite bool_decide_eq_true_2 by (by rewrite Hfs).
  by rewrite Hn, Hu.
Qed.

Lemma hv_on_error_eq env message e s :
  hv_on_error env message e s =
  (match env_api env (n_api s.1) with
   | None => Ok tt
   | Some msg => Raise (TelegramError msg)
   end,
   (tick_api (log (EvSendMessage (chat_id message)
                     ("Не получилось обработать видео 😔" +:+ nl
                      +:+ "Ошибка: " +:+ str_exn e)) s.1), s.2)).
Proof. unfold hv_on_error, liftW. rewrite api_call_eq. reflexivity. Qed.

(** X13: [handle_video] when a step fails and the chat works: the handler
    returns normally and the user is told the error.  Without media
    nothing is downloaded, no reference is recorded, and the message
    carries the text of the [ValueError].  When the download fails the
    message carries the client's error, ffmpeg is not run and nothing is
    deleted (a partial file stays).  When ffmpeg times out or exits with
    a nonzero code, the message carries the timeout text or the exit code
    and the decoded stderr, and the video is deleted (a frame file that
    ffmpeg wrote stays). *)
Theorem X13_handle_video_failures (env : Env) (w : World) (message : Message) :
  (∀ n, env_api env n = None) →
  let call := handle_video env message w in
  let user_id := from_user_id message in
  let fmt := get_user_format w user_id in
  let size := get_user_size w user_id in
  let video := video_path_at env w in
  let frame := frame_path_at env w fmt in
  let told (error : string) :=
    EvSendMessage (chat_id message)
      ("Не получилось обработать видео 😔" +:+ nl +:+ "Ошибка: " +:+ error) in
  let before := admin_post env message
                ++ EvChatAction (chat_id message) "upload_photo" :: trace w in
  let run := EvRun (ffmpeg_cmd video size frame) 60 in
  (message_media message = None →
   call.1 = Ok tt ∧
   trace call.2 = told "В сообщении нет поддерживаемого видео" :: before ∧
   fs call.2 = fs w ∧ user_last_file_id call.2 = user_last_file_id w) ∧
  (∀ file_id msg partial_file,
     message_media message = Some file_id →
     env_download env (n_download w) = DownloadFailed msg partial_file →
     call.1 = Ok tt ∧
     trace call.2 = told msg :: EvDownload file_id video :: before ∧
     fs call.2 = if partial_file then {[video]} ∪ fs w else fs w) ∧
  (∀ file_id, message_media message = Some file_id →
     env_download env (n_download w) = Downloaded →
     env_unlink env (n_unlink w) = None →
     (∀ wrote, env_run env (n_run w) = TimedOut wrote →
        call.1 = Ok tt ∧
        trace call.2 =
          EvUnlink video
          :: told ("ffmpeg timeout: Command '" +:+ repr_list (ffmpeg_cmd video size frame)
                   +:+ "' timed out after 60 seconds")
          :: run :: EvDownload file_id video :: before ∧
        fs call.2 = (if wrote then {[frame]} ∪ fs w else fs w) ∖ {[video]}) ∧
     (∀ returncode stderr wrote,
        env_run env (n_run w) = Exited returncode stderr wrote → returncode ≠ 0%Z →
        call.1 = Ok tt ∧
        trace call.2 =
          EvUnlink video
          :: told ("Ошибка ffmpeg (код " +:+ str_int returncode +:+ "): "
                   +:+ decode Ignore stderr)
          :: run :: EvDownload file_id video :: before ∧
        fs call.2 = (if wrote then {[frame]} ∪ fs w else fs w) ∖ {[video]})).
Proof.
  intros Hapi. cbn zeta.
  rewrite handle_video_start by apply Hapi.
  pose proof (hv_start_spec env message w) as Hstart. cbn zeta in Hstart.
  destruct Hstart as ((Hfs & _ & Huuid & Hnd & Hnr & Hnu) & Hfmt & Hsize & Hlast & Htrace).
  specialize (Htrace (Hapi _)).
  set (w1 := hv_start env message w) in *.
  set (fmt := get_user_format w (from_user_id message)).
  set (size := get_user_size w (from_user_id message)).
  change (guarded env (work env (download_video_to_temp env message) fmt size
                         (hv_reply env message fmt size)) (hv_on_error env message) w1)
    with (guarded env (ret tt;;; work env (download_video_to_temp env message) fmt size
                         (hv_reply env message fmt size)) (hv_on_error env message) w1).
  set (error_world := λ (e : exn) (w' : World),
         tick_api (log (EvSendMessage (chat_id message)
                          ("Не получилось обработать видео 😔" +:+ nl
                           +:+ "Ошибка: " +:+ str_exn e)) w')).
  assert (Herror : ∀ e s, hv_on_error env message e s = (Ok tt, (error_world e s.1, s.2))).
  { intros e s. by rewrite hv_on_error_eq, Hapi. }
  rewrite <- (video_path_at_uuid env w w1 Huuid), <- (frame_path_at_uuid env w w1 fmt Huuid).
  split; [|split].
  - intros Hmedia. rewrite Hmedia in Hlast.
    rewrite (guarded_download_raises env (ret tt) _ fmt size _ _ error_world w1 w1
               (ValueError "В сообщении нет поддерживаемого видео") (tick_uuid w1));
      [|reflexivity|by rewrite download_video_to_temp_eq, Hmedia|exact Herror].
    cbn [fst snd]. unfold error_world.
    cbn [trace fs tick_api tick_uuid log user_last_file_id str_exn].
    by rewrite Htrace.
  - intros file_id msg partial_file Hmedia Hdl.
    rewrite (guarded_download_raises env (ret tt) _ fmt size _ _ error_world w1 w1
               (TelegramError msg) (after_download env w1 file_id partial_file));
      [|reflexivity| |exact Herror].
    + cbn [fst snd]. unfold error_world, after_download.
      split; [reflexivity|]. rewrite <- Hfs, <- Htrace.
      by destruct partial_file.
    + rewrite (download_video_is_download_file_id env message file_id w1 Hmedia).
      by rewrite download_file_id_to_temp_eq, Hnd, Hdl.
  - intros file_id Hmedia Hdl Hu.
    assert (Hframe : output_path_at env (after_download env w1 file_id true) (Some fmt)
                     = frame_path_at env w1 fmt) by reflexivity.
    assert (Hcmd : cmd_at env (after_download env w1 file_id true) (video_path_at env w1)
                     (Some fmt) (Some size)
                   = ffmpeg_cmd (video_path_at env w1) size (frame_path_at env w1 fmt))
      by reflexivity.
    assert (Hraised : ∀ e wrote,
      extract_last_frame env (video_path_at env w1) (Some fmt) (Some size) None
        (after_download env w1 file_id true)
      = (Raise e, after_run env (after_download env w1 file_id true) (video_path_at env w1)
                    (Some fmt) (Some size) None wrote) →
      (guarded env (ret tt;;; work env (download_video_to_temp env message) fmt size
                      (hv_reply env message fmt size)) (hv_on_error env message) w1).1
        = Ok tt ∧
      trace (guarded env (ret tt;;; work env (download_video_to_temp env message) fmt size
                      (hv_reply env message fmt size)) (hv_on_error env message) w1).2 =
        EvUnlink (video_path_at env w1)
        :: EvSendMessage (chat_id message)
             ("Не получилось обработать видео 😔" +:+ nl +:+ "Ошибка: " +:+ str_exn e)
        :: EvRun (ffmpeg_cmd (video_path_at env w1) size (frame_path_at env w1 fmt)) 60
        :: EvDownload file_id (video_path_at env w1)
        :: admin_post env message
           ++ EvChatAction (chat_id message) "upload_photo" :: trace w ∧
      fs (guarded env (ret tt;;; work env (download_video_to_temp env message) fmt size
                      (hv_reply env message fmt size)) (hv_on_error env message) w1).2 =
        (if wrote then {[frame_path_at env w1 fmt]} ∪ fs w else fs w)
        ∖ {[video_path_at env w1]}).
    { intros e wrote Hextract.
      rewrite (guarded_extract_raises env (ret tt) _ file_id fmt size _ _ error_world
                 w1 w1 e _ eq_refl
                 (download_video_is_download_file_id env message file_id w1 Hmedia)
                 ltac:(by rewrite Hnd) Hextract);
        [| |by destruct wrote; cbn; rewrite Hnu|exact Herror|done].
      - cbn [fst snd]. split; [reflexivity|].
        unfold error_world. cbn [trace fs set_fs tick_unlink tick_api log].
        rewrite trace_after_run, Hcmd. split.
        + unfold after_download. cbn [trace set_fs tick_download log tick_uuid].
          by rewrite Htrace.
        + assert (frame_path_at env w1 fmt ≠ video_path_at env w1)
            by (intros H; by apply (video_path_ne_output_path env w1 (tick_uuid w1)
                                      (Some fmt))).
          unfold after_run. rewrite Hframe.
          destruct wrote; cbn [fs set_fs tick_run log after_download tick_download
                                 tick_uuid]; rewrite Hfs;
            generalize dependent (frame_path_at env w1 fmt);
            generalize (video_path_at env w1) (fs w); clear;
            intros video files frame; set_solver.
      - unfold after_run, after_download.
        destruct wrote; cbn [fs set_fs tick_run log tick_download tick_uuid]; set_solver. }
    split.
    + intros wrote Hrun.
      pose proof (extract_last_frame_eq env (video_path_at env w1) (Some fmt) (Some size)
                    None (after_download env w1 file_id true)) as Hx.
      replace (n_run (after_download env w1 file_id true)) with (n_run w1) in Hx
        by reflexivity.
      rewrite Hnr, Hrun in Hx. cbn zeta in Hx. rewrite Hcmd in Hx.
      exact (Hraised _ wrote Hx).
    + intros returncode stderr wrote Hrun Hrc.
      pose proof (extract_last_frame_eq env (video_path_at env w1) (Some fmt) (Some size)
                    None (after_download env w1 file_id true)) as Hx.
      replace (n_run (after_download env w1 file_id true)) with (n_run w1) in Hx
        by reflexivity.
      rewrite Hnr, Hrun in Hx. cbn zeta in Hx.
      replace (returncode =? 0)%Z with false in Hx by (symmetry; by apply Z.eqb_neq).
      cbn [negb orb] in Hx.
      exact (Hraised _ wrote Hx).
Qed.

(** X13 at a sample input: the client refuses the file. *)
Lemma X13_handle_video_failures_witness :
  trace (handle_video env_download_fails (message_with_video 7 "FILE-1")
           (initial_world ∅)).2 !! 0
  = Some (EvSendMessage 7 ("Не получилось обработать видео 😔" +:+ nl
                           +:+ "Ошибка: Bad Request: file is too big")).
Proof.
  pose proof (X13_handle_video_failures env_download_fails (initial_world ∅)
                (message_with_video 7 "FILE-1") (λ _, eq_refl)) as (_ & H & _).
  destruct (H "FILE-1" "Bad Request: file is too big" false eq_refl eq_refl)
    as (_ & Htrace & _).
  rewrite Htrace. reflexivity.
Defined.

Lemma cb_reply_eq env callback fmt size f s :
  env_api env (n_api s.1) = None →
  cb_reply env callback fmt size f s =
  (match env_api env (S (n_api s.1)) with
   | None => Ok tt
   | Some msg => Raise (TelegramError msg)
   end,
   (tick_api (log (EvAnswerCallback "Готово! Перегенерировал с текущими настройками ✅" false)
      (tick_api (log (EvSendPhoto (cb_chat_id callback) f
                        ("Перегенерированный последний кадр." +:+ nl +:+ nl
                         +:+ "Формат: " +:+ upper fmt +:+ nl
                         +:+ "Размер: " +:+ describe_size size)
                        (build_settings_keyboard s.1 (cb_from_user_id callback))) s.1))),
    s.2)).
Proof.
  intros Hapi. unfold cb_reply, bind, liftW, gets. cbn [fst snd].
  rewrite api_call_eq, Hapi. cbn [fst snd]. rewrite api_call_eq. reflexivity.
Qed.

Lemma cb_on_error_eq env callback e s :
  env_api env (n_api s.1) = None →
  cb_on_error env callback e s =
  (match env_api env (S (n_api s.1)) with
   | None => Ok tt
   | Some msg => Raise (TelegramError msg)
   end,
   (tick_api (log (EvSendMessage (cb_chat_id callback)
                     ("Ошибка при перегенерации: " +:+ str_exn e))
      (tick_api (log (EvAnswerCallback "Не получилось перегенерировать 😔" true) s.1))),
    s.2)).
Proof.
  intros Hapi. unfold cb_on_error, bind, liftW. cbn [fst snd].
  rewrite api_call_eq, Hapi. cbn [fst snd]. rewrite api_call_eq. reflexivity.
Qed.

(** [cb_regenerate] when every step succeeds: the world it leaves. *)
Lemma cb_regenerate_success env w callback file_id stderr :
  user_last_file_id w !! cb_from_user_id callback = Some file_id →
  file_id ≠ "" →
  (∀ n, env_api env n = None) →
  env_download env (n_download w) = Downloaded →
  env_run env (n_run w) = Exited 0 stderr true →
  unlink_succeeds env →
  let user_id := cb_from_user_id callback in
  let fmt := get_user_format w user_id in
  let size := get_user_size w user_id in
  let video := video_path_at env w in
  let frame := frame_path_at env w fmt in
  let caption := "Перегенерированный последний кадр." +:+ nl +:+ nl
                 +:+ "Формат: " +:+ upper fmt +:+ nl
                 +:+ "Размер: " +:+ describe_size size in
  let w1 := tick_api (log (EvChatAction (cb_chat_id callback) "upload_photo") w) in
  cb_regenerate env callback w =
  (Ok tt,
   after_unlinks video frame
     (tick_api (log (EvAnswerCallback
                       "Готово! Перегенерировал с текущими настройками ✅" false)
        (tick_api (log (EvSendPhoto (cb_chat_id callback) frame caption
                          (build_settings_keyboard w user_id))
           (after_run env (after_download env w1 file_id true) video (Some fmt)
              (Some size) None true)))))).
Proof.
  intros Hf Hne Hapi Hdl Hrun Hu. cbn zeta.
  rewrite (cb_regenerate_unfold env callback w file_id Hf Hne).
  set (fmt := get_user_format w (cb_from_user_id callback)).
  set (size := get_user_size w (cb_from_user_id callback)).
  set (w1 := tick_api (log (EvChatAction (cb_chat_id callback) "upload_photo") w)).
  rewrite (guarded_success env _ (download_file_id_to_temp env file_id) file_id fmt size
             (cb_reply env callback fmt size)
             (λ f w', tick_api (log (EvAnswerCallback
                                       "Готово! Перегенерировал с текущими настройками ✅" false)
                (tick_api (log (EvSendPhoto (cb_chat_id callback) f
                        ("Перегенерированный последний кадр." +:+ nl +:+ nl
                         +:+ "Формат: " +:+ upper fmt +:+ nl
                         +:+ "Размер: " +:+ describe_size size)
                        (build_settings_keyboard w' (cb_from_user_id callback))) w'))))
             (cb_on_error env callback) w w1 stderr); cycle 1.
  { unfold liftW. cbn [fst snd]. by rewrite api_call_eq, Hapi. }
  { reflexivity. }
  { exact Hdl. }
  { exact Hrun. }
  { exact Hu. }
  { intros f s. by rewrite cb_reply_eq, Hapi by apply Hapi. }
  { reflexivity. }
  reflexivity.
Qed.

(** X14: [cb_regenerate] when everything works.  With a stored file id
    that is not empty, a chat that accepts every call, a download that
    succeeds, an ffmpeg run that exits with 0 and writes its output, and
    deletions that succeed, the handler returns normally and has made
    these calls, in this order: the chat action, the download of the
    stored file id to the video path, one ffmpeg run from the video path
    to the frame path with the user's size mode, one photo reply with the
    frame, the caption of the user's format and size and the settings
    keyboard, the answer to the button press, the deletion of the video
    and the deletion of the frame.  Afterwards neither file exists, no
    other file has changed, and the dictionaries are as before. *)
Theorem X14_cb_regenerate_success (env : Env) (w : World) (callback : CallbackQuery)
    (file_id : string) (stderr : list nat) :
  user_last_file_id w !! cb_from_user_id callback = Some file_id →
  file_id ≠ "" →
  (∀ n, env_api env n = None) →
  env_download env (n_download w) = Downloaded →
  env_run env (n_run w) = Exited 0 stderr true →
  unlink_succeeds env →
  let call := cb_regenerate env callback w in
  let user_id := cb_from_user_id callback in
  let fmt := get_user_format w user_id in
  let size := get_user_size w user_id in
  let video := video_path_at env w in
  let frame := frame_path_at env w fmt in
  let caption := "Перегенерированный последний кадр." +:+ nl +:+ nl
                 +:+ "Формат: " +:+ upper fmt +:+ nl
                 +:+ "Размер: " +:+ describe_size size in
  call.1 = Ok tt ∧
  trace call.2 =
    [EvUnlink frame; EvUnlink video;
     EvAnswerCallback "Готово! Перегенерировал с текущими настройками ✅" false;
     EvSendPhoto (cb_chat_id callback) frame caption (build_settings_keyboard w user_id);
     EvRun (ffmpeg_cmd video size frame) 60;
     EvDownload file_id video;
     EvChatAction (cb_chat_id callback) "upload_photo"] ++ trace w ∧
  fs call.2 = fs w ∖ {[video; frame]} ∧
  store_eq w call.2.
Proof.
  intros Hf Hne Hapi Hdl Hrun Hu. cbn zeta.
  rewrite (cb_regenerate_success env w callback file_id stderr Hf Hne Hapi Hdl Hrun Hu).
  cbn [fst snd]. split; [reflexivity|].
  split; [reflexivity|]. split; [|done].
  set (video := video_path_at env w).
  set (frame := frame_path_at env w (get_user_format w (cb_from_user_id callback))).
  change (({[frame]} ∪ ({[video]} ∪ fs w)) ∖ {[video]} ∖ {[frame]}
          = fs w ∖ {[video; frame]}).
  clearbody video frame. set_solver.
Qed.

(** X14 at a sample input: regenerating the stored video. *)
Lemma X14_cb_regenerate_success_witness :
  (cb_regenerate env_ok (regen_pressed 7) (world_with_last 7 "FILE-1")).1 = Ok tt ∧
  length (trace (cb_regenerate env_ok (regen_pressed 7) (world_with_last 7 "FILE-1")).2)
    = 7.
Proof.
  destruct (X14_cb_regenerate_success env_ok (world_with_last 7 "FILE-1") (regen_pressed 7)
              "FILE-1" [] eq_refl ltac:(discriminate) (λ _, eq_refl)
              eq_refl eq_refl (λ _, eq_refl)) as (Hok & Htrace & _).
  split; [exact Hok|]. rewrite Htrace. reflexivity.
Defined.

(** The guarded block when its first step raises. *)
Lemma guarded_pre_raises env (pre body : M (World * Locals) unit) on_error w e w1 r w2 :
  pre (w, {| tmp_video_path := None; frame_path := None |})
    = (Raise e, (w1, {| tmp_video_path := None; frame_path := None |})) →
  on_error e (w1, {| tmp_video_path := None; frame_path := None |})
    = (r, (w2, {| tmp_video_path := None; frame_path := None |})) →
  guarded env (pre;;; body) on_error w = (r, w2).
Proof.
  intros Hpre Herror.
  unfold guarded, with_locals, try_finally, try_except, bind.
  rewrite Hpre. cbn [is_Exception]. rewrite Herror, cleanup_eq.
  by destruct r.
Qed.

(** X15: [cb_regenerate] when a step fails.  The chat action is inside the
    [try] block: when it is refused, the press is answered with the alert
    and the error is sent as a message, nothing is downloaded and the
    handler returns normally, whereas [handle_video] passes the same
    refusal on.  When the download fails, the alert and the client's
    error are sent, and the handler returns normally.  When the alert
    itself is refused, its error leaves the handler and the message with
    the first error is never sent. *)
Theorem X15_cb_regenerate_failures (env : Env) (w : World) (callback : CallbackQuery)
    (file_id : string) (message : Message) :
  user_last_file_id w !! cb_from_user_id callback = Some file_id →
  file_id ≠ "" →
  let call := cb_regenerate env callback w in
  let video := video_path_at env w in
  let action := EvChatAction (cb_chat_id callback) "upload_photo" in
  let alert := EvAnswerCallback "Не получилось перегенерировать 😔" true in
  let told (error : string) :=
    EvSendMessage (cb_chat_id callback) ("Ошибка при перегенерации: " +:+ error) in
  (∀ msg, env_api env (n_api w) = Some msg →
     env_api env (S (n_api w)) = None → env_api env (S (S (n_api w))) = None →
     call.1 = Ok tt ∧
     trace call.2 = told msg :: alert :: action :: trace w ∧
     fs call.2 = fs w ∧ n_download call.2 = n_download w ∧
     (handle_video env message w).1 = Raise (TelegramError msg)) ∧
  (∀ msg partial_file,
     (∀ n, env_api env n = None) →
     env_download env (n_download w) = DownloadFailed msg partial_file →
     call.1 = Ok tt ∧
     trace call.2 = told msg :: alert :: EvDownload file_id video :: action :: trace w ∧
     fs call.2 = if partial_file then {[video]} ∪ fs w else fs w) ∧
  (∀ msg refused,
     env_api env (n_api w) = Some msg → env_api env (S (n_api w)) = Some refused →
     call.1 = Raise (TelegramError refused) ∧
     trace call.2 = alert :: action :: trace w).
Proof.
  intros Hf Hne. cbn zeta.
  rewrite (cb_regenerate_unfold env callback w file_id Hf Hne).
  set (fmt := get_user_format w (cb_from_user_id callback)).
  set (size := get_user_size w (cb_from_user_id callback)).
  set (w1 := tick_api (log (EvChatAction (cb_chat_id callback) "upload_photo") w)).
  split; [|split].
  - intros msg Hapi0 Hapi1 Hapi2.
    rewrite (guarded_pre_raises env _ _ _ w (TelegramError msg) w1 (Ok tt)
               (tick_api (log (EvSendMessage (cb_chat_id callback)
                                 ("Ошибка при перегенерации: " +:+ msg))
                  (tick_api (log (EvAnswerCallback "Не получилось перегенерировать 😔" true)
                               w1))))).
    + cbn [fst snd]. split; [reflexivity|]. split; [reflexivity|].
      split; [reflexivity|]. split; [reflexivity|].
      by rewrite (handle_video_refused env message w msg Hapi0).
    + unfold liftW. cbn [fst snd]. by rewrite api_call_eq, Hapi0.
    + rewrite cb_on_error_eq by exact Hapi1. cbn [fst snd n_api w1 tick_api log].
      by rewrite Hapi2.
  - intros msg partial_file Hapi Hdl.
    rewrite (guarded_download_raises env _ _ fmt size _ _
               (λ e w', tick_api (log (EvSendMessage (cb_chat_id callback)
                                         ("Ошибка при перегенерации: " +:+ str_exn e))
                  (tick_api (log (EvAnswerCallback "Не получилось перегенерировать 😔" true)
                               w'))))
               w w1 (TelegramError msg) (after_download env w1 file_id partial_file)).
    + cbn [fst snd]. split; [reflexivity|]. unfold after_download.
      change (video_path_at env w1) with (video_path_at env w).
      by destruct partial_file.
    + unfold liftW. cbn [fst snd]. by rewrite api_call_eq, Hapi.
    + rewrite download_file_id_to_temp_eq.
      change (n_download w1) with (n_download w). by rewrite Hdl.
    + intros e s. by rewrite cb_on_error_eq, Hapi by apply Hapi.
  - intros msg refused Hapi0 Hapi1.
    rewrite (guarded_pre_raises env _ _ _ w (TelegramError msg) w1
               (Raise (TelegramError refused))
               (tick_api (log (EvAnswerCallback "Не получилось перегенерировать 😔" true)
                            w1))).
    + done.
    + unfold liftW. cbn [fst snd]. by rewrite api_call_eq, Hapi0.
    + unfold cb_on_error, bind, liftW. cbn [fst snd]. rewrite api_call_eq.
      cbn [n_api w1 tick_api log]. by rewrite Hapi1.
Qed.

(** X15 at a sample input: the client refuses the stored file. *)
Lemma X15_cb_regenerate_failures_witness :
  trace (cb_regenerate env_download_fails (regen_pressed 7)
           (world_with_last 7 "FILE-1")).2 !! 0
  = Some (EvSendMessage 7 "Ошибка при перегенерации: Bad Request: file is too big").
Proof.
  pose proof (X15_cb_regenerate_failures env_download_fails (world_with_last 7 "FILE-1")
                (regen_pressed 7) "FILE-1" (message_with_video 7 "FILE-1")
                eq_refl ltac:(discriminate)) as (_ & H & _).
  destruct (H "Bad Request: file is too big" false (λ _, eq_refl) eq_refl)
    as (_ & Htrace & _).
  rewrite Htrace. reflexivity.
Defined.

(** ** The files of others *)

Lemma download_file_id_draws env file_id :
  draws_its_path env (download_file_id_to_temp env file_id).
Proof.
  intros w. rewrite download_file_id_to_temp_eq. unfold after_download.
  destruct (env_download env (n_download w)) as [|msg []]; cbn;
    (split; [set_solver|]); (split; [reflexivity|]); congruence.
Qed.

Lemma download_video_draws env message :
  draws_its_path env (download_video_to_temp env message).
Proof.
  intros w. rewrite download_video_to_temp_eq.
  destruct (message_media message) as [file_id|]; [apply download_file_id_draws|].
  cbn. split; [done|]. split; [done|]. discriminate.
Qed.

Lemma extract_last_frame_draws env input_path fmt size w :
  fs w ⊆ fs (extract_last_frame env input_path (Some fmt) size None w).2 ∧
  ∀ f, (extract_last_frame env input_path (Some fmt) size None w).1 = Ok f →
       f = output_path_at env w (Some fmt).
Proof.
  rewrite extract_last_frame_eq. unfold after_run.
  destruct (env_run env (n_run w)) as [wrote|returncode stderr wrote]; cbn zeta.
  - split; [destruct wrote; cbn; set_solver|discriminate].
  - destruct (negb (returncode =? 0)%Z || _); cbn [fst snd];
      (split; [destruct wrote; cbn; set_solver|]); congruence.
Qed.

Lemma after_cleanup_path_keeps env p w x :
  x ∈ fs w → p ≠ Some x → x ∈ fs (after_cleanup_path env p w).
Proof.
  intros Hx Hp. unfold after_cleanup_path.
  destruct p as [p|]; [|done].
  destruct (bool_decide _); [|done].
  destruct (env_unlink env _); cbn; [done|].
  apply elem_of_difference. split; [done|]. rewrite elem_of_singleton. congruence.
Qed.

Ltac fs_chain :=
  repeat match goal with H : fs _ = fs _ |- _ => rewrite H in *; clear H end;
  repeat first [done | eassumption | etrans; [eassumption|]].

(** The [try] and [except] blocks delete nothing, and what they leave in
    the locals are the two paths of the run. *)
Lemma try_block_keeps env (pre : M (World * Locals) unit) download fmt size reply on_error
    added w :
  quiet [] pre → draws_its_path env download →
  (∀ f, quiet (added f) (reply f)) → (∀ e, quiet [] (on_error e)) →
  let block := try_except (pre;;; work env download fmt size reply)
                 is_Exception on_error
                 (w, {| tmp_video_path := None; frame_path := None |}) in
  fs w ⊆ fs block.2.1 ∧
  (∀ p, tmp_video_path block.2.2 = Some p → p = video_path_at env w) ∧
  (∀ f, frame_path block.2.2 = Some f → f = frame_path_at env w fmt).
Proof.
  intros Hpre Hdownload Hreply Herror. cbn zeta.
  unfold try_except, bind, work, is_Exception.
  set (s0 := (w, {| tmp_video_path := None; frame_path := None |})).
  use_quiet Hpre s0.
  destruct (pre s0) as [[[]|e] [w1 l1]]; subst s0; cbn [fst snd is_Exception tmp_video_path frame_path] in *; subst l1;
    cycle 1.
  { use_quiet (Herror e) (w1, {| tmp_video_path := None; frame_path := None |}).
    destruct (on_error e _) as [r [w2 l2]]; cbn [fst snd is_Exception tmp_video_path frame_path] in *. subst l2.
    split; [fs_chain|]. split; discriminate. }
  unfold bind, liftW, assign_tmp_video_path, assign_frame_path, modify.
  cbn [fst snd tmp_video_path frame_path].
  destruct (Hdownload w1) as (Hkeep & Hdraw & Hpath).
  destruct (download w1) as [[p|e] w2]; cbn [fst snd is_Exception tmp_video_path frame_path] in *; cycle 1.
  { use_quiet (Herror e) (w2, {| tmp_video_path := None; frame_path := None |}).
    destruct (on_error e _) as [r [w3 l3]]; cbn [fst snd is_Exception tmp_video_path frame_path] in *. subst l3.
    split; [fs_chain|]. split; discriminate. }
  specialize (Hpath p eq_refl). subst p.
  destruct (extract_last_frame_draws env (video_path_at env w1) fmt (Some size) w2)
    as (Hkeep' & Hframe).
  destruct (extract_last_frame env _ _ _ _ w2) as [[f|e] w3]; cbn [fst snd is_Exception tmp_video_path frame_path] in *; cycle 1.
  { set (l2 := {| tmp_video_path := Some (video_path_at env w1); frame_path := None |}).
    use_quiet (Herror e) (w3, l2).
    destruct (on_error e (w3, l2)) as [r [w4 l4]]; cbn [fst snd is_Exception tmp_video_path frame_path] in *. subst l4.
    split; [fs_chain|].
    split; [|discriminate]. unfold l2. cbn. intros p [= <-].
    by apply video_path_at_uuid. }
  specialize (Hframe f eq_refl). subst f.
  assert (Hf : output_path_at env w2 (Some fmt) = frame_path_at env w fmt).
  { unfold frame_path_at, output_path_at. cbn. by rewrite Hdraw, Huuid. }
  rewrite Hf in *.
  set (l3 := {| tmp_video_path := Some (video_path_at env w1);
                frame_path := Some (frame_path_at env w fmt) |}).
  use_quiet (Hreply (frame_path_at env w fmt)) (w3, l3).
  destruct (reply _ (w3, l3)) as [[[]|e] [w4 l4]]; cbn [fst snd is_Exception tmp_video_path frame_path] in *; subst l4.
  - split; [fs_chain|].
    unfold l3. cbn. split; [intros p [= <-]; by apply video_path_at_uuid|congruence].
  - use_quiet (Herror e) (w4, l3).
    destruct (on_error e (w4, l3)) as [r [w5 l5]]; cbn [fst snd is_Exception tmp_video_path frame_path] in *. subst l5.
    split; [fs_chain|].
    unfold l3. cbn. split; [intros p [= <-]; by apply video_path_at_uuid|congruence].
Qed.

Lemma guarded_keeps env (pre : M (World * Locals) unit) download fmt size reply on_error
    added w x :
  quiet [] pre → draws_its_path env download →
  (∀ f, quiet (added f) (reply f)) → (∀ e, quiet [] (on_error e)) →
  x ∈ fs w → x ≠ video_path_at env w → x ≠ frame_path_at env w fmt →
  x ∈ fs (guarded env (pre;;; work env download fmt size reply) on_error w).2.
Proof.
  intros Hpre Hdownload Hreply Herror Hx Hvideo Hframe.
  pose proof (try_block_keeps env pre download fmt size reply on_error added w
                Hpre Hdownload Hreply Herror) as Hblock.
  cbn zeta in Hblock. unfold guarded, with_locals, try_finally.
  destruct (try_except _ _ _ _) as [r [w1 l1]]. cbn [fst snd] in Hblock.
  destruct Hblock as (Hkeep & Hp & Hf).
  rewrite cleanup_eq. cbn [fst snd].
  apply after_cleanup_path_keeps; [apply after_cleanup_path_keeps|].
  - by apply Hkeep.
  - intros H. by apply Hp in H.
  - intros H. by apply Hf in H.
Qed.

(** X16: a handler deletes no file but its own two.  A file that exists
    when [handle_video] or [cb_regenerate] starts, and is neither the
    video path nor the frame path that the run draws, exists when the
    handler is done, whatever the collaborators do.  The two paths of a
    run differ, so ffmpeg, which is run with [-y], never writes over its
    input. *)
Theorem X16_handlers_delete_only_their_files (env : Env) (w : World) (message : Message)
    (callback : CallbackQuery) (x : string) :
  x ∈ fs w →
  x ≠ video_path_at env w →
  (x ≠ frame_path_at env w (get_user_format w (from_user_id message)) →
   x ∈ fs (handle_video env message w).2) ∧
  (x ≠ frame_path_at env w (get_user_format w (cb_from_user_id callback)) →
   x ∈ fs (cb_regenerate env callback w).2) ∧
  (∀ fmt, video_path_at env w ≠ frame_path_at env w fmt).
Proof.
  intros Hx Hvideo. split; [|split].
  - intros Hframe.
    destruct (env_api env (n_api w)) as [msg|] eqn:Hapi.
    { by rewrite (handle_video_refused env message w msg Hapi). }
    destruct (handle_video_prefix env message w Hapi)
      as (w3 & -> & _ & _ & _ & (Hfs & _ & Huuid & _)).
    set (fmt := get_user_format _ _) in *. set (size := get_user_size _ _).
    change (guarded env (work env (download_video_to_temp env message) fmt size
                           (hv_reply env message fmt size)) (hv_on_error env message) w3)
      with (guarded env (ret tt;;; work env (download_video_to_temp env message) fmt size
                           (hv_reply env message fmt size)) (hv_on_error env message) w3).
    apply (guarded_keeps env _ _ _ _ _ _ (fun f => [EvSendPhoto 0 f "" []])).
    + apply quiet_ret.
    + apply download_video_draws.
    + intros f. apply quiet_hv_reply.
    + intros e. apply quiet_hv_on_error.
    + by rewrite Hfs.
    + by rewrite (video_path_at_uuid env w w3 Huuid).
    + by rewrite (frame_path_at_uuid env w w3 fmt Huuid).
  - intros Hframe.
    destruct (user_last_file_id w !! cb_from_user_id callback) as [file_id|] eqn:Hf;
      [destruct (decide (file_id = "")) as [->|Hne]|].
    + by rewrite cb_regenerate_nothing, api_call_eq by auto.
    + rewrite (cb_regenerate_unfold env callback w file_id Hf Hne).
      apply (guarded_keeps env _ _ _ _ _ _ (fun f => [EvSendPhoto 0 f "" []])); try done.
      * apply quiet_chat_action.
      * apply download_file_id_draws.
      * intros f. apply quiet_cb_reply.
      * intros e. apply quiet_cb_on_error.
    + by rewrite cb_regenerate_nothing, api_call_eq by auto.
  - intros fmt. apply video_path_ne_output_path.
Qed.

(** X16 at a sample input: a file of somebody else in the scratch
    directory is still there after a video was handled. *)
Lemma X16_handlers_delete_only_their_files_witness :
  "/tmp/other.txt"
  ∈ fs (handle_video env_ok (message_with_video 7 "FILE-1")
          (initial_world {["/tmp/other.txt"]})).2.
Proof.
  destruct (X16_handlers_delete_only_their_files env_ok
              (initial_world {["/tmp/other.txt"]})
              (message_with_video 7 "FILE-1") (regen_pressed 7) "/tmp/other.txt")
    as (H & _).
  - cbn [fs initial_world]. set_solver.
  - discriminate.
  - apply H. discriminate.
Defined.

(** ** The configuration *)

Lemma rstrip_slash_no_trailing (s t : string) : rstrip_slash s ≠ t +:+ "/".
Proof.
  revert t. induction s as [|c s IH]; intros t; cbn.
  - by destruct t.
  - destruct (rstrip_slash s) as [|d r] eqn:Hr.
    + case_decide as Hc; [by destruct t|].
      destruct t as [|e [|? ?]]; cbn; [intros [= ->]; done|intros [=]..].
    + destruct t as [|e t]; cbn; [discriminate|].
      intros [= <- H]. by apply (IH t).
Qed.

Lemma rstrip_slash_prefix (s : string) : ∃ n, s = rstrip_slash s +:+ slashes n.
Proof.
  induction s as [|c s (n & IH)]; cbn.
  - by exists 0.
  - destruct (rstrip_slash s) as [|d r] eqn:Hr.
    + case_decide as Hc.
      * subst c. exists (S n). by rewrite IH at 1.
      * exists n. by rewrite IH at 1.
    + exists n. by rewrite IH at 1.
Qed.

Lemma rstrip_slash_slashes (n : nat) : rstrip_slash (slashes n) = "".
Proof. induction n as [|n IH]; cbn; [done|]. by rewrite IH. Qed.

Lemma falsy_is_set (getenv : string → option string) (name : string) :
  falsy (getenv name) = false ↔ is_set getenv name.
Proof.
  unfold falsy, is_set. destruct (getenv name) as [[|c v]|].
  - split; [discriminate|]. by intros (v & [= <-] & H).
  - split; [eauto|done].
  - split; [discriminate|]. by intros (v & [=] & _).
Qed.

(** X17: the configuration read when the module is loaded (lines 21-38).
    Loading succeeds exactly when BOT_TOKEN is set and not empty and one
    of WEBHOOK_BASE_URL and RENDER_EXTERNAL_URL is set and not empty;
    otherwise it raises a [RuntimeError].  On success the token and
    ADMIN_CHAT_ID are those of the environment; the base URL is the value
    of WEBHOOK_BASE_URL when that is set and not empty, of
    RENDER_EXTERNAL_URL otherwise, without its trailing slashes: it does
    not end with a slash, and the webhook URL is the base URL followed by
    /webhook.  The emptiness test comes before the stripping: a base of
    slashes only is accepted, and gives the webhook URL /webhook. *)
Theorem X17_load_config (getenv : string → option string) :
  ((∃ cfg, load_config getenv = Ok cfg) ↔
   is_set getenv "BOT_TOKEN" ∧
   (is_set getenv "WEBHOOK_BASE_URL" ∨ is_set getenv "RENDER_EXTERNAL_URL")) ∧
  (∀ e, load_config getenv = Raise e → ∃ msg, e = RuntimeError msg None) ∧
  (∀ cfg, load_config getenv = Ok cfg →
     getenv "BOT_TOKEN" = Some (BOT_TOKEN cfg) ∧
     config_ADMIN_CHAT_ID cfg = getenv "ADMIN_CHAT_ID" ∧
     WEBHOOK_URL cfg = BASE_WEBHOOK_URL cfg +:+ "/webhook" ∧
     (∀ t, BASE_WEBHOOK_URL cfg ≠ t +:+ "/") ∧
     (∀ v, getenv "WEBHOOK_BASE_URL" = Some v → v ≠ "" →
        ∃ n, v = BASE_WEBHOOK_URL cfg +:+ slashes n) ∧
     (¬ is_set getenv "WEBHOOK_BASE_URL" →
      ∀ v, getenv "RENDER_EXTERNAL_URL" = Some v →
        ∃ n, v = BASE_WEBHOOK_URL cfg +:+ slashes n)) ∧
  (∀ n, is_set getenv "BOT_TOKEN" → getenv "WEBHOOK_BASE_URL" = Some (slashes (S n)) →
     ∃ cfg, load_config getenv = Ok cfg ∧ BASE_WEBHOOK_URL cfg = "" ∧
            WEBHOOK_URL cfg = "/webhook").
Proof.
  unfold load_config.
  pose proof (falsy_is_set getenv "BOT_TOKEN") as Htoken.
  pose proof (falsy_is_set getenv "WEBHOOK_BASE_URL") as Hbase.
  pose proof (falsy_is_set getenv "RENDER_EXTERNAL_URL") as Hrender.
  assert (Hor : falsy (or_else (getenv "WEBHOOK_BASE_URL") (getenv "RENDER_EXTERNAL_URL"))
                = false ↔
                is_set getenv "WEBHOOK_BASE_URL" ∨ is_set getenv "RENDER_EXTERNAL_URL").
  { rewrite <- Hbase, <- Hrender. unfold or_else, falsy.
    destruct (getenv "WEBHOOK_BASE_URL") as [[|c v]|],
             (getenv "RENDER_EXTERNAL_URL") as [[|d u]|]; naive_solver. }
  split; [|split; [|split]].
  - destruct (falsy (getenv "BOT_TOKEN")).
    { split; [by intros [cfg [=]]|]. intros (H & _). by apply Htoken in H. }
    destruct (falsy (or_else _ _)).
    { split; [by intros [cfg [=]]|]. intros (_ & H). by apply Hor in H. }
    split; [|eauto]. intros _. split; [by apply Htoken|by apply Hor].
  - intros e. destruct (falsy (getenv "BOT_TOKEN")); [intros [= <-]; eauto|].
    destruct (falsy (or_else _ _)); [intros [= <-]; eauto|discriminate].
  - intros cfg.
    destruct (falsy (getenv "BOT_TOKEN")) eqn:Ht; [discriminate|].
    destruct (falsy (or_else _ _)) eqn:Hb; [discriminate|].
    intros [= <-]. cbn [BOT_TOKEN config_ADMIN_CHAT_ID WEBHOOK_URL BASE_WEBHOOK_URL].
    split.
    { unfold falsy in Ht. by destruct (getenv "BOT_TOKEN") as [[|c v]|]. }
    split; [reflexivity|]. split; [reflexivity|].
    split; [apply rstrip_slash_no_trailing|]. split.
    + intros v Hv Hne. unfold or_else. rewrite Hv.
      destruct v as [|c v]; [done|]. cbn [default]. apply rstrip_slash_prefix.
    + intros Hunset v Hv.
      assert (or_else (getenv "WEBHOOK_BASE_URL") (getenv "RENDER_EXTERNAL_URL")
              = Some v) as ->.
      { unfold or_else. rewrite Hv.
        destruct (getenv "WEBHOOK_BASE_URL") as [[|c u]|] eqn:Hu; try done.
        destruct Hunset. by exists (String c u). }
      apply rstrip_slash_prefix.
  - intros n Ht Hv. apply Htoken in Ht. rewrite Ht, Hv.
    replace (or_else (Some (slashes (S n))) (getenv "RENDER_EXTERNAL_URL"))
      with (Some (slashes (S n))) by reflexivity.
    replace (falsy (Some (slashes (S n)))) with false by reflexivity.
    eexists. split; [reflexivity|]. cbn [BASE_WEBHOOK_URL WEBHOOK_URL default].
    unfold id. by rewrite rstrip_slash_slashes.
Qed.

(** ** Settings and the next frame *)

(** X18: a setting chosen by button is the setting of the next frame.
    After the data [fmt:<rest>] is handled, a regeneration by the same
    user that succeeds sends a frame file whose extension is the
    normalized format, names that format in the caption and marks it on
    the keyboard, with the size mode as it was; after [size:<rest>], the
    ffmpeg command of the regeneration carries the filter of [<rest>],
    and the format is as it was. *)
Theorem X18_settings_apply_to_next_frame (env : Env) (u : UiWorld)
    (press regen : CallbackQuery) (rest file_id : string) (stderr : list nat) :
  cb_from_user_id regen = cb_from_user_id press →
  user_last_file_id (world u) !! cb_from_user_id press = Some file_id →
  file_id ≠ "" →
  (∀ n, env_api env n = None) →
  env_download env (n_download (world u)) = Downloaded →
  env_run env (n_run (world u)) = Exited 0 stderr true →
  unlink_succeeds env →
  let user_id := cb_from_user_id press in
  let video := video_path_at env (world u) in
  let sent (w' : World) (frame : string) :=
    EvSendPhoto (cb_chat_id regen) frame
      ("Перегенерированный последний кадр." +:+ nl +:+ nl
       +:+ "Формат: " +:+ upper (get_user_format w' user_id) +:+ nl
       +:+ "Размер: " +:+ describe_size (get_user_size w' user_id))
      (build_settings_keyboard w' user_id) in
  (cb_data press = "fmt:" +:+ rest →
   ∃ handler, cb_set_format env press = Some handler ∧
     let w' := world (handler u).2 in
     let frame := frame_path_at env (world u) (frame_format rest) in
     get_user_format w' user_id = frame_format rest ∧
     get_user_size w' user_id = get_user_size (world u) user_id ∧
     frame = gettempdir env +:+ "/last_frame_"
             +:+ uuid_hex (env_uuid4 env (S (n_uuid (world u))))
             +:+ "." +:+ frame_format rest ∧
     (cb_regenerate env regen w').1 = Ok tt ∧
     trace (cb_regenerate env regen w').2 !! 3 = Some (sent w' frame) ∧
     trace (cb_regenerate env regen w').2 !! 4
     = Some (EvRun (ffmpeg_cmd video (get_user_size (world u) user_id) frame) 60)) ∧
  (cb_data press = "size:" +:+ rest →
   ∃ handler, cb_set_size env press = Some handler ∧
     let w' := world (handler u).2 in
     let frame := frame_path_at env (world u) (get_user_format (world u) user_id) in
     describe_size (get_user_size w' user_id) = describe_size rest ∧
     get_user_format w' user_id = get_user_format (world u) user_id ∧
     (cb_regenerate env regen w').1 = Ok tt ∧
     trace (cb_regenerate env regen w').2 !! 3 = Some (sent w' frame) ∧
     trace (cb_regenerate env regen w').2 !! 4
     = Some (EvRun (["ffmpeg"; "-y"; "-sseof"; "-0.1"; "-i"; video]
                    ++ vf_args rest ++ ["-vframes"; "1"; frame]) 60)).
Proof.
  intros Huser Hf Hne Hapi Hdl Hrun Hu. cbn zeta. split.
  - intros Hdata.
    destruct (cb_set_format_eq env press rest u) as (handler & Hsome & Hrun').
    { rewrite Hdata. apply split_colon_fmt. }
    exists handler. split; [exact Hsome|]. rewrite Hrun', !Hapi. cbn [snd world].
    set (w' := tick_api _).
    assert (Hfmt : get_user_format w' (cb_from_user_id press) = frame_format rest).
    { unfold get_user_format, w'. cbn. by rewrite lookup_insert_eq. }
    split; [exact Hfmt|]. split; [reflexivity|]. split.
    { unfold frame_path_at, output_path_at. cbn [default]. unfold id.
      by rewrite (frame_format_fixed _ (frame_format_member rest)). }
    rewrite (cb_regenerate_success env w' regen file_id stderr)
      by (try done; by rewrite Huser).
    rewrite Huser, Hfmt. cbn [fst snd]. split; [reflexivity|]. split; reflexivity.
  - intros Hdata.
    destruct (cb_set_size_eq env press rest u)
      as (size & handler & Hsome & Hin & Hfix & Hdescr & Hvf & Hrun').
    { rewrite Hdata. apply split_colon_size. }
    exists handler. split; [exact Hsome|]. rewrite Hrun', !Hapi. cbn [snd world].
    set (w' := tick_api _).
    assert (Hsize : get_user_size w' (cb_from_user_id press) = size).
    { unfold get_user_size, w'. cbn. by rewrite lookup_insert_eq. }
    rewrite Hsize. split; [exact Hdescr|]. split; [reflexivity|].
    rewrite (cb_regenerate_success env w' regen file_id stderr)
      by (try done; by rewrite Huser).
    rewrite Huser, Hsize. cbn [fst snd]. split; [reflexivity|]. split; [reflexivity|].
    unfold after_unlinks, after_run.
    cbn [trace set_fs tick_unlink tick_api tick_run log lookup list_lookup].
    unfold cmd_at, ffmpeg_cmd. cbn [default]. unfold id. rewrite Hvf. reflexivity.
Qed.

(** X18 at a sample input: after the JPG button, the regenerated frame
    is a jpg file. *)
Lemma X18_settings_apply_witness :
  ∃ handler,
    cb_set_format env_ok {| cb_from_user_id := 7; cb_chat_id := 7; cb_data := "fmt:jpg" |}
      = Some handler ∧
    ∃ caption kb,
      trace (cb_regenerate env_ok (regen_pressed 7)
               (world (handler {| world := world_with_last 7 "FILE-1"; edited := [] |}).2)).2
        !! 3
      = Some (EvSendPhoto 7 "/tmp/last_frame_0000000000000000000000000000000b.jpg"
                caption kb).
Proof.
  destruct (X18_settings_apply_to_next_frame env_ok
              {| world := world_with_last 7 "FILE-1"; edited := [] |}
              {| cb_from_user_id := 7; cb_chat_id := 7; cb_data := "fmt:jpg" |}
              (regen_pressed 7) "jpg" "FILE-1" [] eq_refl eq_refl ltac:(discriminate)
              (λ _, eq_refl) eq_refl eq_refl (λ _, eq_refl)) as (H & _).
  destruct (H eq_refl) as (handler & Hsome & _ & _ & _ & _ & Hsent & _).
  exists handler. split; [exact Hsome|]. eexists _, _. exact Hsent.
Defined.
